(** * Verification of the project bootstrapper [init.py]

    The script is a linear sequence of filesystem operations and external
    process invocations.  The development models

    - pathlib paths and their string rendering ([Path], [str_path]);
    - the project tree as a finite-map tree ([node], [FS]);
    - Python's exceptions, [print] and [subprocess.run] as a small
      state / trace / error monad ([M]);
    - every method of [ProjectInitializer] and [main].

    External programs (venv creation, pip, pre-commit) are not part of the
    repository: they are a parameter [exec] of the whole development, a
    function from the command line and the project tree to a return code
    and a new project tree.  What they write to the terminal is not
    observed.  File metadata (permissions, timestamps, symbolic links) is
    not part of the state: a node is either a regular file with its
    contents or a directory with its entries.

    The first part holds the model, translated from [init.py] method by
    method, and the vocabulary of the statements; the second part the
    lemmas and the theorems. *)

From Stdlib Require Import ZArith.
From stdpp Require Import gmap strings list fin_maps.

Set Warnings "-register-all,-clear-no-such-hyp".



(** ** Paths (pathlib) *)

Module PathLib.

(** A pure path: the anchor (drive and root, e.g. "/" or "C:\") and the
    remaining components. *)
Record Path := mkPath { anchor : string; parts : list string }.

(** [p / name] for a name that is a single relative component. *)
Definition joinpath (p : Path) (name : string) : Path :=
  {| anchor := anchor p; parts := parts p ++ [name] |}.

Fixpoint join (sep : string) (l : list string) : string :=
  match l with
  | [] => ""
  | [x] => x
  | x :: l' => x +:+ sep +:+ join sep l'
  end.

(** [str(p)]; [sep] is the separator of the path flavour of the running
    interpreter (independent of what [platform.system] reports). *)
Definition str_path (sep : string) (p : Path) : string :=
  match anchor p, parts p with
  | "", [] => "."
  | a, l => a +:+ join sep l
  end.

End PathLib.
Export PathLib.

Notation "p // name" := (joinpath p name) (at level 40, left associativity).

(** ** The project tree *)

Module FileSystem.

(** A location below the project root, as the list of its components. *)
Definition path := list string.

Inductive node :=
| File (data : string)
| Dir (entries : gmap string node).

(** The entries of the project root (which is a directory). *)
Abbreviation FS := (gmap string node).

Fixpoint lookup_node (n : node) (p : path) : option node :=
  match p with
  | [] => Some n
  | c :: p' =>
      match n with
      | Dir m => match m !! c with
                 | Some n' => lookup_node n' p'
                 | None => None
                 end
      | File _ => None
      end
  end.

(** [os.stat]: the node at [p], if every component resolves. *)
Definition stat (fs : FS) (p : path) : option node := lookup_node (Dir fs) p.

(** [Path.exists()] *)
Definition path_exists (fs : FS) (p : path) : bool :=
  match stat fs p with Some _ => true | None => false end.

Definition is_dir (fs : FS) (p : path) : bool :=
  match stat fs p with Some (Dir _) => true | _ => false end.

Definition is_file (fs : FS) (p : path) : bool :=
  match stat fs p with Some (File _) => true | _ => false end.

(** Bind the name at [p] to [x]; the parent of [p] has to be an existing
    directory.  [None] when it is not. *)
Fixpoint put_node (n : node) (p : path) (x : node) : option node :=
  match p with
  | [] => Some x
  | c :: p' =>
      match n with
      | Dir m =>
          match p' with
          | [] => Some (Dir (<[c := x]> m))
          | _ => match m !! c with
                 | Some n' =>
                     match put_node n' p' x with
                     | Some n'' => Some (Dir (<[c := n'']> m))
                     | None => None
                     end
                 | None => None
                 end
          end
      | File _ => None
      end
  end.

Definition put (fs : FS) (p : path) (x : node) : option FS :=
  match p with
  | [] => None
  | _ => match put_node (Dir fs) p x with
         | Some (Dir m) => Some m
         | _ => None
         end
  end.

End FileSystem.
Export FileSystem.

(** ** Exceptions, events and the monad of the script *)

Module Py.

Inductive oserror :=
| FileNotFoundError
| FileExistsError
| IsADirectoryError
| NotADirectoryError
| PermissionError.

(** [CalledProcessError] and [OSError] derive from [Exception];
    [SystemExit] derives from [BaseException] only. *)
Inductive exn :=
| CalledProcessError (returncode : Z) (cmd : list string)
| OSError (k : oserror)
| SystemExit (code : Z).

Definition is_Exception (e : exn) : bool :=
  match e with
  | SystemExit _ => false
  | _ => true
  end.

Definition is_CalledProcessError (e : exn) : bool :=
  match e with
  | CalledProcessError _ _ => true
  | _ => false
  end.

Inductive result (A : Type) :=
| Ok (a : A)
| Raise (e : exn).
Arguments Ok {A} a.
Arguments Raise {A} e.

(** The methods of [ProjectInitializer] whose calls are observed. *)
Inductive method :=
| CreateVirtualEnvironment
| InstallDependencies
| SetupEnvironmentFile
| CreateProjectDirectories
| SetupGitHooks
| CreateClaudeConfig
| PrintNextSteps.

(** What an observer of the running script sees, in order. *)
Inductive event :=
| EvCall (m : method)
| EvReturn (m : method)
| EvPrint (line : string)
| EvExec (argv : list string)
| EvRaise (e : exn).

(** What an external program does: it runs to completion with a return
    code and a new project tree, or it cannot be started. *)
Inductive proc_outcome :=
| Exited (returncode : Z) (fs' : FS)
| NotStarted (k : oserror).

Definition M (A : Type) : Type := FS → result A * FS * list event.

Definition ret {A} (a : A) : M A := λ fs, (Ok a, fs, []).

Definition bind {A B} (m : M A) (k : A → M B) : M B := λ fs,
  match m fs with
  | (Ok a, fs', t) => let '(r, fs'', t') := k a fs' in (r, fs'', t ++ t')
  | (Raise e, fs', t) => (Raise e, fs', t)
  end.

Definition raise {A} (e : exn) : M A := λ fs, (Raise e, fs, [EvRaise e]).

Definition emit (ev : event) : M unit := λ fs, (Ok tt, fs, [ev]).

Definition get_fs : M FS := λ fs, (Ok fs, fs, []).

Definition set_fs (fs' : FS) : M unit := λ _, (Ok tt, fs', []).

(** [try: body / except ...: handler]; [handler e = None] when no
    [except] clause matches [e]. *)
Definition try_except {A} (body : M A) (handler : exn → option (M A)) : M A :=
  λ fs,
  match body fs with
  | (Ok a, fs', t) => (Ok a, fs', t)
  | (Raise e, fs', t) =>
      match handler e with
      | Some h => let '(r, fs'', t') := h fs' in (r, fs'', t ++ t')
      | None => (Raise e, fs', t)
      end
  end.

Definition res {A} (x : result A * FS * list event) : result A := x.1.1.
Definition fs_of {A} (x : result A * FS * list event) : FS := x.1.2.
Definition trace {A} (x : result A * FS * list event) : list event := x.2.

Definition succeeded {A} (r : result A) : bool :=
  match r with Ok _ => true | Raise _ => false end.

(** Exit status of the interpreter when the program ends with [r]. *)
Definition exit_status {A} (r : result A) : Z :=
  match r with
  | Ok _ => 0
  | Raise (SystemExit c) => c
  | Raise _ => 1
  end.

End Py.
Export Py.

Declare Scope py_scope.
Delimit Scope py_scope with py.
Notation "x <- c ;; k" := (bind c (λ x, k))
  (at level 100, c at next level, right associativity) : py_scope.
Notation "c ;;; k" := (bind c (λ _, k))
  (at level 100, right associativity) : py_scope.
Open Scope py_scope.

(** ** Library calls used by the script *)

Module PyLib.

(** The errno of a failed path resolution: a regular file in the way
    gives ENOTDIR, a missing entry ENOENT. *)
Fixpoint resolve_error (n : node) (p : path) : oserror :=
  match p with
  | [] => FileNotFoundError
  | c :: p' =>
      match n with
      | File _ => NotADirectoryError
      | Dir m => match m !! c with
                 | Some n' => resolve_error n' p'
                 | None => FileNotFoundError
                 end
      end
  end.

(** Create or replace the entry at [p]. *)
Definition create (p : path) (x : node) : M unit := λ fs,
  match put fs p x with
  | Some fs' => (Ok tt, fs', [])
  | None => raise (OSError (resolve_error (Dir fs) p)) fs
  end.

Definition print (line : string) : M unit := emit (EvPrint line).

(** [sys.exit(code)] *)
Definition sys_exit {A} (code : Z) : M A := raise (SystemExit code).

(** [p.exists()] *)
Definition exists_ (p : path) : M bool := λ fs, (Ok (path_exists fs p), fs, []).

(** [p.mkdir(exist_ok=True)] *)
Definition mkdir_exist_ok (p : path) : M unit := λ fs,
  match stat fs p with
  | Some (Dir _) => (Ok tt, fs, [])
  | Some (File _) => raise (OSError FileExistsError) fs
  | None => create p (Dir ∅) fs
  end.

(** [p.touch()]: an existing entry only has its timestamp bumped, a
    missing one becomes an empty regular file. *)
Definition touch (p : path) : M unit := λ fs,
  match stat fs p with
  | Some _ => (Ok tt, fs, [])
  | None => create p (File "") fs
  end.

(** [p.write_text(data)] *)
Definition write_text (p : path) (data : string) : M unit := λ fs,
  match stat fs p with
  | Some (Dir _) => raise (OSError IsADirectoryError) fs
  | _ => create p (File data) fs
  end.

Definition basename (p : path) : string := default "" (last p).

(** [shutil.copy(src, dst)]: the source is opened first; a destination
    that is a directory receives a file named like the source. *)
Definition shutil_copy (src dst : path) : M unit := λ fs,
  match stat fs src with
  | None => raise (OSError (resolve_error (Dir fs) src)) fs
  | Some (Dir _) => raise (OSError IsADirectoryError) fs
  | Some (File data) =>
      let dst' := if is_dir fs dst then dst ++ [basename src] else dst in
      write_text dst' data fs
  end.

(** [for x in l: body(x)] *)
Fixpoint for_each {A} (l : list A) (body : A → M unit) : M unit :=
  match l with
  | [] => ret tt
  | x :: l' => body x ;;; for_each l' body
  end.

(** A method call, as the observer sees it: entered, and left again
    unless an exception escapes. *)
Definition call {A} (m : method) (body : M A) : M A :=
  emit (EvCall m) ;;; r <- body ;; emit (EvReturn m) ;;; ret r.

End PyLib.
Export PyLib.

(** ** The interpreter and its surroundings *)

Record Runtime := {
  (** what running an external command does to the project tree *)
  exec : list string → FS → proc_outcome;
  (** [str(e)] for an exception object *)
  str_exn : exn → string;
  (** separator of the interpreter's path flavour *)
  sep : string;
  sys_executable : string;
  (** [Path(__file__).parent] *)
  file_parent : Path;
  (** [platform.system()] *)
  platform_system : string
}.

(** [subprocess.run(argv, check=True)] *)
Definition subprocess_run_check (rt : Runtime) (argv : list string) : M unit :=
  emit (EvExec argv) ;;;
  fs <- get_fs ;;
  match exec rt argv fs with
  | NotStarted k => raise (OSError k)
  | Exited rc fs' =>
      set_fs fs' ;;;
      if bool_decide (rc = 0%Z) then ret tt
      else raise (CalledProcessError rc argv)
  end.

(** ** [class ProjectInitializer] *)

Record ProjectInitializer := {
  project_root : Path;
  venv_name : string;
  os_type : string
}.

Definition nl : string := String (Ascii.ascii_of_nat 10) "".

Definition pre_commit_content : string :=
"repos:
  - repo: https://github.com/psf/black
    rev: v25.1.0
    hooks:
      - id: black
        language_version: python3
  - repo: https://github.com/pre-commit/mirrors-mypy
    rev: v1.5.0
    hooks:
      - id: mypy
        additional_dependencies: [types-requests]
".

Definition claude_content : string :=
"# Project-specific Claude Configuration

## Project Overview
AI Code Assist Boilerplate - A foundation for AI-assisted development

## Key Technologies
- Python 3.7+
- PowerShell 7.0+
- Claude CLI
- Gemini CLI

## Development Guidelines
1. Follow PEP 8 for Python code
2. Use type hints for all functions
3. Write comprehensive docstrings
4. Maintain cross-platform compatibility

## Project Structure
- `/src` - Source code
- `/tests` - Test files
- `/scripts` - Utility scripts
- `/configs` - Configuration files
- `/docs` - Documentation

## Testing
Run tests with: `pytest`
Run with coverage: `pytest --cov=src`

## Code Quality
- Format: `black .`
- Lint: `flake8`
- Type check: `mypy src/`
".

(** [__init__] *)
Definition new_ProjectInitializer (rt : Runtime) : ProjectInitializer :=
  {| project_root := file_parent rt;
     venv_name := ".venv";
     os_type := platform_system rt |}.

(** The path object [self.project_root / c1 / ... / cn] of the location
    [[c1; ...; cn]] of the project tree. *)
Definition under_root (self : ProjectInitializer) (p : path) : Path := foldl joinpath (project_root self) p.

Definition str (rt : Runtime) (self : ProjectInitializer) (p : path) : string := str_path (sep rt) (under_root self p).

Definition directories : list string := ["src"; "tests"; "scripts"; "data"; ".claude"].

Definition get_pip_command (rt : Runtime) (self : ProjectInitializer) : string :=
  if bool_decide (os_type self = "Windows")
  then str rt self [venv_name self; "Scripts"; "pip"]
  else str rt self [venv_name self; "bin"; "pip"].

Definition create_virtual_environment (rt : Runtime) (self : ProjectInitializer) : M unit :=
  call CreateVirtualEnvironment (
    print "📦 Creating virtual environment..." ;;;
    let venv_path := [venv_name self] in
    found <- exists_ venv_path ;;
    if found : bool then
      print ("✅ Virtual environment already exists at " +:+ str rt self venv_path)
    else
      (subprocess_run_check rt [sys_executable rt; "-m"; "venv"; str rt self venv_path] ;;;
       print ("✅ Virtual environment created at " +:+ str rt self venv_path))).

Definition install_dependencies (rt : Runtime) (self : ProjectInitializer) : M unit :=
  call InstallDependencies (
    print "📥 Installing dependencies..." ;;;
    let pip_cmd := get_pip_command rt self in
    subprocess_run_check rt [pip_cmd; "install"; "--upgrade"; "pip"] ;;;
    let requirements_file := ["requirements.txt"] in
    found <- exists_ requirements_file ;;
    if found : bool then
      (subprocess_run_check rt [pip_cmd; "install"; "-r"; str rt self requirements_file] ;;;
       print "✅ Dependencies installed successfully")
    else
      print "⚠️  No requirements.txt found").

Definition setup_environment_file (self : ProjectInitializer) : M unit :=
  call SetupEnvironmentFile (
    print "🔧 Setting up environment file..." ;;;
    let env_example := [".env.example"] in
    let env_file := [".env"] in
    found <- exists_ env_file ;;
    if found : bool then
      print "✅ .env file already exists"
    else
      (have_example <- exists_ env_example ;;
       if have_example : bool then
         (shutil_copy env_example env_file ;;;
          print "✅ Created .env file from .env.example" ;;;
          print "⚠️  Please update .env with your actual API keys")
       else
         print "⚠️  No .env.example found")).

(** The body of the loop of [create_project_directories]. *)
Definition make_directory (dir_name : string) : M unit :=
  let dir_path := [dir_name] in
  mkdir_exist_ok dir_path ;;;
  (* Create __init__.py for Python packages *)
  if bool_decide (dir_name ∈ ["src"; "tests"]) then
    let init_file := dir_path ++ ["__init__.py"] in
    touch init_file
  else ret tt.

Definition create_project_directories (self : ProjectInitializer) : M unit :=
  call CreateProjectDirectories (
    print "📁 Creating project directories..." ;;;
    for_each directories make_directory ;;;
    print "✅ Project directories created").

Definition setup_git_hooks (rt : Runtime) (self : ProjectInitializer) : M unit :=
  call SetupGitHooks (
    print "🪝 Setting up git hooks..." ;;;
    let pip_cmd := get_pip_command rt self in
    try_except
      (subprocess_run_check rt [pip_cmd; "install"; "pre-commit"] ;;;
       let pre_commit_config := [".pre-commit-config.yaml"] in
       found <- exists_ pre_commit_config ;;
       (if negb found then write_text pre_commit_config pre_commit_content
        else ret tt) ;;;
       let pre_commit_cmd :=
         if bool_decide (os_type self = "Windows")
         then str rt self [venv_name self; "Scripts"; "pre-commit"]
         else str rt self [venv_name self; "bin"; "pre-commit"] in
       subprocess_run_check rt [pre_commit_cmd; "install"] ;;;
       print "✅ Git hooks installed")
      (λ e, if is_Exception e
            then Some (print ("⚠️  Could not set up git hooks: " +:+ str_exn rt e))
            else None)).

Definition create_claude_config (self : ProjectInitializer) : M unit :=
  call CreateClaudeConfig (
    print "🤖 Setting up Claude configuration..." ;;;
    let claude_dir := [".claude"] in
    let claude_config := claude_dir ++ ["CLAUDE.md"] in
    found <- exists_ claude_config ;;
    if negb found then
      (write_text claude_config claude_content ;;;
       print "✅ Claude configuration created")
    else
      print "✅ Claude configuration already exists").

Definition print_next_steps (self : ProjectInitializer) : M unit :=
  call PrintNextSteps (
    print (nl +:+ "🎉 Project initialization complete!") ;;;
    print (nl +:+ "📋 Next steps:") ;;;
    print "1. Update .env file with your API keys" ;;;
    (if bool_decide (os_type self = "Windows") then
       print ("2. Activate virtual environment: .\" +:+ venv_name self
              +:+ "\Scripts\activate")
     else
       print ("2. Activate virtual environment: " +:+ "source "
              +:+ venv_name self +:+ "/bin/activate")) ;;;
    print "3. Run tests: pytest" ;;;
    print "4. Start developing! 🚀").

(** The body of the [try] block of [run]. *)
Definition run_steps (rt : Runtime) (self : ProjectInitializer) : M unit :=
  create_virtual_environment rt self ;;;
  install_dependencies rt self ;;;
  setup_environment_file self ;;;
  create_project_directories self ;;;
  setup_git_hooks rt self ;;;
  create_claude_config self ;;;
  print_next_steps self.

Definition run (rt : Runtime) (self : ProjectInitializer) : M unit :=
  print ("🚀 Initializing AI Code Assist Boilerplate..." +:+ nl) ;;;
  try_except (run_steps rt self)
    (λ e, if is_CalledProcessError e then
            Some (print (nl +:+ "❌ Error during initialization: " +:+ str_exn rt e) ;;;
                  sys_exit 1)
          else if is_Exception e then
            Some (print (nl +:+ "❌ Unexpected error: " +:+ str_exn rt e) ;;;
                  sys_exit 1)
          else None).


(** [main], from the point where [parser.parse_args()] has returned the
    two flags.  What argparse does by itself before that (exit with
    status 2 on an unrecognised argument, with status 0 on [--help]) is
    library behaviour outside this model. *)
Definition main (rt : Runtime) (skip_venv skip_deps : bool) : M unit :=
  let initializer := new_ProjectInitializer rt in
  if negb skip_venv && negb skip_deps then
    run rt initializer
  else
    (print "⚠️  Partial initialization mode" ;;;
     (if skip_venv then print "  - Skipping virtual environment creation" else ret tt) ;;;
     (if skip_deps then print "  - Skipping dependency installation" else ret tt) ;;;
     print (nl +:+ "Run without flags for complete initialization.")).

(** * Vocabulary of the statements *)

(** Two observations of one location agree on its kind: both absent, both
    directories, or both regular files with the same contents. *)
Definition same_kind (a b : option node) : Prop :=
  match a, b with
  | None, None => True
  | Some (File d), Some (File d') => d = d'
  | Some (Dir _), Some (Dir _) => True
  | _, _ => False
  end.

(** A node without entries below it. *)
Definition leaf (x : node) : Prop := x = Dir ∅ ∨ ∃ d, x = File d.

Definition is_step (ev : event) : bool :=
  match ev with EvCall _ | EvReturn _ => true | _ => false end.

(** The method calls and returns of a trace, in order. *)
Definition step_events (t : list event) : list event := List.filter is_step t.

(** A computation inside which no observed method is called. *)
Definition quiet {A} (m : M A) : Prop := ∀ fs, step_events (trace (m fs)) = [].

(** A setup step: the observed method [m] around a quiet body. *)
Definition step_of (m : method) (s : M unit) : Prop :=
  ∃ body, quiet body ∧ s = call m body.

Definition no_exit {A} (m : M A) : Prop :=
  ∀ fs e, res (m fs) = Raise e → is_Exception e = true.

Definition is_print (ev : event) : bool :=
  match ev with EvPrint _ => true | _ => false end.

Definition is_call (ev : event) : bool :=
  match ev with EvCall _ => true | _ => false end.

Definition is_exec (ev : event) : bool :=
  match ev with EvExec _ => true | _ => false end.

Definition setup_steps : list method :=
  [CreateVirtualEnvironment; InstallDependencies; SetupEnvironmentFile;
   CreateProjectDirectories; SetupGitHooks; CreateClaudeConfig].

(** What the observer sees of methods that ran to completion one after
    the other. *)
Definition completed (ms : list method) : list event :=
  flat_map (λ m, [EvCall m; EvReturn m]) ms.

Definition banner : string := "🚀 Initializing AI Code Assist Boilerplate..." +:+ nl.

(** ** A sample environment

    A project directory like the one of the test fixtures, and external
    tools that behave as expected except for the commands singled out by
    [fails]. *)

Definition is_venv_command (argv : list string) : bool :=
  bool_decide (take 2 (drop 1 argv) = ["-m"; "venv"]).

Definition exec_sample (fails : list string → bool) (argv : list string) (fs : FS)
  : proc_outcome :=
  if is_venv_command argv then Exited 0 (<[".venv" := Dir ∅]> fs)
  else Exited (if fails argv then 1 else 0) fs.

Definition str_exn_sample (e : exn) : string :=
  match e with
  | CalledProcessError _ _ => "Command returned non-zero exit status"
  | OSError _ => "OS error"
  | SystemExit _ => ""
  end.

Definition rt_sample (fails : list string → bool) : Runtime :=
  {| exec := exec_sample fails;
     str_exn := str_exn_sample;
     sep := "/";
     sys_executable := "/usr/bin/python3";
     file_parent := mkPath "/" ["home"; "dev"; "project"];
     platform_system := "Linux" |}.

Definition never : list string → bool := λ _, false.

(** An initializer made while [platform.system] reports [os]. *)
Definition self_on (os : string) : ProjectInitializer :=
  new_ProjectInitializer
    {| exec := exec_sample never;
       str_exn := str_exn_sample;
       sep := "/";
       sys_executable := "/usr/bin/python3";
       file_parent := mkPath "/" ["home"; "dev"; "project"];
       platform_system := os |}.

Definition fails_pre_commit (argv : list string) : bool :=
  match argv with
  | [_; "install"; "pre-commit"] => true
  | _ => false
  end.

Definition fails_pip_upgrade (argv : list string) : bool :=
  match argv with
  | [_; "install"; "--upgrade"; "pip"] => true
  | _ => false
  end.

Definition fs_sample : FS :=
  {[ ".env.example" := File "API_KEY=your_key_here";
     "requirements.txt" := File "requests>=2.28.1" ]}.

(** The reading of C1 as it is worded: whenever an exception is raised
    while [run] executes, the exit status is 1 and no method is called
    afterwards. *)
Definition every_exception_fatal (rt : Runtime) (self : ProjectInitializer) (fs : FS)
  : Prop :=
  ∀ e t1 t2,
    is_Exception e = true →
    trace (run rt self fs) = t1 ++ EvRaise e :: t2 →
    exit_status (res (run rt self fs)) = 1%Z ∧ existsb is_call t2 = false.

Definition pip_upgrade (rt : Runtime) (self : ProjectInitializer) : list string :=
  [get_pip_command rt self; "install"; "--upgrade"; "pip"].

(** The reading of C9 as it is worded: without [requirements.txt] the step
    does not raise. *)
Definition missing_requirements_harmless
    (rt : Runtime) (self : ProjectInitializer) (fs : FS) : Prop :=
  path_exists fs ["requirements.txt"] = false →
  succeeded (res (install_dependencies rt self fs)) = true.

Definition fs_no_requirements : FS :=
  {[ ".venv" := Dir ∅; ".env.example" := File "API_KEY=your_key_here" ]}.

(** [P] holds after [m] whenever it held before, however [m] ends. *)
Definition inv (P : FS → Prop) {A} (m : M A) : Prop :=
  ∀ fs, P fs → P (fs_of (m fs)).

(** The external commands that [setup_git_hooks] runs. *)
Definition git_hooks_commands (rt : Runtime) (self : ProjectInitializer)
  : list (list string) :=
  [ [get_pip_command rt self; "install"; "pre-commit"];
    [ (if bool_decide (os_type self = "Windows")
       then str rt self [venv_name self; "Scripts"; "pre-commit"]
       else str rt self [venv_name self; "bin"; "pre-commit"]);
      "install" ] ].

(** None of the commands [cmds] changes what is observed at [p]. *)
Definition external_tools_keep (rt : Runtime) (cmds : list (list string)) (p : path)
  : Prop :=
  ∀ argv fs rc fs',
    argv ∈ cmds → exec rt argv fs = Exited rc fs' → stat fs' p = stat fs p.

(** The file or directory whose presence makes a step skip its work. *)
Definition target (self : ProjectInitializer) (m : method) : option path :=
  match m with
  | CreateVirtualEnvironment => Some [venv_name self]
  | SetupEnvironmentFile => Some [".env"]
  | SetupGitHooks => Some [".pre-commit-config.yaml"]
  | CreateClaudeConfig => Some [".claude"; "CLAUDE.md"]
  | _ => None
  end.

Definition method_body (rt : Runtime) (self : ProjectInitializer) (m : method) : M unit :=
  match m with
  | CreateVirtualEnvironment => create_virtual_environment rt self
  | InstallDependencies => install_dependencies rt self
  | SetupEnvironmentFile => setup_environment_file self
  | CreateProjectDirectories => create_project_directories self
  | SetupGitHooks => setup_git_hooks rt self
  | CreateClaudeConfig => create_claude_config self
  | PrintNextSteps => print_next_steps self
  end.

Definition fs_configured : FS :=
  {[ ".venv" := Dir ∅;
     ".env" := File "API_KEY=secret";
     ".pre-commit-config.yaml" := File "repos: []";
     ".claude" := Dir {[ "CLAUDE.md" := File "# mine" ]} ]}.

(** Everything that exists in [fs] exists in [fs'] with the same kind, and
    with the same contents if it is a regular file. *)
Definition extends (fs fs' : FS) : Prop :=
  ∀ q, path_exists fs q = true → same_kind (stat fs q) (stat fs' q).

(** A directory of the list is in its final state: it exists, and so does
    its [__init__.py] if it is a package directory. *)
Definition settled (fs : FS) (d : string) : Prop :=
  is_dir fs [d] = true ∧
  (d ∈ ["src"; "tests"] → path_exists fs [d; "__init__.py"] = true).

Definition fs_partial : FS :=
  {[ "src" := Dir {[ "__init__.py" := File "VERSION = 1" ]};
     "data" := Dir {[ "raw.csv" := File "a,b" ]} ]}.

Definition init_files : list path := [["src"; "__init__.py"]; ["tests"; "__init__.py"]].

(** [s(); s()] *)
Definition twice (s : M unit) : M unit := s ;;; s.

Definition venv_command (rt : Runtime) (self : ProjectInitializer) : list string :=
  [sys_executable rt; "-m"; "venv"; str rt self [venv_name self]].

(** The contract of the venv tool: when it reports success, the
    environment directory exists. *)
Definition venv_tool_creates (rt : Runtime) (self : ProjectInitializer) (fs : FS) : Prop :=
  ∀ fs', exec rt (venv_command rt self) fs = Exited 0 fs' →
         path_exists fs' [venv_name self] = true.

(** ** Vocabulary of the further properties *)

(** The external commands in a trace, in the order in which they ran. *)
Definition exec_events (t : list event) : list event := List.filter is_exec t.

(** The directory of the virtual environment that holds the executables. *)
Definition scripts_dir (self : ProjectInitializer) : string :=
  if bool_decide (os_type self = "Windows") then "Scripts" else "bin".

Definition install_requirements (rt : Runtime) (self : ProjectInitializer) : list string :=
  [get_pip_command rt self; "install"; "-r"; str rt self ["requirements.txt"]].

Definition hooks_pip_command (rt : Runtime) (self : ProjectInitializer) : list string :=
  [get_pip_command rt self; "install"; "pre-commit"].

Definition hooks_install_command (rt : Runtime) (self : ProjectInitializer) : list string :=
  [ (if bool_decide (os_type self = "Windows")
     then str rt self [venv_name self; "Scripts"; "pre-commit"]
     else str rt self [venv_name self; "bin"; "pre-commit"]);
    "install" ].

(** Did the command run to completion with return code 0? *)
Definition exited_ok (o : proc_outcome) : bool :=
  match o with
  | Exited rc _ => bool_decide (rc = 0%Z)
  | NotStarted _ => false
  end.

(** The project tree after the command: a command that could not be
    started leaves it as it was. *)
Definition tree_after (o : proc_outcome) (fs : FS) : FS :=
  match o with
  | Exited _ fs' => fs'
  | NotStarted _ => fs
  end.

(** The exception that [subprocess.run(argv, check=True)] raises for an
    outcome that is not a success. *)
Definition failure_of (argv : list string) (o : proc_outcome) : exn :=
  match o with
  | Exited rc _ => CalledProcessError rc argv
  | NotStarted k => OSError k
  end.

Definition fails_requirements (argv : list string) : bool :=
  match argv with
  | [_; "install"; "-r"; _] => true
  | _ => false
  end.

Definition fails_venv (argv : list string) : bool := is_venv_command argv.

(** A runtime like the sample one in which every external command has
    the outcome [o tree]. *)
Definition rt_uniform (o : FS → proc_outcome) : Runtime :=
  {| exec := λ _ fs, o fs;
     str_exn := str_exn_sample;
     sep := "/";
     sys_executable := "/usr/bin/python3";
     file_parent := mkPath "/" ["home"; "dev"; "project"];
     platform_system := "Linux" |}.

(** Every command runs, changes nothing and returns [rc]. *)
Definition rt_exit (rc : Z) : Runtime := rt_uniform (λ fs, Exited rc fs).

(** No command can be started. *)
Definition rt_no_tools : Runtime := rt_uniform (λ _, NotStarted FileNotFoundError).

(** A project in which the name [scripts] is taken by a regular file. *)
Definition fs_clash : FS :=
  {[ "scripts" := File "#!/bin/sh";
     "data" := Dir {[ "raw.csv" := File "a,b" ]} ]}.

(** The tree in which [pre-commit install] runs: the configuration has
    been written if it was missing. *)
Definition with_pre_commit_config (fs : FS) : FS :=
  if path_exists fs [".pre-commit-config.yaml"] then fs
  else <[".pre-commit-config.yaml" := File pre_commit_content]> fs.

Definition hooks_warning (rt : Runtime) (e : exn) : event :=
  EvPrint ("⚠️  Could not set up git hooks: " +:+ str_exn rt e).

(** A project that has been initialized already. *)
Definition fs_initialized : FS :=
  {[ ".venv" := Dir {[ "bin" := Dir {[ "pip" := File "#!python" ]} ]};
     ".env" := File "API_KEY=secret";
     ".env.example" := File "API_KEY=your_key_here";
     ".pre-commit-config.yaml" := File "repos: []";
     "src" := Dir {[ "__init__.py" := File "" ]};
     "tests" := Dir {[ "__init__.py" := File "" ]};
     "scripts" := Dir ∅;
     "data" := Dir ∅;
     ".claude" := Dir {[ "CLAUDE.md" := File "# mine" ]} ]}.

(** The message of the handler of [run] for the exception [e]. *)
Definition failure_message (rt : Runtime) (e : exn) : string :=
  nl +:+ (if is_CalledProcessError e
          then "❌ Error during initialization: "
          else "❌ Unexpected error: ") +:+ str_exn rt e.

(** The part of the sequence from [create_project_directories] to
    [create_claude_config]. *)
Definition directories_to_claude_config (rt : Runtime) (self : ProjectInitializer)
  : M unit :=
  create_project_directories self ;;;
  setup_git_hooks rt self ;;;
  create_claude_config self.

(** The external commands of a run, in the order of the source. *)
Definition run_commands (rt : Runtime) (self : ProjectInitializer) : list event :=
  [EvExec (venv_command rt self);
   EvExec (pip_upgrade rt self);
   EvExec (install_requirements rt self);
   EvExec (hooks_pip_command rt self);
   EvExec (hooks_install_command rt self)].

(** ** Vocabulary of the sequence of steps *)

(** The six setup steps, in the order in which C5 lists them. *)
Definition setup_step_list (rt : Runtime) (self : ProjectInitializer) : list (M unit) :=
  [create_virtual_environment rt self;
   install_dependencies rt self;
   setup_environment_file self;
   create_project_directories self;
   setup_git_hooks rt self;
   create_claude_config self].

(** The wording of C5, "sequentially, each step starting only after the
    previous one has completed", as a definition of its own: the outcomes
    of the steps, each one run in the project tree that the previous one
    left, up to and including the first one that raises. *)
Fixpoint in_sequence (steps : list (M unit)) (fs : FS)
  : list (result unit * FS * list event) :=
  match steps with
  | [] => []
  | s :: rest =>
      let out := s fs in
      out :: (if succeeded (res out) then in_sequence rest (fs_of out) else [])
  end.

(** How the last step that ran ended, and the tree it left. *)
Definition last_result (outs : list (result unit * FS * list event)) : result unit :=
  default (Ok tt) (res <$> last outs).

Definition last_tree (fs : FS) (outs : list (result unit * FS * list event)) : FS :=
  default fs (fs_of <$> last outs).

(** [s1(); ...; sn(); k()] *)
Definition chain (steps : list (M unit)) (k : M unit) : M unit :=
  foldr (λ s rest, s ;;; rest) k steps.

(** External commands that succeed and leave a [requirements.txt]
    behind. *)
Definition rt_writes_requirements : Runtime :=
  rt_uniform (λ fs, Exited 0 (<["requirements.txt" := File "requests"]> fs)).

(** * Theory of the project tree *)

Section tree_lemmas.

Implicit Types (n x : node) (p q r : path) (fs : FS).

Lemma lookup_node_app n p r :
  lookup_node n (p ++ r) = lookup_node n p ≫= λ n', lookup_node n' r.
Proof.
  revert n; induction p as [|c p IH]; intros n; simpl; [done|].
  destruct n as [d|m]; [done|]. destruct (m !! c); [apply IH|done].
Qed.

Lemma put_node_cons m c p x :
  put_node (Dir m) (c :: p) x =
    match p with
    | [] => Some (Dir (<[c := x]> m))
    | _ => n' ← m !! c; n'' ← put_node n' p x; Some (Dir (<[c := n'']> m))
    end.
Proof.
  simpl. destruct p; [done|]. destruct (m !! c) as [n'|]; [|done].
  simpl. by destruct (put_node n' (s :: p) x).
Qed.

(** Writing at [p] binds [p], and what is below [p] is what was written. *)
Lemma lookup_put_node_below n p x n' r :
  put_node n p x = Some n' → lookup_node n' (p ++ r) = lookup_node x r.
Proof.
  revert n n'; induction p as [|c p IH]; intros n n' H.
  - simpl in H. by simplify_eq.
  - destruct n as [d|m]; [done|]. rewrite put_node_cons in H.
    destruct p as [|c' p'].
    + simplify_eq. simpl. by rewrite lookup_insert_eq.
    + apply bind_Some in H as (n0 & E0 & H).
      apply bind_Some in H as (n'' & E & H).
      simplify_eq. change ((c :: c' :: p') ++ r) with (c :: ((c' :: p') ++ r)).
      cbn [lookup_node]. rewrite lookup_insert_eq. by eapply IH.
Qed.

(** Locations that are neither above nor below [p] are not affected. *)
Lemma lookup_put_node_apart n p x n' q :
  put_node n p x = Some n' →
  ¬ p `prefix_of` q → ¬ q `prefix_of` p →
  lookup_node n' q = lookup_node n q.
Proof.
  revert n n' q; induction p as [|c p IH]; intros n n' q H Hpq Hqp.
  - destruct Hpq. apply prefix_nil.
  - destruct q as [|c0 q]; [destruct Hqp; apply prefix_nil|].
    destruct n as [d|m]; [done|]. rewrite put_node_cons in H.
    destruct (decide (c = c0)) as [->|Hne].
    + destruct p as [|c' p'].
      * destruct Hpq. by apply prefix_cons, prefix_nil.
      * apply bind_Some in H as (n0 & E0 & H).
        apply bind_Some in H as (n'' & E & H).
        simplify_eq. cbn [lookup_node]. rewrite lookup_insert_eq, E0.
        apply IH; [done| |].
        -- intros Hp. apply Hpq. by apply prefix_cons.
        -- intros Hp. apply Hqp. by apply prefix_cons.
    + assert (∀ y, lookup_node (Dir (<[c := y]> m)) (c0 :: q)
                   = lookup_node (Dir m) (c0 :: q)) as Hins.
      { intros y. cbn [lookup_node]. by rewrite lookup_insert_ne. }
      destruct p as [|c' p'].
      * simplify_eq. apply Hins.
      * apply bind_Some in H as (n0 & E0 & H).
        apply bind_Some in H as (n'' & E & H).
        simplify_eq. apply Hins.
Qed.

(** Every location strictly above [p] is a directory, before and after. *)
Lemma lookup_put_node_above n p x n' q r :
  put_node n p x = Some n' → p = q ++ r → r ≠ [] →
  ∃ m m', lookup_node n q = Some (Dir m) ∧ lookup_node n' q = Some (Dir m').
Proof.
  revert n n' p; induction q as [|c q IH]; intros n n' p H -> Hr.
  - destruct r as [|c r]; [done|]. simpl app in H.
    destruct n as [d|m]; [done|]. rewrite put_node_cons in H.
    destruct r.
    + simplify_eq. eauto.
    + apply bind_Some in H as (n0 & E0 & H).
      apply bind_Some in H as (n'' & E & H). simplify_eq. eauto.
  - destruct n as [d|m]; [done|].
    change ((c :: q) ++ r) with (c :: (q ++ r)) in H.
    rewrite put_node_cons in H.
    destruct (q ++ r) as [|c' p'] eqn:Eqr.
    { apply app_eq_nil in Eqr as [_ ?]. done. }
    apply bind_Some in H as (n0 & E0 & H).
    apply bind_Some in H as (n'' & E & H).
    simplify_eq. cbn [lookup_node]. rewrite lookup_insert_eq, E0.
    eapply IH; [exact E|done|done].
Qed.

End tree_lemmas.

Section stat_lemmas.

Implicit Types (n x : node) (p q r : path) (fs : FS).

Lemma same_kind_refl a : same_kind a a.
Proof. by destruct a as [[]|]. Qed.

Lemma same_kind_eq a b : a = b → same_kind a b.
Proof. intros ->. apply same_kind_refl. Qed.

Lemma same_kind_trans a b c : same_kind a b → same_kind b c → same_kind a c.
Proof. destruct a as [[]|], b as [[]|], c as [[]|]; simpl; (done || congruence). Qed.

Lemma same_kind_is_dir fs fs' q :
  same_kind (stat fs q) (stat fs' q) → is_dir fs' q = is_dir fs q.
Proof. unfold is_dir. by destruct (stat fs q) as [[]|], (stat fs' q) as [[]|]. Qed.

Lemma same_kind_is_file fs fs' q :
  same_kind (stat fs q) (stat fs' q) → is_file fs' q = is_file fs q.
Proof. unfold is_file. by destruct (stat fs q) as [[]|], (stat fs' q) as [[]|]. Qed.

Lemma same_kind_exists fs fs' q :
  same_kind (stat fs q) (stat fs' q) → path_exists fs' q = path_exists fs q.
Proof. unfold path_exists. by destruct (stat fs q) as [[]|], (stat fs' q) as [[]|]. Qed.

Lemma lookup_leaf x r : leaf x → r ≠ [] → lookup_node x r = None.
Proof.
  intros [->|[d ->]] Hr; by destruct r as [|c r].
Qed.

Lemma stat_nil fs : stat fs [] = Some (Dir fs).
Proof. done. Qed.

Lemma stat_top fs c : stat fs [c] = fs !! c.
Proof. unfold stat. simpl. by destruct (fs !! c). Qed.

Lemma stat_app fs p r : stat fs (p ++ r) = stat fs p ≫= λ n, lookup_node n r.
Proof. apply lookup_node_app. Qed.

Lemma put_Some fs p x fs' :
  put fs p x = Some fs' ↔ p ≠ [] ∧ put_node (Dir fs) p x = Some (Dir fs').
Proof.
  unfold put. destruct p as [|c p]; [naive_solver|].
  destruct (put_node (Dir fs) (c :: p) x) as [[d|m]|] eqn:E; naive_solver.
Qed.

(** One component below the root: always possible. *)
Lemma put_top fs c x : put fs [c] x = Some (<[c := x]> fs).
Proof. done. Qed.

(** Two components: the first has to be a directory. *)
Lemma put_second fs c c' x :
  put fs [c; c'] x =
    match fs !! c with
    | Some (Dir m) => Some (<[c := Dir (<[c' := x]> m)]> fs)
    | _ => None
    end.
Proof. unfold put. simpl. by destruct (fs !! c) as [[]|]. Qed.

Lemma stat_put fs p x fs' : put fs p x = Some fs' → stat fs' p = Some x.
Proof.
  intros [_ H]%put_Some. unfold stat.
  rewrite <- (app_nil_r p). by rewrite (lookup_put_node_below _ _ _ _ [] H).
Qed.

(** Creating a leaf where nothing was: every location that is not above
    the new one is observed as before. *)
Lemma stat_put_frame fs p x fs' q :
  put fs p x = Some fs' → stat fs p = None → leaf x →
  q ≠ p → ¬ q `prefix_of` p → stat fs' q = stat fs q.
Proof.
  intros [_ H]%put_Some Hnone Hleaf Hne Hqp. unfold stat in *.
  destruct (decide (p `prefix_of` q)) as [[r ->]|Hpq].
  - rewrite (lookup_put_node_below _ _ _ _ r H), lookup_node_app, Hnone.
    apply lookup_leaf; [done|]. intros ->. by rewrite app_nil_r in Hne.
  - by apply (lookup_put_node_apart _ _ _ _ _ H).
Qed.

(** ... and the locations above it were and remain directories. *)
Lemma stat_put_kind fs p x fs' q :
  put fs p x = Some fs' → stat fs p = None → leaf x →
  q ≠ p → same_kind (stat fs q) (stat fs' q).
Proof.
  intros Hput Hnone Hleaf Hne.
  destruct (decide (q `prefix_of` p)) as [[r ->]|Hqp].
  - apply put_Some in Hput as [_ H].
    destruct (lookup_put_node_above _ _ _ _ q r H) as (m & m' & E1 & E2);
      [done| |].
    + intros ->. by rewrite app_nil_r in Hne.
    + unfold stat. by rewrite E1, E2.
  - apply same_kind_eq. symmetry. by eapply stat_put_frame.
Qed.

End stat_lemmas.

(** * Specifications of the library calls *)

Section lib_lemmas.

Implicit Types (x : node) (p q : path) (fs : FS).

Lemma create_frame p x fs q :
  stat fs p = None → leaf x → q ≠ p → ¬ q `prefix_of` p →
  stat (fs_of (create p x fs)) q = stat fs q.
Proof.
  intros Hnone Hleaf Hne Hqp. unfold create.
  destruct (put fs p x) as [fs'|] eqn:E; [|done].
  by eapply stat_put_frame.
Qed.

Lemma create_kind p x fs q :
  stat fs p = None → leaf x → q ≠ p →
  same_kind (stat fs q) (stat (fs_of (create p x fs)) q).
Proof.
  intros Hnone Hleaf Hne. unfold create.
  destruct (put fs p x) as [fs'|] eqn:E; [|apply same_kind_refl].
  by eapply stat_put_kind.
Qed.

Lemma create_ok p x fs :
  succeeded (res (create p x fs)) = true → stat (fs_of (create p x fs)) p = Some x.
Proof.
  unfold create. destruct (put fs p x) as [fs'|] eqn:E; [|done].
  intros _. by eapply stat_put.
Qed.

Lemma create_raise p x fs :
  succeeded (res (create p x fs)) = false → fs_of (create p x fs) = fs.
Proof. unfold create. by destruct (put fs p x). Qed.

Lemma create_trace p x fs :
  succeeded (res (create p x fs)) = true → trace (create p x fs) = [].
Proof. unfold create. by destruct (put fs p x). Qed.

(** *** [mkdir(exist_ok=True)] *)

Lemma mkdir_dir p fs :
  is_dir fs p = true → mkdir_exist_ok p fs = (Ok tt, fs, []).
Proof. unfold is_dir, mkdir_exist_ok. by destruct (stat fs p) as [[]|]. Qed.

Lemma mkdir_ok p fs :
  succeeded (res (mkdir_exist_ok p fs)) = true →
  is_dir (fs_of (mkdir_exist_ok p fs)) p = true.
Proof.
  unfold mkdir_exist_ok, is_dir. destruct (stat fs p) as [[d|m]|] eqn:E.
  - done.
  - intros _. unfold fs_of; cbn [fst snd]. by rewrite E.
  - intros H. by rewrite (create_ok _ _ _ H).
Qed.

Lemma mkdir_raise p fs :
  succeeded (res (mkdir_exist_ok p fs)) = false → fs_of (mkdir_exist_ok p fs) = fs.
Proof.
  unfold mkdir_exist_ok. destruct (stat fs p) as [[d|m]|]; try done.
  apply create_raise.
Qed.

Lemma mkdir_trace p fs :
  succeeded (res (mkdir_exist_ok p fs)) = true → trace (mkdir_exist_ok p fs) = [].
Proof.
  unfold mkdir_exist_ok. destruct (stat fs p) as [[d|m]|]; try done.
  apply create_trace.
Qed.

Lemma mkdir_frame p fs q :
  q ≠ p → ¬ q `prefix_of` p → stat (fs_of (mkdir_exist_ok p fs)) q = stat fs q.
Proof.
  intros Hne Hqp. unfold mkdir_exist_ok.
  destruct (stat fs p) as [[d|m]|] eqn:E; try done.
  apply create_frame; [done|by left|done|done].
Qed.

Lemma mkdir_kind p fs q :
  q ≠ p → same_kind (stat fs q) (stat (fs_of (mkdir_exist_ok p fs)) q).
Proof.
  intros Hne. unfold mkdir_exist_ok.
  destruct (stat fs p) as [[d|m]|] eqn:E; try apply same_kind_refl.
  apply create_kind; [done|by left|done].
Qed.

(** Directly below the root, only a regular file of that name is in the way. *)
Lemma mkdir_top c fs :
  res (mkdir_exist_ok [c] fs)
  = if is_file fs [c] then Raise (OSError FileExistsError) else Ok tt.
Proof.
  unfold mkdir_exist_ok, is_file. by destruct (stat fs [c]) as [[d|m]|].
Qed.

(** *** [touch] *)

Lemma touch_exists p fs :
  path_exists fs p = true → touch p fs = (Ok tt, fs, []).
Proof. unfold path_exists, touch. by destruct (stat fs p). Qed.

Lemma touch_ok p fs :
  succeeded (res (touch p fs)) = true →
  stat (fs_of (touch p fs)) p
  = Some (default (File "") (stat fs p)).
Proof.
  unfold touch. destruct (stat fs p) as [n|] eqn:E.
  - intros _. unfold fs_of; cbn [fst snd]. by rewrite E.
  - apply create_ok.
Qed.

Lemma touch_raise p fs :
  succeeded (res (touch p fs)) = false → fs_of (touch p fs) = fs.
Proof. unfold touch. destruct (stat fs p); [done|]. apply create_raise. Qed.

Lemma touch_trace p fs :
  succeeded (res (touch p fs)) = true → trace (touch p fs) = [].
Proof. unfold touch. destruct (stat fs p); [done|]. apply create_trace. Qed.

Lemma touch_frame p fs q :
  q ≠ p → ¬ q `prefix_of` p → stat (fs_of (touch p fs)) q = stat fs q.
Proof.
  intros Hne Hqp. unfold touch. destruct (stat fs p) as [n|] eqn:E; [done|].
  apply create_frame; [done|right; by eexists|done|done].
Qed.

Lemma touch_kind p fs q :
  q ≠ p → same_kind (stat fs q) (stat (fs_of (touch p fs)) q).
Proof.
  intros Hne. unfold touch.
  destruct (stat fs p) as [n|] eqn:E; [apply same_kind_refl|].
  apply create_kind; [done|right; by eexists|done].
Qed.

(** Inside an existing directory below the root, [touch] cannot fail. *)
Lemma touch_second c c' fs :
  is_dir fs [c] = true → res (touch [c; c'] fs) = Ok tt.
Proof.
  unfold is_dir, touch. rewrite stat_top. intros Hd.
  destruct (stat fs [c; c']); [done|].
  unfold create. rewrite put_second. by destruct (fs !! c) as [[]|].
Qed.

(** *** [write_text] *)

Lemma write_text_second c c' data fs :
  write_text [c; c'] data fs =
    match fs !! c with
    | Some (Dir m) =>
        match m !! c' with
        | Some (Dir _) => raise (OSError IsADirectoryError) fs
        | _ => (Ok tt, <[c := Dir (<[c' := File data]> m)]> fs, [])
        end
    | Some (File _) => raise (OSError NotADirectoryError) fs
    | None => raise (OSError FileNotFoundError) fs
    end.
Proof.
  unfold write_text, create. rewrite put_second. unfold stat. simpl.
  destruct (fs !! c) as [[d|m]|]; try done.
  by destruct (m !! c') as [[]|].
Qed.

Lemma write_text_top c data fs :
  write_text [c] data fs =
    match fs !! c with
    | Some (Dir _) => raise (OSError IsADirectoryError) fs
    | _ => (Ok tt, <[c := File data]> fs, [])
    end.
Proof.
  unfold write_text, create. rewrite put_top, stat_top.
  by destruct (fs !! c) as [[]|].
Qed.

End lib_lemmas.

(** * Path rendering *)

Section path_lemmas.

Lemma string_app_assoc (a b c : string) : (a +:+ b) +:+ c = a +:+ (b +:+ c).
Proof.
  induction a as [|x a IH]; [done|].
  change (String x ((a +:+ b) +:+ c) = String x (a +:+ b +:+ c)).
  by rewrite IH.
Qed.

Lemma join_cons sep x y l : join sep (x :: y :: l) = x +:+ sep +:+ join sep (y :: l).
Proof. done. Qed.

(** The rendering of a path ends in the rendering of its last components. *)
Lemma join_app sep l1 l2 :
  l2 ≠ [] → ∃ pre, join sep (l1 ++ l2) = pre +:+ join sep l2.
Proof.
  intros Hl2. induction l1 as [|x l1 [pre IH]].
  - by exists "".
  - exists (x +:+ sep +:+ pre).
    destruct (l1 ++ l2) as [|y l] eqn:E.
    { by apply app_eq_nil in E as [_ ?]. }
    simpl app. rewrite E, join_cons, IH. by rewrite !string_app_assoc.
Qed.

Lemma str_path_nonempty sep p :
  parts p ≠ [] → str_path sep p = anchor p +:+ join sep (parts p).
Proof. unfold str_path. by destruct (anchor p), (parts p). Qed.

Lemma parts_foldl_joinpath root l :
  parts (foldl joinpath root l) = parts root ++ l.
Proof.
  revert root; induction l as [|x l IH]; intros root; simpl.
  - by rewrite app_nil_r.
  - rewrite IH. simpl. by rewrite <- app_assoc.
Qed.

Lemma anchor_foldl_joinpath root l : anchor (foldl joinpath root l) = anchor root.
Proof. revert root; induction l as [|x l IH]; intros root; simpl; [done|by rewrite IH]. Qed.

(** [str(root / c1 / ... / cn)] ends in [c1 sep ... sep cn]. *)
Lemma str_ends rt self l :
  l ≠ [] → ∃ pre, str rt self l = pre +:+ join (sep rt) l.
Proof.
  intros Hl. unfold str, under_root. rewrite str_path_nonempty.
  - rewrite parts_foldl_joinpath, anchor_foldl_joinpath.
    destruct (join_app (sep rt) (parts (project_root self)) l Hl) as [pre ->].
    exists (anchor (project_root self) +:+ pre). by rewrite string_app_assoc.
  - rewrite parts_foldl_joinpath. intros [_ ?]%app_eq_nil. done.
Qed.

End path_lemmas.

(** * The monad *)

Section monad_lemmas.

Context {A B : Type}.
Implicit Types (m : M A) (k : A → M B) (fs : FS).

Lemma res_bind m k fs :
  res (bind m k fs)
  = match res (m fs) with
    | Ok a => res (k a (fs_of (m fs)))
    | Raise e => Raise e
    end.
Proof.
  unfold bind, res, fs_of. destruct (m fs) as [[[a|e] fs'] t]; [|done].
  cbn [fst snd]. by destruct (k a fs') as [[r fs''] t'].
Qed.

Lemma fs_of_bind m k fs :
  fs_of (bind m k fs)
  = match res (m fs) with
    | Ok a => fs_of (k a (fs_of (m fs)))
    | Raise e => fs_of (m fs)
    end.
Proof.
  unfold bind, res, fs_of. destruct (m fs) as [[[a|e] fs'] t]; [|done].
  cbn [fst snd]. by destruct (k a fs') as [[r fs''] t'].
Qed.

Lemma trace_bind m k fs :
  trace (bind m k fs)
  = match res (m fs) with
    | Ok a => trace (m fs) ++ trace (k a (fs_of (m fs)))
    | Raise e => trace (m fs)
    end.
Proof.
  unfold bind, res, fs_of, trace. destruct (m fs) as [[[a|e] fs'] t]; [|done].
  cbn [fst snd]. by destruct (k a fs') as [[r fs''] t'].
Qed.

End monad_lemmas.

Lemma res_try_except {A} (body : M A) handler fs :
  res (try_except body handler fs)
  = match res (body fs) with
    | Ok a => Ok a
    | Raise e => match handler e with
                 | Some h => res (h (fs_of (body fs)))
                 | None => Raise e
                 end
    end.
Proof.
  unfold try_except, res, fs_of. destruct (body fs) as [[[a|e] fs'] t]; [done|].
  cbn [fst snd]. destruct (handler e) as [h|]; [|done].
  by destruct (h fs') as [[r fs''] t'].
Qed.

Lemma fs_of_try_except {A} (body : M A) handler fs :
  fs_of (try_except body handler fs)
  = match res (body fs) with
    | Ok a => fs_of (body fs)
    | Raise e => match handler e with
                 | Some h => fs_of (h (fs_of (body fs)))
                 | None => fs_of (body fs)
                 end
    end.
Proof.
  unfold try_except, res, fs_of. destruct (body fs) as [[[a|e] fs'] t]; [done|].
  cbn [fst snd]. destruct (handler e) as [h|]; [|done].
  by destruct (h fs') as [[r fs''] t'].
Qed.

Lemma trace_try_except {A} (body : M A) handler fs :
  trace (try_except body handler fs)
  = match res (body fs) with
    | Ok a => trace (body fs)
    | Raise e => match handler e with
                 | Some h => trace (body fs) ++ trace (h (fs_of (body fs)))
                 | None => trace (body fs)
                 end
    end.
Proof.
  unfold try_except, res, fs_of, trace. destruct (body fs) as [[[a|e] fs'] t]; [done|].
  cbn [fst snd]. destruct (handler e) as [h|]; [|done].
  by destruct (h fs') as [[r fs''] t'].
Qed.

Lemma step_events_app t1 t2 :
  step_events (t1 ++ t2) = step_events t1 ++ step_events t2.
Proof. apply List.filter_app. Qed.

(** ** Quiet computations *)

Section quiet_lemmas.

Lemma quiet_ret {A} (a : A) : quiet (ret a).
Proof. done. Qed.

Lemma quiet_raise {A} e : quiet (@raise A e).
Proof. done. Qed.

Lemma quiet_print line : quiet (print line).
Proof. done. Qed.

Lemma quiet_get_fs : quiet get_fs.
Proof. done. Qed.

Lemma quiet_set_fs fs : quiet (set_fs fs).
Proof. done. Qed.

Lemma quiet_exists p : quiet (exists_ p).
Proof. done. Qed.

Lemma quiet_bind {A B} (m : M A) (k : A → M B) :
  quiet m → (∀ a, quiet (k a)) → quiet (bind m k).
Proof.
  intros Hm Hk fs. rewrite trace_bind. destruct (res (m fs)); [|apply Hm].
  rewrite step_events_app, Hm. apply Hk.
Qed.

Lemma quiet_try_except {A} (body : M A) handler :
  quiet body → (∀ e h, handler e = Some h → quiet h) → quiet (try_except body handler).
Proof.
  intros Hb Hh fs. rewrite trace_try_except.
  destruct (res (body fs)) as [a|e]; [apply Hb|].
  destruct (handler e) as [h|] eqn:E; [|apply Hb].
  rewrite step_events_app, Hb. by eapply Hh.
Qed.

Lemma quiet_create p x : quiet (create p x).
Proof. intros fs. unfold create. by destruct (put fs p x). Qed.

Lemma quiet_mkdir p : quiet (mkdir_exist_ok p).
Proof.
  intros fs. unfold mkdir_exist_ok.
  destruct (stat fs p) as [[]|]; try done. apply quiet_create.
Qed.

Lemma quiet_touch p : quiet (touch p).
Proof.
  intros fs. unfold touch. destruct (stat fs p); [done|]. apply quiet_create.
Qed.

Lemma quiet_write_text p data : quiet (write_text p data).
Proof.
  intros fs. unfold write_text.
  destruct (stat fs p) as [[]|]; try done; apply quiet_create.
Qed.

Lemma quiet_shutil_copy src dst : quiet (shutil_copy src dst).
Proof.
  intros fs. unfold shutil_copy.
  destruct (stat fs src) as [[]|]; try done. apply quiet_write_text.
Qed.

Lemma quiet_subprocess rt argv : quiet (subprocess_run_check rt argv).
Proof.
  unfold subprocess_run_check.
  apply quiet_bind; [done|]. intros _.
  apply quiet_bind; [done|]. intros fs.
  destruct (exec rt argv fs); [|done].
  apply quiet_bind; [done|]. intros _. by case_bool_decide.
Qed.

Lemma quiet_for_each {A} (l : list A) body :
  (∀ x, quiet (body x)) → quiet (for_each l body).
Proof.
  intros Hb. induction l as [|x l IH]; [done|].
  simpl. apply quiet_bind; [apply Hb|done].
Qed.

End quiet_lemmas.

Create HintDb quiet.
#[export] Hint Resolve quiet_ret quiet_raise quiet_print quiet_exists quiet_create
  quiet_mkdir quiet_touch quiet_write_text quiet_shutil_copy quiet_subprocess : quiet.

(** Decompose a body along its binds, branches and handlers. *)
Ltac solve_quiet :=
  repeat first
    [ progress auto with quiet
    | apply quiet_bind; [|intros ?]
    | apply quiet_for_each; intros ?
    | apply quiet_try_except; [|intros ? ? ?]
    | match goal with
      | |- quiet (if ?b then _ else _) => destruct b
      | |- quiet (let _ := _ in _) => cbv zeta
      | H : (if ?b then _ else _) = Some _ |- _ => destruct b; simplify_eq
      end ].

(** ** Computations that never leave through [SystemExit] *)

Section no_exit_lemmas.

Lemma no_exit_ok {A} (m : M A) : (∀ fs, succeeded (res (m fs)) = true) → no_exit m.
Proof. intros H fs e E. specialize (H fs). by rewrite E in H. Qed.

Lemma no_exit_ret {A} (a : A) : no_exit (ret a).
Proof. by apply no_exit_ok. Qed.

Lemma no_exit_print line : no_exit (print line).
Proof. by apply no_exit_ok. Qed.

Lemma no_exit_exists p : no_exit (exists_ p).
Proof. by apply no_exit_ok. Qed.

Lemma no_exit_raise {A} e : is_Exception e = true → no_exit (@raise A e).
Proof. intros He fs e' [= <-]. done. Qed.

Lemma no_exit_bind {A B} (m : M A) (k : A → M B) :
  no_exit m → (∀ a, no_exit (k a)) → no_exit (bind m k).
Proof.
  intros Hm Hk fs e. rewrite res_bind.
  destruct (res (m fs)) as [a|e'] eqn:E.
  - apply Hk.
  - intros [= <-]. by eapply Hm.
Qed.

Lemma no_exit_try_except {A} (body : M A) handler :
  no_exit body → (∀ e h, handler e = Some h → no_exit h) →
  no_exit (try_except body handler).
Proof.
  intros Hb Hh fs e. rewrite res_try_except.
  destruct (res (body fs)) as [a|e'] eqn:E; [done|].
  destruct (handler e') as [h|] eqn:Eh.
  - by eapply Hh.
  - intros [= <-]. by eapply Hb.
Qed.

Lemma no_exit_create p x : no_exit (create p x).
Proof.
  intros fs e. unfold create. destruct (put fs p x); [done|]. by intros [= <-].
Qed.

Lemma no_exit_mkdir p : no_exit (mkdir_exist_ok p).
Proof.
  intros fs e. unfold mkdir_exist_ok. destruct (stat fs p) as [[]|].
  - by intros [= <-].
  - done.
  - apply no_exit_create.
Qed.

Lemma no_exit_touch p : no_exit (touch p).
Proof.
  intros fs e. unfold touch. destruct (stat fs p); [done|]. apply no_exit_create.
Qed.

Lemma no_exit_write_text p data : no_exit (write_text p data).
Proof.
  intros fs e. unfold write_text. destruct (stat fs p) as [[]|].
  - apply no_exit_create.
  - by intros [= <-].
  - apply no_exit_create.
Qed.

Lemma no_exit_shutil_copy src dst : no_exit (shutil_copy src dst).
Proof.
  intros fs e. unfold shutil_copy. destruct (stat fs src) as [[]|].
  - apply no_exit_write_text.
  - by intros [= <-].
  - by intros [= <-].
Qed.

Lemma no_exit_subprocess rt argv : no_exit (subprocess_run_check rt argv).
Proof.
  unfold subprocess_run_check.
  apply no_exit_bind; [by apply no_exit_ok|]. intros _.
  apply no_exit_bind; [by apply no_exit_ok|]. intros fs.
  destruct (exec rt argv fs); [|by apply no_exit_raise].
  apply no_exit_bind; [by apply no_exit_ok|]. intros _.
  case_bool_decide; [apply no_exit_ret|by apply no_exit_raise].
Qed.

Lemma no_exit_for_each {A} (l : list A) body :
  (∀ x, no_exit (body x)) → no_exit (for_each l body).
Proof.
  intros Hb. induction l as [|x l IH]; [apply no_exit_ret|].
  simpl. apply no_exit_bind; [apply Hb|done].
Qed.

Lemma no_exit_call {A} m (body : M A) : no_exit body → no_exit (call m body).
Proof.
  intros Hb. unfold call.
  apply no_exit_bind; [by apply no_exit_ok|]. intros _.
  apply no_exit_bind; [done|]. intros r.
  apply no_exit_bind; [by apply no_exit_ok|]. intros _. apply no_exit_ret.
Qed.

End no_exit_lemmas.

Create HintDb no_exit.
#[export] Hint Resolve no_exit_ret no_exit_print no_exit_exists no_exit_create
  no_exit_mkdir no_exit_touch no_exit_write_text no_exit_shutil_copy
  no_exit_subprocess : no_exit.

Ltac solve_no_exit :=
  repeat first
    [ progress auto with no_exit
    | apply no_exit_call
    | apply no_exit_bind; [|intros ?]
    | apply no_exit_for_each; intros ?
    | apply no_exit_try_except; [|intros ? ? ?]
    | match goal with
      | |- no_exit (if ?b then _ else _) => destruct b
      | |- no_exit (let _ := _ in _) => cbv zeta
      | H : (if ?b then _ else _) = Some _ |- _ => destruct b; simplify_eq
      end ].

(** ** Method calls *)

Section call_lemmas.

Lemma call_unfold {A} m (body : M A) fs :
  call m body fs
  = (res (body fs), fs_of (body fs),
     EvCall m :: trace (body fs)
     ++ (if succeeded (res (body fs)) then [EvReturn m] else [])).
Proof.
  unfold call, bind, emit, ret, res, fs_of, trace.
  destruct (body fs) as [[[a|e] fs'] t]; cbn [fst snd succeeded app].
  - done.
  - by rewrite app_nil_r.
Qed.

Lemma res_call {A} m (body : M A) fs : res (call m body fs) = res (body fs).
Proof. by rewrite call_unfold. Qed.

Lemma fs_of_call {A} m (body : M A) fs : fs_of (call m body fs) = fs_of (body fs).
Proof. by rewrite call_unfold. Qed.

Lemma trace_call {A} m (body : M A) fs :
  trace (call m body fs)
  = EvCall m :: trace (body fs)
    ++ (if succeeded (res (body fs)) then [EvReturn m] else []).
Proof. by rewrite call_unfold. Qed.

(** A step followed by a continuation: the step is entered; if it
    returns, it is left before the continuation starts, and if it raises,
    nothing follows. *)
Lemma step_then m s (k : M unit) fs :
  step_of m s →
  step_events (trace ((s ;;; k) fs))
  = (if succeeded (res (s fs))
     then EvCall m :: EvReturn m :: step_events (trace (k (fs_of (s fs))))
     else [EvCall m]) ∧
  res ((s ;;; k) fs)
  = match res (s fs) with
    | Ok _ => res (k (fs_of (s fs)))
    | Raise e => Raise e
    end.
Proof.
  intros (body & Hq & ->). rewrite trace_bind, res_bind, res_call, fs_of_call.
  rewrite trace_call. specialize (Hq fs).
  destruct (res (body fs)) as [[]|e]; cbn [succeeded]; (split; [|done]).
  - rewrite step_events_app. change (EvCall m :: ?t) with ([EvCall m] ++ t).
    rewrite !step_events_app, Hq. done.
  - change (EvCall m :: ?t) with ([EvCall m] ++ t).
    rewrite !step_events_app, Hq. done.
Qed.

Lemma step_last m s fs :
  step_of m s →
  step_events (trace (s fs))
  = (if succeeded (res (s fs)) then [EvCall m; EvReturn m] else [EvCall m]).
Proof.
  intros (body & Hq & ->). rewrite res_call, trace_call. specialize (Hq fs).
  change (EvCall m :: ?t) with ([EvCall m] ++ t).
  rewrite !step_events_app, Hq. by destruct (res (body fs)).
Qed.

End call_lemmas.

(** * The command-line front end *)

(** C4.  For every value of [os_type], [get_pip_command] returns a string
    that ends in the pip executable below the virtual environment: the
    components [Scripts], [pip] when [os_type] is exactly "Windows", and
    [bin], [pip] for every other value, rendered with the separator of the
    interpreter's path flavour. *)
Theorem get_pip_command_suffix (rt : Runtime) (self : ProjectInitializer) :
  (os_type self = "Windows" →
   ∃ pre, get_pip_command rt self
          = pre +:+ venv_name self +:+ sep rt +:+ "Scripts" +:+ sep rt +:+ "pip") ∧
  (os_type self ≠ "Windows" →
   ∃ pre, get_pip_command rt self
          = pre +:+ venv_name self +:+ sep rt +:+ "bin" +:+ sep rt +:+ "pip").
Proof.
  unfold get_pip_command. split; intros Hos.
  - rewrite bool_decide_eq_true_2 by done. by apply str_ends.
  - rewrite bool_decide_eq_false_2 by done. by apply str_ends.
Qed.

(** The two cases of the test suite: "Windows" and "Darwin" reported by
    [platform.system] on a host with "/" as separator. *)
Lemma get_pip_command_suffix_witness :
  (∃ pre, get_pip_command (rt_sample never) (self_on "Windows")
          = pre +:+ ".venv" +:+ "/" +:+ "Scripts" +:+ "/" +:+ "pip") ∧
  (∃ pre, get_pip_command (rt_sample never) (self_on "Darwin")
          = pre +:+ ".venv" +:+ "/" +:+ "bin" +:+ "/" +:+ "pip").
Proof.
  split.
  - by apply (get_pip_command_suffix (rt_sample never) (self_on "Windows")).
  - by apply (get_pip_command_suffix (rt_sample never) (self_on "Darwin")).
Defined.

Example get_pip_command_darwin :
  get_pip_command (rt_sample never) (self_on "Darwin") = "/home/dev/project/.venv/bin/pip".
Proof. reflexivity. Qed.

Example get_pip_command_windows :
  get_pip_command (rt_sample never) (self_on "Windows")
  = "/home/dev/project/.venv/Scripts/pip".
Proof. reflexivity. Qed.

(** C2.  When at least one of [--skip-venv], [--skip-deps] is given, [main]
    returns normally, everything it does is a [print], no setup step is
    called, no external process is run, and the project tree is the one it
    started with. *)
Theorem main_skip_only_prints (rt : Runtime) (skip_venv skip_deps : bool) (fs : FS) :
  skip_venv || skip_deps = true →
  res (main rt skip_venv skip_deps fs) = Ok tt ∧
  fs_of (main rt skip_venv skip_deps fs) = fs ∧
  forallb is_print (trace (main rt skip_venv skip_deps fs)) = true ∧
  existsb is_call (trace (main rt skip_venv skip_deps fs)) = false ∧
  existsb is_exec (trace (main rt skip_venv skip_deps fs)) = false.
Proof.
  destruct skip_venv, skip_deps; intros H; try done; by vm_compute.
Qed.

Lemma main_skip_only_prints_witness :
  res (main (rt_sample never) true false fs_sample) = Ok tt ∧
  fs_of (main (rt_sample never) true false fs_sample) = fs_sample.
Proof.
  destruct (main_skip_only_prints (rt_sample never) true false fs_sample)
    as (H1 & H2 & _); [reflexivity|].
  by split.
Defined.


(** * The initialization sequence *)

Section steps.

Variables (rt : Runtime) (self : ProjectInitializer).

Lemma step_create_virtual_environment :
  step_of CreateVirtualEnvironment (create_virtual_environment rt self).
Proof. eexists; split; [|reflexivity]. solve_quiet. Qed.

Lemma step_install_dependencies :
  step_of InstallDependencies (install_dependencies rt self).
Proof. eexists; split; [|reflexivity]. solve_quiet. Qed.

Lemma step_setup_environment_file :
  step_of SetupEnvironmentFile (setup_environment_file self).
Proof. eexists; split; [|reflexivity]. solve_quiet. Qed.

Lemma step_create_project_directories :
  step_of CreateProjectDirectories (create_project_directories self).
Proof. eexists; split; [|reflexivity]. solve_quiet. Qed.

Lemma step_setup_git_hooks :
  step_of SetupGitHooks (setup_git_hooks rt self).
Proof. eexists; split; [|reflexivity]. solve_quiet. Qed.

Lemma step_create_claude_config :
  step_of CreateClaudeConfig (create_claude_config self).
Proof. eexists; split; [|reflexivity]. solve_quiet. Qed.

Lemma step_print_next_steps :
  step_of PrintNextSteps (print_next_steps self).
Proof. eexists; split; [|reflexivity]. solve_quiet. Qed.

End steps.

(** Peel the first step off a sequence: either it raised, and it is the
    last one entered, or the sequence goes on. *)
Ltac next_step S before m after :=
  match goal with
  | |- context [ (?s ;;; ?k) ?fs ] =>
      destruct (step_then _ s k fs S) as [-> ->];
      destruct (res (s fs)) as [[]|?e]; cbn [succeeded];
      [|right; exists e, before, m, after; by repeat split]
  end.

Section run_lemmas.

Variables (rt : Runtime) (self : ProjectInitializer).

Lemma print_next_steps_ok fs : res (print_next_steps self fs) = Ok tt.
Proof. unfold print_next_steps. rewrite call_unfold. by case_bool_decide. Qed.

Lemma no_exit_run_steps : no_exit (run_steps rt self).
Proof.
  unfold run_steps, create_virtual_environment, install_dependencies,
    setup_environment_file, create_project_directories, make_directory,
    setup_git_hooks, create_claude_config, print_next_steps.
  solve_no_exit.
Qed.

Lemma no_exit_git_hooks_body fs e :
  res (setup_git_hooks rt self fs) = Raise e → False.
Proof.
  unfold setup_git_hooks. rewrite res_call, res_bind. cbn [print emit res fst].
  cbv zeta. rewrite res_try_except.
  match goal with |- context [res (?b ?f)] => set (body := b); set (fs0 := f) end.
  assert (no_exit body) as Hb by (subst body; solve_no_exit).
  destruct (res (body fs0)) as [[]|e'] eqn:E; [done|].
  by rewrite (Hb _ _ E).
Qed.

(** [setup_git_hooks] catches whatever is raised inside it. *)
Lemma setup_git_hooks_returns fs : res (setup_git_hooks rt self fs) = Ok tt.
Proof.
  destruct (res (setup_git_hooks rt self fs)) as [[]|e] eqn:E; [done|].
  by destruct (no_exit_git_hooks_body fs e).
Qed.

(** The steps are entered one after the other, each after the previous
    one has returned; a step that raises is the last one entered, and it
    is not [setup_git_hooks]. *)
Lemma run_steps_order fs :
  (res (run_steps rt self fs) = Ok tt ∧
   step_events (trace (run_steps rt self fs))
   = completed (setup_steps ++ [PrintNextSteps])) ∨
  (∃ e before m after,
     res (run_steps rt self fs) = Raise e ∧
     setup_steps = before ++ m :: after ∧ m ≠ SetupGitHooks ∧
     step_events (trace (run_steps rt self fs)) = completed before ++ [EvCall m]).
Proof.
  unfold run_steps.
  pose proof step_create_virtual_environment rt self as S1.
  pose proof step_install_dependencies rt self as S2.
  pose proof step_setup_environment_file self as S3.
  pose proof step_create_project_directories self as S4.
  pose proof step_setup_git_hooks rt self as S5.
  pose proof step_create_claude_config self as S6.
  pose proof step_print_next_steps self as S7.
  next_step S1 (@nil method) CreateVirtualEnvironment (tail setup_steps).
  next_step S2 (take 1 setup_steps) InstallDependencies (drop 2 setup_steps).
  next_step S3 (take 2 setup_steps) SetupEnvironmentFile (drop 3 setup_steps).
  next_step S4 (take 3 setup_steps) CreateProjectDirectories (drop 4 setup_steps).
  match goal with
  | |- context [ (?s ;;; ?k) ?fs ] =>
      destruct (step_then _ s k fs S5) as [-> ->];
      rewrite (setup_git_hooks_returns fs); cbn [succeeded]
  end.
  next_step S6 (take 5 setup_steps) CreateClaudeConfig (drop 6 setup_steps).
  left. rewrite (step_last _ _ _ S7), print_next_steps_ok. done.
Qed.

Lemma run_ok fs :
  res (run_steps rt self fs) = Ok tt →
  res (run rt self fs) = Ok tt ∧
  trace (run rt self fs) = EvPrint banner :: trace (run_steps rt self fs).
Proof.
  intros E. unfold run.
  rewrite res_bind, trace_bind. cbn [print emit res fs_of trace fst snd].
  rewrite res_try_except, trace_try_except, E. done.
Qed.

Lemma run_raise fs e :
  res (run_steps rt self fs) = Raise e →
  res (run rt self fs) = Raise (SystemExit 1) ∧
  fs_of (run rt self fs) = fs_of (run_steps rt self fs) ∧
  ∃ msg, trace (run rt self fs)
         = EvPrint banner :: trace (run_steps rt self fs)
           ++ [EvPrint msg; EvRaise (SystemExit 1)].
Proof.
  intros E. pose proof (no_exit_run_steps _ _ E) as He. unfold run.
  rewrite res_bind, fs_of_bind, trace_bind. cbn [print emit res fs_of trace fst snd].
  fold (@res unit) (@fs_of unit) (@trace unit).
  rewrite res_try_except, fs_of_try_except, trace_try_except, E, He.
  destruct (is_CalledProcessError e); (split; [done|split; [done|]]); eauto.
Qed.

End run_lemmas.

(** In the sample environment the run is complete. *)
Example run_sample_complete :
  let out := run (rt_sample never) (new_ProjectInitializer (rt_sample never)) fs_sample in
  res out = Ok tt ∧
  step_events (trace out) = completed (setup_steps ++ [PrintNextSteps]).
Proof. by vm_compute. Qed.

(** The reading is not an empty one: it holds of the run in which the pip
    upgrade fails. *)
Example pip_upgrade_failure_fatal :
  every_exception_fatal (rt_sample fails_pip_upgrade)
    (new_ProjectInitializer (rt_sample fails_pip_upgrade)) fs_sample.
Proof.
  intros e t1 t2 He Ht. split; [by vm_compute|].
  vm_compute in Ht.
  repeat (destruct t1 as [|? t1];
          [by simplify_eq|first [discriminate Ht|injection Ht as _ Ht]]).
Qed.

(** C1, as it is worded, fails: an exception raised inside
    [setup_git_hooks] is caught there, and the run goes on to
    [create_claude_config] and ends with status 0. *)
Lemma git_hooks_exception_not_fatal :
  ¬ every_exception_fatal (rt_sample fails_pre_commit)
      (new_ProjectInitializer (rt_sample fails_pre_commit)) fs_sample.
Proof.
  intros H.
  set (out := run (rt_sample fails_pre_commit)
                (new_ProjectInitializer (rt_sample fails_pre_commit)) fs_sample).
  destruct (H (CalledProcessError 1 ["/home/dev/project/.venv/bin/pip"; "install"; "pre-commit"])
              (take 24 (trace out)) (drop 25 (trace out)) eq_refl) as [Hst _].
  - by vm_compute.
  - by vm_compute in Hst.
Qed.

(** * Installing the dependencies *)

Section install_dependencies_lemmas.

Variables (rt : Runtime) (self : ProjectInitializer).

Lemma subprocess_run_check_ok argv fs fs' :
  exec rt argv fs = Exited 0 fs' →
  subprocess_run_check rt argv fs = (Ok tt, fs', [EvExec argv]).
Proof.
  intros E. unfold subprocess_run_check, bind, emit, get_fs, set_fs, ret.
  by rewrite E.
Qed.

Lemma subprocess_run_check_failed argv fs fs' rc :
  exec rt argv fs = Exited rc fs' → rc ≠ 0%Z →
  subprocess_run_check rt argv fs
  = (Raise (CalledProcessError rc argv), fs',
     [EvExec argv; EvRaise (CalledProcessError rc argv)]).
Proof.
  intros E Hrc. unfold subprocess_run_check, bind, emit, get_fs, set_fs, ret, raise.
  rewrite E. by rewrite bool_decide_eq_false_2.
Qed.

Lemma subprocess_run_check_not_started argv fs k :
  exec rt argv fs = NotStarted k →
  subprocess_run_check rt argv fs
  = (Raise (OSError k), fs, [EvExec argv; EvRaise (OSError k)]).
Proof.
  intros E. unfold subprocess_run_check, bind, emit, get_fs, set_fs, ret, raise.
  by rewrite E.
Qed.

Lemma install_dependencies_without_requirements fs fs1 :
  exec rt (pip_upgrade rt self) fs = Exited 0 fs1 →
  path_exists fs1 ["requirements.txt"] = false →
  install_dependencies rt self fs
  = (Ok tt, fs1,
     [EvCall InstallDependencies;
      EvPrint "📥 Installing dependencies...";
      EvExec (pip_upgrade rt self);
      EvPrint "⚠️  No requirements.txt found";
      EvReturn InstallDependencies]).
Proof.
  intros Hexec Hreq. unfold install_dependencies. rewrite call_unfold.
  match goal with
  | |- context [res (?b fs)] =>
      assert (b fs = (Ok tt, fs1,
                      [EvPrint "📥 Installing dependencies...";
                       EvExec (pip_upgrade rt self);
                       EvPrint "⚠️  No requirements.txt found"])) as ->
  end; [|done].
  cbv zeta. fold (pip_upgrade rt self). unfold bind, print, emit, exists_.
  rewrite (subprocess_run_check_ok _ _ _ Hexec). by rewrite Hreq.
Qed.

End install_dependencies_lemmas.

(** C9, as it is worded, fails: the pip upgrade runs before the check for
    [requirements.txt], and its failure is raised. *)
Lemma missing_requirements_pip_upgrade_fails :
  ¬ missing_requirements_harmless (rt_sample fails_pip_upgrade)
      (new_ProjectInitializer (rt_sample fails_pip_upgrade)) fs_no_requirements.
Proof. intros H. specialize (H eq_refl). by vm_compute in H. Qed.

(** C9, amended.  When [requirements.txt] does not exist at the time
    [install_dependencies] is called and the pip upgrade succeeds,
    [install_dependencies] returns normally: it has run the upgrade and
    nothing else, printed the warning, and whatever follows it in a
    sequence is run; in [run], after a successful
    [create_virtual_environment], the next method entered is
    [setup_environment_file].  The code looks for the file after the
    upgrade has run; that this external command does not create it is the
    third hypothesis. *)
Theorem install_dependencies_missing_requirements
    (rt : Runtime) (self : ProjectInitializer) (fs fs1 : FS) :
  path_exists fs ["requirements.txt"] = false →
  exec rt (pip_upgrade rt self) fs = Exited 0 fs1 →
  path_exists fs1 ["requirements.txt"] = path_exists fs ["requirements.txt"] →
  let out := install_dependencies rt self fs in
  res out = Ok tt ∧
  fs_of out = fs1 ∧
  List.filter is_exec (trace out) = [EvExec (pip_upgrade rt self)] ∧
  EvPrint "⚠️  No requirements.txt found" ∈ trace out ∧
  (∀ k : M unit,
     res ((install_dependencies rt self ;;; k) fs) = res (k fs1) ∧
     trace ((install_dependencies rt self ;;; k) fs) = trace out ++ trace (k fs1)) ∧
  (∀ fs0, res (create_virtual_environment rt self fs0) = Ok tt →
          fs_of (create_virtual_environment rt self fs0) = fs →
          ∃ t, step_events (trace (run rt self fs0))
               = completed [CreateVirtualEnvironment; InstallDependencies]
                 ++ EvCall SetupEnvironmentFile :: t).
Proof.
  intros Hreq0 Hexec Hkeep out. rewrite Hreq0 in Hkeep.
  pose proof (install_dependencies_without_requirements rt self fs fs1 Hexec Hkeep) as E.
  subst out. repeat split.
  - by rewrite E.
  - by rewrite E.
  - by rewrite E.
  - rewrite E. cbn [trace snd]. set_solver.
  - by rewrite res_bind, E.
  - by rewrite trace_bind, E.
  - intros fs0 Hv Hfs.
    assert (∃ t, step_events (trace (run_steps rt self fs0))
                 = completed [CreateVirtualEnvironment; InstallDependencies]
                   ++ EvCall SetupEnvironmentFile :: t) as [t Ht].
    { unfold run_steps.
      destruct (step_then _ _ (install_dependencies rt self ;;;
                  setup_environment_file self ;;; create_project_directories self ;;;
                  setup_git_hooks rt self ;;; create_claude_config self ;;;
                  print_next_steps self) fs0
                  (step_create_virtual_environment rt self)) as [-> _].
      rewrite Hv, Hfs. cbn [succeeded].
      destruct (step_then _ _ (setup_environment_file self ;;;
                  create_project_directories self ;;;
                  setup_git_hooks rt self ;;; create_claude_config self ;;;
                  print_next_steps self) fs
                  (step_install_dependencies rt self)) as [-> _].
      rewrite E. cbn [res fs_of fst snd succeeded].
      destruct (step_then _ _ (create_project_directories self ;;;
                  setup_git_hooks rt self ;;; create_claude_config self ;;;
                  print_next_steps self) fs1
                  (step_setup_environment_file self)) as [-> _].
      destruct (succeeded _); eauto. }
    destruct (res (run_steps rt self fs0)) as [[]|e] eqn:Er.
    + destruct (run_ok rt self fs0 Er) as [_ ->].
      exists t. change (EvPrint banner :: ?t) with ([EvPrint banner] ++ t).
      by rewrite step_events_app, Ht.
    + destruct (run_raise rt self fs0 e Er) as (_ & _ & msg & ->).
      exists t. change (EvPrint banner :: ?t) with ([EvPrint banner] ++ t).
      rewrite !step_events_app, Ht. cbn. by rewrite app_nil_r.
Qed.

Lemma install_dependencies_missing_requirements_witness :
  let rt := rt_sample never in
  let out := install_dependencies rt (new_ProjectInitializer rt) fs_no_requirements in
  res out = Ok tt ∧ fs_of out = fs_no_requirements ∧
  EvPrint "⚠️  No requirements.txt found" ∈ trace out.
Proof.
  intros rt out.
  destruct (install_dependencies_missing_requirements rt (new_ProjectInitializer rt)
              fs_no_requirements fs_no_requirements)
    as (Hres & Hfs & _ & Hwarn & _).
  - by vm_compute.
  - reflexivity.
  - reflexivity.
  - split; [exact Hres|]. split; [exact Hfs|exact Hwarn].
Defined.

(** The third hypothesis is needed: an upgrade that leaves a
    [requirements.txt] behind is followed by its installation. *)
Example upgrade_creating_requirements :
  let rt := rt_writes_requirements in
  path_exists fs_no_requirements ["requirements.txt"] = false ∧
  List.filter is_exec
    (trace (install_dependencies rt (new_ProjectInitializer rt) fs_no_requirements))
  = [EvExec ["/home/dev/project/.venv/bin/pip"; "install"; "--upgrade"; "pip"];
     EvExec ["/home/dev/project/.venv/bin/pip"; "install"; "-r";
             "/home/dev/project/requirements.txt"]].
Proof. by vm_compute. Qed.

(** * The environment file *)

Section setup_environment_file_lemmas.

Variable self : ProjectInitializer.

Lemma path_exists_top fs c : path_exists fs [c] = bool_decide (is_Some (fs !! c)).
Proof.
  unfold path_exists. rewrite stat_top.
  destruct (fs !! c) eqn:E; symmetry.
  - by apply bool_decide_eq_true_2.
  - apply bool_decide_eq_false_2. by intros [? ?].
Qed.

Lemma setup_environment_file_exists fs :
  path_exists fs [".env"] = true →
  setup_environment_file self fs
  = (Ok tt, fs,
     [EvCall SetupEnvironmentFile;
      EvPrint "🔧 Setting up environment file...";
      EvPrint "✅ .env file already exists";
      EvReturn SetupEnvironmentFile]).
Proof.
  intros H. unfold setup_environment_file. rewrite call_unfold.
  cbv zeta. unfold bind, print, emit, exists_. by rewrite H.
Qed.

Lemma setup_environment_file_copies fs data :
  path_exists fs [".env"] = false →
  stat fs [".env.example"] = Some (File data) →
  setup_environment_file self fs
  = (Ok tt, <[".env" := File data]> fs,
     [EvCall SetupEnvironmentFile;
      EvPrint "🔧 Setting up environment file...";
      EvPrint "✅ Created .env file from .env.example";
      EvPrint "⚠️  Please update .env with your actual API keys";
      EvReturn SetupEnvironmentFile]).
Proof.
  intros Henv Hex. unfold setup_environment_file. rewrite call_unfold.
  assert (stat fs [".env"] = None) as Hnone.
  { unfold path_exists in Henv. by destruct (stat fs [".env"]). }
  assert (shutil_copy [".env.example"] [".env"] fs
          = (Ok tt, <[".env" := File data]> fs, [])) as Hcopy.
  { unfold shutil_copy, is_dir. rewrite Hex, Hnone.
    rewrite write_text_top. rewrite stat_top in Hnone. by rewrite Hnone. }
  cbv zeta. unfold bind, print, emit, exists_. rewrite Henv.
  unfold path_exists. rewrite Hex, Hcopy. done.
Qed.

Lemma setup_environment_file_no_example fs :
  path_exists fs [".env"] = false →
  path_exists fs [".env.example"] = false →
  fs_of (setup_environment_file self fs) = fs.
Proof.
  intros Henv Hex. unfold setup_environment_file. rewrite call_unfold.
  cbv zeta. unfold bind, print, emit, exists_. by rewrite Henv, Hex.
Qed.

(** A directory named [.env.example] cannot be copied. *)
Lemma setup_environment_file_example_dir fs m :
  path_exists fs [".env"] = false →
  stat fs [".env.example"] = Some (Dir m) →
  res (setup_environment_file self fs) = Raise (OSError IsADirectoryError) ∧
  fs_of (setup_environment_file self fs) = fs.
Proof.
  intros Henv Hex. unfold setup_environment_file. rewrite call_unfold.
  assert (shutil_copy [".env.example"] [".env"] fs
          = raise (OSError IsADirectoryError) fs) as Hcopy.
  { unfold shutil_copy. by rewrite Hex. }
  cbv zeta. unfold bind, print, emit, exists_. rewrite Henv.
  unfold path_exists. by rewrite Hex, Hcopy.
Qed.

End setup_environment_file_lemmas.

(** C8.  If [.env] does not exist and [.env.example] is a file with
    contents [data], then [setup_environment_file] returns normally, [.env]
    is a file with contents [data], [.env.example] is as it was, and so is
    every other entry of the project root. *)
Theorem setup_environment_file_copies_template
    (self : ProjectInitializer) (fs : FS) (data : string) :
  path_exists fs [".env"] = false →
  stat fs [".env.example"] = Some (File data) →
  let out := setup_environment_file self fs in
  res out = Ok tt ∧
  stat (fs_of out) [".env"] = Some (File data) ∧
  stat (fs_of out) [".env.example"] = stat fs [".env.example"] ∧
  (∀ c, c ≠ ".env" → fs_of out !! c = fs !! c).
Proof.
  intros Henv Hex out. subst out.
  rewrite (setup_environment_file_copies self fs data Henv Hex).
  cbn [res fs_of fst snd]. rewrite !stat_top. repeat split.
  - by rewrite lookup_insert_eq.
  - by rewrite lookup_insert_ne.
  - intros c Hc. by rewrite lookup_insert_ne.
Qed.

Lemma setup_environment_file_copies_template_witness :
  let out := setup_environment_file (new_ProjectInitializer (rt_sample never)) fs_sample in
  res out = Ok tt ∧
  stat (fs_of out) [".env"] = Some (File "API_KEY=your_key_here").
Proof.
  destruct (setup_environment_file_copies_template
              (new_ProjectInitializer (rt_sample never)) fs_sample
              "API_KEY=your_key_here")
    as (Hres & Henv & _).
  - by vm_compute.
  - by vm_compute.
  - by split.
Defined.

(** * Invariants of the project tree *)

Section inv_lemmas.

Context (P : FS → Prop).

Lemma inv_ret {A} (a : A) : inv P (ret a).
Proof. by intros fs. Qed.

Lemma inv_raise {A} e : inv P (@raise A e).
Proof. by intros fs. Qed.

Lemma inv_print line : inv P (print line).
Proof. by intros fs. Qed.

Lemma inv_exists p : inv P (exists_ p).
Proof. by intros fs. Qed.

Lemma inv_bind {A B} (m : M A) (k : A → M B) :
  inv P m → (∀ a, inv P (k a)) → inv P (bind m k).
Proof.
  intros Hm Hk fs HP. rewrite fs_of_bind.
  destruct (res (m fs)) as [a|e]; [apply Hk|]; by apply Hm.
Qed.

(** A test whose outcome [P] determines. *)
Lemma inv_bind_exists {B} p b (k : bool → M B) :
  (∀ fs, P fs → path_exists fs p = b) → inv P (k b) → inv P (bind (exists_ p) k).
Proof.
  intros Hb Hk fs HP. rewrite fs_of_bind. cbn [exists_ res fs_of fst snd].
  rewrite (Hb fs HP). by apply Hk.
Qed.

Lemma inv_try_except {A} (body : M A) handler :
  inv P body → (∀ e h, handler e = Some h → inv P h) → inv P (try_except body handler).
Proof.
  intros Hb Hh fs HP. rewrite fs_of_try_except.
  destruct (res (body fs)) as [a|e]; [by apply Hb|].
  destruct (handler e) as [h|] eqn:E; [|by apply Hb].
  eapply Hh; [done|]. by apply Hb.
Qed.

Lemma inv_call {A} m (body : M A) : inv P body → inv P (call m body).
Proof. intros Hb fs HP. rewrite fs_of_call. by apply Hb. Qed.

Lemma inv_for_each {A} (l : list A) body :
  (∀ x, x ∈ l → inv P (body x)) → inv P (for_each l body).
Proof.
  induction l as [|x l IH]; intros Hb; [apply inv_ret|].
  simpl. apply inv_bind.
  - apply Hb. by left.
  - intros _. apply IH. intros y Hy. apply Hb. by right.
Qed.

Lemma inv_subprocess rt argv :
  (∀ fs rc fs', P fs → exec rt argv fs = Exited rc fs' → P fs') →
  inv P (subprocess_run_check rt argv).
Proof.
  intros Hexec fs HP.
  unfold subprocess_run_check, bind, emit, get_fs, set_fs, ret, raise.
  destruct (exec rt argv fs) as [rc fs'|k] eqn:E; [|done].
  case_bool_decide; cbn; by eapply Hexec.
Qed.

End inv_lemmas.

(** * Targets that exist already *)

Section existing_targets.

Variables (rt : Runtime) (self : ProjectInitializer).

Lemma create_virtual_environment_exists fs :
  path_exists fs [venv_name self] = true →
  create_virtual_environment rt self fs
  = (Ok tt, fs,
     [EvCall CreateVirtualEnvironment;
      EvPrint "📦 Creating virtual environment...";
      EvPrint ("✅ Virtual environment already exists at " +:+ str rt self [venv_name self]);
      EvReturn CreateVirtualEnvironment]).
Proof.
  intros H. unfold create_virtual_environment. rewrite call_unfold.
  cbv zeta. unfold bind, print, emit, exists_. by rewrite H.
Qed.

Lemma create_claude_config_exists fs :
  path_exists fs [".claude"; "CLAUDE.md"] = true →
  create_claude_config self fs
  = (Ok tt, fs,
     [EvCall CreateClaudeConfig;
      EvPrint "🤖 Setting up Claude configuration...";
      EvPrint "✅ Claude configuration already exists";
      EvReturn CreateClaudeConfig]).
Proof.
  intros H. unfold create_claude_config. rewrite call_unfold.
  cbv zeta. unfold bind, print, emit, exists_. cbn [app]. by rewrite H.
Qed.

(** With an existing configuration, [setup_git_hooks] changes the project
    tree through the external commands only. *)
Lemma setup_git_hooks_keeps_config (o : option node) :
  is_Some o →
  external_tools_keep rt (git_hooks_commands rt self) [".pre-commit-config.yaml"] →
  inv (λ fs, stat fs [".pre-commit-config.yaml"] = o) (setup_git_hooks rt self).
Proof.
  intros Ho Hkeep. unfold setup_git_hooks.
  assert (∀ argv, argv ∈ git_hooks_commands rt self →
                  inv (λ fs, stat fs [".pre-commit-config.yaml"] = o)
                    (subprocess_run_check rt argv)) as Hsub.
  { intros argv Hin. apply inv_subprocess. intros fs rc fs' HP E.
    by rewrite (Hkeep _ _ _ _ Hin E). }
  apply inv_call, inv_bind; [apply inv_print|intros _]. cbv zeta.
  apply inv_try_except.
  - apply inv_bind; [apply Hsub; by left|intros _].
    apply (inv_bind_exists _ _ true).
    + intros fs HP. unfold path_exists. rewrite HP. by destruct Ho as [n ->].
    + cbn [negb]. apply inv_bind; [apply inv_ret|intros _].
      apply inv_bind; [apply Hsub; by right; left|intros _]. apply inv_print.
  - intros e h Hh. destruct (is_Exception e); simplify_eq. apply inv_print.
Qed.

End existing_targets.

(** C3.  When the target of a setup step exists already (the virtual
    environment for [create_virtual_environment], [.env] for
    [setup_environment_file], [.pre-commit-config.yaml] for
    [setup_git_hooks], [.claude/CLAUDE.md] for [create_claude_config]),
    the step leaves it as it is.  The first, second and fourth of these
    steps then leave the whole project tree as it is and run no external
    command; [setup_git_hooks] still runs pip and pre-commit, and the
    statement holds for it provided these two external commands do not
    touch the configuration file: the step itself writes nothing. *)
Theorem existing_target_not_overwritten
    (rt : Runtime) (self : ProjectInitializer) (m : method) (p : path) (fs : FS) :
  target self m = Some p →
  path_exists fs p = true →
  (m = SetupGitHooks → external_tools_keep rt (git_hooks_commands rt self) p) →
  let out := method_body rt self m fs in
  stat (fs_of out) p = stat fs p ∧
  (m ≠ SetupGitHooks → fs_of out = fs ∧ existsb is_exec (trace out) = false).
Proof.
  intros Ht Hex Hkeep out. subst out.
  destruct m; simplify_eq/=.
  - rewrite (create_virtual_environment_exists rt self fs Hex). by repeat split.
  - rewrite (setup_environment_file_exists self fs Hex). by repeat split.
  - split; [|done].
    apply (setup_git_hooks_keeps_config rt self (stat fs [".pre-commit-config.yaml"]));
      [|by apply Hkeep|done].
    unfold path_exists in Hex. by destruct (stat fs [".pre-commit-config.yaml"]).
  - rewrite (create_claude_config_exists self fs Hex). by repeat split.
Qed.

Lemma exec_sample_keeps fails cmds c :
  c ≠ ".venv" → external_tools_keep (rt_sample fails) cmds [c].
Proof.
  intros Hc argv fs rc fs' _ E. cbn [exec rt_sample] in E. unfold exec_sample in E.
  rewrite !stat_top. destruct (is_venv_command argv); simplify_eq.
  - by rewrite lookup_insert_ne.
  - done.
Qed.

Lemma existing_target_not_overwritten_witness :
  let rt := rt_sample never in
  stat (fs_of (setup_git_hooks rt (new_ProjectInitializer rt) fs_configured))
    [".pre-commit-config.yaml"]
  = Some (File "repos: []").
Proof.
  intros rt.
  destruct (existing_target_not_overwritten rt (new_ProjectInitializer rt)
              SetupGitHooks [".pre-commit-config.yaml"] fs_configured)
    as [H _].
  - reflexivity.
  - by vm_compute.
  - intros _. by apply exec_sample_keeps.
  - exact H.
Defined.

(** * Creating the project directories *)

Section make_directory_lemmas.

Implicit Types (d : string) (q : path) (fs : FS).

Lemma extends_refl fs : extends fs fs.
Proof. intros q _. apply same_kind_refl. Qed.

Lemma extends_trans fs1 fs2 fs3 : extends fs1 fs2 → extends fs2 fs3 → extends fs1 fs3.
Proof.
  intros H12 H23 q Hq. eapply same_kind_trans; [by apply H12|].
  apply H23. by rewrite (same_kind_exists _ _ _ (H12 q Hq)).
Qed.

Lemma mkdir_extends p fs : extends fs (fs_of (mkdir_exist_ok p fs)).
Proof.
  intros q Hq. destruct (decide (q = p)) as [->|Hne]; [|by apply mkdir_kind].
  unfold path_exists in Hq. unfold mkdir_exist_ok.
  destruct (stat fs p) as [[]|] eqn:E; [| |done]; cbn; by rewrite E.
Qed.

Lemma touch_extends p fs : extends fs (fs_of (touch p fs)).
Proof.
  intros q Hq. destruct (decide (q = p)) as [->|Hne]; [|by apply touch_kind].
  rewrite (touch_exists _ _ Hq). apply same_kind_refl.
Qed.

(** The state after one round of the loop. *)
Lemma fs_of_make_directory d fs :
  fs_of (make_directory d fs)
  = let fs1 := fs_of (mkdir_exist_ok [d] fs) in
    if succeeded (res (mkdir_exist_ok [d] fs)) && bool_decide (d ∈ ["src"; "tests"])
    then fs_of (touch [d; "__init__.py"] fs1) else fs1.
Proof.
  unfold make_directory. cbv zeta. rewrite fs_of_bind.
  destruct (res (mkdir_exist_ok [d] fs)); [|done].
  cbn [succeeded andb]. by case_bool_decide.
Qed.

Lemma res_make_directory d fs :
  res (make_directory d fs)
  = if is_file fs [d] then Raise (OSError FileExistsError) else Ok tt.
Proof.
  unfold make_directory. cbv zeta. rewrite res_bind.
  pose proof (mkdir_ok [d] fs) as Hok. rewrite mkdir_top in *.
  destruct (is_file fs [d]); [done|].
  case_bool_decide; [|done]. apply touch_second. by apply Hok.
Qed.

Lemma make_directory_raise d fs e :
  res (make_directory d fs) = Raise e → fs_of (make_directory d fs) = fs.
Proof.
  rewrite res_make_directory, fs_of_make_directory. cbv zeta.
  pose proof (mkdir_raise [d] fs) as Hr. rewrite mkdir_top in *.
  destruct (is_file fs [d]); [|done]. intros _. by apply Hr.
Qed.

Lemma make_directory_extends d fs : extends fs (fs_of (make_directory d fs)).
Proof.
  rewrite fs_of_make_directory. cbv zeta.
  destruct (_ && _); [|apply mkdir_extends].
  eapply extends_trans; [apply mkdir_extends|apply touch_extends].
Qed.

Lemma make_directory_settled d fs :
  settled fs d → make_directory d fs = (Ok tt, fs, []).
Proof.
  intros [Hd Hi]. unfold make_directory. cbv zeta. unfold bind.
  rewrite (mkdir_dir _ _ Hd). case_bool_decide; [|done].
  cbn [app]. by rewrite (touch_exists _ _ (Hi ltac:(done))).
Qed.

(** A round that returns leaves its directory settled, and the
    [__init__.py] of a package directory is the one that was there, or
    else an empty file. *)
Lemma make_directory_ok d fs :
  res (make_directory d fs) = Ok tt →
  is_dir (fs_of (make_directory d fs)) [d] = true ∧
  (d ∈ ["src"; "tests"] →
   stat (fs_of (make_directory d fs)) [d; "__init__.py"]
   = Some (default (File "") (stat fs [d; "__init__.py"]))).
Proof.
  intros Hres. rewrite fs_of_make_directory. cbv zeta.
  assert (succeeded (res (mkdir_exist_ok [d] fs)) = true) as Hm.
  { rewrite res_make_directory in Hres. rewrite mkdir_top.
    by destruct (is_file fs [d]). }
  rewrite Hm. cbn [andb]. pose proof (mkdir_ok _ _ Hm) as Hd.
  set (fs1 := fs_of (mkdir_exist_ok [d] fs)) in *.
  case_bool_decide as Hpk; [|by split].
  assert (succeeded (res (touch [d; "__init__.py"] fs1)) = true) as Ht.
  { by rewrite (touch_second _ _ _ Hd). }
  split.
  - rewrite (same_kind_is_dir fs1 _ [d]); [done|]. by apply touch_kind.
  - intros _. rewrite (touch_ok _ _ Ht). subst fs1.
    rewrite mkdir_frame; [done|done|].
    intros [k Hk]. by destruct k.
Qed.

Lemma make_directory_ok_settled d fs :
  res (make_directory d fs) = Ok tt → settled (fs_of (make_directory d fs)) d.
Proof.
  intros [Hd Hi]%make_directory_ok. split; [done|].
  intros Hpk. unfold path_exists. by rewrite (Hi Hpk).
Qed.

Lemma extends_settled fs fs' d : extends fs fs' → settled fs d → settled fs' d.
Proof.
  intros Hext [Hd Hi]. split.
  - rewrite (same_kind_is_dir fs fs' [d]); [done|]. apply Hext.
    unfold is_dir in Hd. unfold path_exists. by destruct (stat fs [d]).
  - intros Hpk. rewrite (same_kind_exists fs fs' [d; "__init__.py"]); [by apply Hi|].
    by apply Hext, Hi.
Qed.

(** What one round can change: its directory and, for a package
    directory, the [__init__.py] in it (and with them the listing of the
    project root). *)
Lemma make_directory_frame d fs q :
  q ≠ [] → q ≠ [d] → (d ∈ ["src"; "tests"] → q ≠ [d; "__init__.py"]) →
  stat (fs_of (make_directory d fs)) q = stat fs q.
Proof.
  intros H0 H1 H2. rewrite fs_of_make_directory. cbv zeta.
  assert (stat (fs_of (mkdir_exist_ok [d] fs)) q = stat fs q) as Hm.
  { apply mkdir_frame; [done|]. intros [k Hk].
    destruct q as [|c q]; [done|]. destruct q; simplify_eq/=. }
  destruct (succeeded _); [|done]. case_bool_decide as Hpk; [|done].
  cbn [andb]. rewrite <- Hm.
  apply touch_frame; [by apply H2|]. intros [k Hk].
  destruct q as [|c [|c' q]]; simplify_eq/=.
  destruct q; simplify_eq/=. by apply H2.
Qed.

(** [touch] makes no directory, [mkdir] no regular file. *)
Lemma touch_is_dir p fs q : is_dir (fs_of (touch p fs)) q = is_dir fs q.
Proof.
  destruct (decide (q = p)) as [->|Hne]; [|by apply same_kind_is_dir, touch_kind].
  destruct (path_exists fs p) eqn:Ex; [by rewrite touch_exists|].
  assert (stat fs p = None) as E.
  { unfold path_exists in Ex. by destruct (stat fs p). }
  pose proof (touch_ok p fs) as Hok. pose proof (touch_raise p fs) as Hr.
  unfold is_dir. destruct (succeeded (res (touch p fs))).
  - by rewrite Hok, E.
  - by rewrite Hr.
Qed.

Lemma mkdir_is_file p fs q : is_file (fs_of (mkdir_exist_ok p fs)) q = is_file fs q.
Proof.
  destruct (decide (q = p)) as [->|Hne]; [|by apply same_kind_is_file, mkdir_kind].
  pose proof (mkdir_ok p fs) as Hok. pose proof (mkdir_raise p fs) as Hr.
  destruct (succeeded (res (mkdir_exist_ok p fs))).
  - specialize (Hok eq_refl). unfold is_dir in Hok. unfold is_file.
    destruct (stat (fs_of (mkdir_exist_ok p fs)) p) as [[]|] eqn:E1; try done.
    destruct (stat fs p) as [[]|] eqn:E; try done.
    unfold mkdir_exist_ok in E1. rewrite E in E1. cbn in E1. congruence.
  - by rewrite Hr.
Qed.

(** No round turns anything but its own name into a directory ... *)
Lemma make_directory_is_dir d fs q :
  q ≠ [d] → is_dir (fs_of (make_directory d fs)) q = is_dir fs q.
Proof.
  intros Hq. rewrite fs_of_make_directory. cbv zeta.
  pose proof (mkdir_kind [d] fs q Hq) as Hm%same_kind_is_dir.
  destruct (_ && _); [|done]. by rewrite touch_is_dir.
Qed.

(** ... and none turns anything but the [__init__.py] of a package
    directory into a file. *)
Lemma make_directory_is_file d fs q :
  (d ∈ ["src"; "tests"] → q ≠ [d; "__init__.py"]) →
  is_file (fs_of (make_directory d fs)) q = is_file fs q.
Proof.
  intros Hq. rewrite fs_of_make_directory. cbv zeta.
  destruct (succeeded _); [|apply mkdir_is_file].
  case_bool_decide as Hpk; [|apply mkdir_is_file]. cbn [andb].
  rewrite <- (mkdir_is_file [d] fs q). by apply same_kind_is_file, touch_kind, Hq.
Qed.

End make_directory_lemmas.

(** ** The loop *)

Section loop_lemmas.

Implicit Types (d : string) (l : list string) (q : path) (fs : FS).

Lemma for_each_cons {A} (x : A) (xs : list A) body fs :
  for_each (x :: xs) body fs = (body x ;;; for_each xs body) fs.
Proof. done. Qed.

Lemma loop_extends l fs : extends fs (fs_of (for_each l make_directory fs)).
Proof.
  apply (inv_for_each (extends fs)); [|apply extends_refl].
  intros d _ fs' H. eapply extends_trans; [exact H|apply make_directory_extends].
Qed.

(** The loop runs to its end unless a regular file has one of the names. *)
Lemma loop_res l fs :
  res (for_each l make_directory fs) = Ok tt ↔ ∀ d, d ∈ l → is_file fs [d] = false.
Proof.
  revert fs; induction l as [|x l IH]; intros fs.
  - split; [intros _ d Hd; by apply elem_of_nil in Hd|done].
  - rewrite for_each_cons, res_bind, res_make_directory.
    destruct (is_file fs [x]) eqn:Ex.
    + split; [done|]. intros H. specialize (H x ltac:(by left)). congruence.
    + rewrite IH. split.
      * intros H d [->|Hd]%elem_of_cons; [done|].
        rewrite <- (make_directory_is_file x fs [d]); [by apply H|done].
      * intros H d Hd.
        rewrite (make_directory_is_file x fs [d]); [|done]. apply H. by right.
Qed.

Lemma loop_ok_settled l fs d :
  res (for_each l make_directory fs) = Ok tt → d ∈ l →
  settled (fs_of (for_each l make_directory fs)) d.
Proof.
  revert fs; induction l as [|x l IH]; intros fs Hres Hd.
  - by apply elem_of_nil in Hd.
  - rewrite for_each_cons, res_bind in Hres. rewrite for_each_cons, fs_of_bind.
    destruct (res (make_directory x fs)) as [[]|e] eqn:Ex; [|done].
    apply elem_of_cons in Hd as [->|Hd]; [|by apply IH].
    eapply extends_settled; [apply loop_extends|]. by apply make_directory_ok_settled.
Qed.

Lemma loop_is_dir l fs q :
  q ∉ (λ d, [d]) <$> l →
  is_dir (fs_of (for_each l make_directory fs)) q = is_dir fs q.
Proof.
  intros Hq.
  apply (inv_for_each (λ fs', is_dir fs' q = is_dir fs q)); [|done].
  intros d Hd fs' <-. apply make_directory_is_dir.
  intros ->. apply Hq. apply list_elem_of_fmap. eauto.
Qed.

Lemma elem_of_packages d :
  d ∈ ["src"; "tests"] → [d; "__init__.py"] ∈ init_files.
Proof.
  unfold init_files. intros Hpk.
  apply elem_of_cons in Hpk as [->|Hpk]; [by left|].
  apply elem_of_cons in Hpk as [->|Hpk]; [by right; left|].
  by apply elem_of_nil in Hpk.
Qed.

Lemma loop_is_file l fs q :
  q ∉ init_files →
  is_file (fs_of (for_each l make_directory fs)) q = is_file fs q.
Proof.
  intros Hq.
  apply (inv_for_each (λ fs', is_file fs' q = is_file fs q)); [|done].
  intros d _ fs' <-. apply make_directory_is_file.
  intros Hpk ->. by apply Hq, elem_of_packages.
Qed.

Lemma loop_frame_in l fs q :
  q ≠ [] →
  (∀ d, d ∈ l → q ≠ [d] ∧ (d ∈ ["src"; "tests"] → q ≠ [d; "__init__.py"])) →
  stat (fs_of (for_each l make_directory fs)) q = stat fs q.
Proof.
  intros H0 Hq.
  apply (inv_for_each (λ fs', stat fs' q = stat fs q)); [|done].
  intros d Hd fs' <-. destruct (Hq d Hd) as [H1 H2].
  by apply make_directory_frame.
Qed.

(** What the loop can change: the directories of the list and the
    [__init__.py] files (and with them the listing of the project root). *)
Lemma loop_frame l fs q :
  q ≠ [] → q ∉ (λ d, [d]) <$> l → q ∉ init_files →
  stat (fs_of (for_each l make_directory fs)) q = stat fs q.
Proof.
  intros H0 Hq Hi. apply loop_frame_in; [done|]. intros d Hd. split.
  - intros ->. apply Hq. apply list_elem_of_fmap. eauto.
  - intros Hpk ->. by apply Hi, elem_of_packages.
Qed.

(** After a complete loop, the [__init__.py] of a package directory of the
    list is the one that was there before, or else an empty file. *)
Lemma loop_init_file l fs d :
  NoDup l → d ∈ l → d ∈ ["src"; "tests"] →
  res (for_each l make_directory fs) = Ok tt →
  stat (fs_of (for_each l make_directory fs)) [d; "__init__.py"]
  = Some (default (File "") (stat fs [d; "__init__.py"])).
Proof.
  revert fs; induction l as [|x l IH]; intros fs Hnd Hd Hpk Hres.
  - by apply elem_of_nil in Hd.
  - apply NoDup_cons in Hnd as [Hx Hnd].
    rewrite for_each_cons, res_bind in Hres. rewrite for_each_cons, fs_of_bind.
    destruct (res (make_directory x fs)) as [[]|e] eqn:Ex; [|done].
    destruct (decide (x = d)) as [->|Hne].
    + destruct (make_directory_ok _ _ Ex) as [_ Hi].
      rewrite <- (Hi Hpk). apply loop_frame_in; [done|].
      intros d' Hd'. split; [done|]. intros _ [= ->]. done.
    + apply elem_of_cons in Hd as [->|Hd]; [done|].
      rewrite (IH _ Hnd Hd Hpk Hres). do 2 f_equal.
      apply make_directory_frame; [done|done|]. intros _ [= ->]. done.
Qed.

(** Running the loop again changes nothing. *)
Lemma loop_idempotent l fs :
  let fs1 := fs_of (for_each l make_directory fs) in
  fs_of (for_each l make_directory fs1) = fs1 ∧
  res (for_each l make_directory fs1) = res (for_each l make_directory fs).
Proof.
  revert fs; induction l as [|x l IH]; intros fs; [done|]. cbv zeta.
  rewrite (for_each_cons x l _ fs), fs_of_bind, res_bind.
  destruct (res (make_directory x fs)) as [[]|e] eqn:Ex.
  - set (fsa := fs_of (make_directory x fs)).
    set (fs1 := fs_of (for_each l make_directory fsa)).
    assert (settled fs1 x) as Hs.
    { eapply extends_settled; [apply loop_extends|].
      by apply make_directory_ok_settled. }
    rewrite for_each_cons, fs_of_bind, res_bind.
    rewrite (make_directory_settled _ _ Hs). cbn [res fs_of fst snd].
    apply IH.
  - rewrite (make_directory_raise _ _ _ Ex).
    by rewrite for_each_cons, fs_of_bind, res_bind, Ex, (make_directory_raise _ _ _ Ex).
Qed.

End loop_lemmas.

Section create_project_directories_lemmas.

Variable self : ProjectInitializer.

Lemma fs_of_create_project_directories fs :
  fs_of (create_project_directories self fs)
  = fs_of (for_each directories make_directory fs).
Proof.
  unfold create_project_directories. rewrite fs_of_call, fs_of_bind.
  cbn [print emit res fs_of fst snd]. rewrite fs_of_bind.
  by destruct (res (for_each directories make_directory fs)).
Qed.

Lemma res_create_project_directories fs :
  res (create_project_directories self fs)
  = res (for_each directories make_directory fs).
Proof.
  unfold create_project_directories. rewrite res_call, res_bind.
  cbn [print emit res fs_of fst snd]. rewrite res_bind.
  by destruct (res (for_each directories make_directory fs)) as [[]|].
Qed.

Lemma NoDup_directories : NoDup directories.
Proof. unfold directories. repeat (apply NoDup_cons; split; [set_solver|]). apply NoDup_nil_2. Qed.

End create_project_directories_lemmas.

(** C7.  When [create_project_directories] returns, [src], [tests],
    [scripts], [data] and [.claude] are directories of the project root;
    whether it returns or not, nothing else has become a directory; and it
    returns exactly when none of the five names is taken by a regular file,
    hence also when some or all of the directories exist already. *)
Theorem create_project_directories_creates (self : ProjectInitializer) (fs : FS) :
  let out := create_project_directories self fs in
  (res out = Ok tt →
   is_dir (fs_of out) ["src"] = true ∧
   is_dir (fs_of out) ["tests"] = true ∧
   is_dir (fs_of out) ["scripts"] = true ∧
   is_dir (fs_of out) ["data"] = true ∧
   is_dir (fs_of out) [".claude"] = true) ∧
  (∀ q, q ∉ [["src"]; ["tests"]; ["scripts"]; ["data"]; [".claude"]] →
        is_dir (fs_of out) q = is_dir fs q) ∧
  (res out = Ok tt ↔
   ∀ d, d ∈ ["src"; "tests"; "scripts"; "data"; ".claude"] → is_file fs [d] = false).
Proof.
  cbv zeta. rewrite fs_of_create_project_directories, res_create_project_directories.
  split; [|split].
  - intros Hres.
    assert (∀ d, d ∈ directories →
                 is_dir (fs_of (for_each directories make_directory fs)) [d] = true)
      as Hall.
    { intros d Hd. by destruct (loop_ok_settled _ _ d Hres Hd). }
    unfold directories in Hall at 1.
    repeat split; apply Hall; set_solver.
  - intros q Hq. by apply loop_is_dir.
  - apply loop_res.
Qed.

Lemma create_project_directories_creates_witness :
  let out := create_project_directories (new_ProjectInitializer (rt_sample never)) fs_partial in
  res out = Ok tt ∧
  (is_dir (fs_of out) ["src"] = true ∧
   is_dir (fs_of out) ["tests"] = true ∧
   is_dir (fs_of out) ["scripts"] = true ∧
   is_dir (fs_of out) ["data"] = true ∧
   is_dir (fs_of out) [".claude"] = true) ∧
  is_dir (fs_of out) ["docs"] = false ∧
  stat (fs_of out) ["data"; "raw.csv"] = Some (File "a,b").
Proof.
  destruct (create_project_directories_creates
              (new_ProjectInitializer (rt_sample never)) fs_partial)
    as (Hdirs & Hother & Hres).
  assert (res (create_project_directories (new_ProjectInitializer (rt_sample never))
                 fs_partial) = Ok tt) as Hok.
  { apply Hres. intros d Hd.
    repeat (apply elem_of_cons in Hd as [->|Hd]; [by vm_compute|]).
    by apply elem_of_nil in Hd. }
  split; [exact Hok|]. split; [exact (Hdirs Hok)|]. split; [|by vm_compute].
  rewrite (Hother ["docs"]); [by vm_compute|set_solver].
Defined.

(** C10.  When [create_project_directories] returns, [src/__init__.py] and
    [tests/__init__.py] exist: each is what it was before if it existed,
    and an empty file otherwise.  Whether it returns or not, no
    [__init__.py] is created in any other directory, and nothing but
    these two has become a regular file. *)
Theorem create_project_directories_init_files (self : ProjectInitializer) (fs : FS) :
  let out := create_project_directories self fs in
  (res out = Ok tt →
   ∀ d, d ∈ ["src"; "tests"] →
        stat (fs_of out) [d; "__init__.py"]
        = Some (default (File "") (stat fs [d; "__init__.py"]))) ∧
  (∀ d, d ∉ ["src"; "tests"] →
        stat (fs_of out) [d; "__init__.py"] = stat fs [d; "__init__.py"]) ∧
  (∀ q, q ∉ init_files → is_file (fs_of out) q = is_file fs q).
Proof.
  cbv zeta. rewrite fs_of_create_project_directories, res_create_project_directories.
  repeat split.
  - intros Hres d Hd. apply loop_init_file; [apply NoDup_directories| |done|done].
    unfold directories. set_solver.
  - intros d Hd. apply loop_frame; [done| |].
    + intros (d' & [=] & _)%list_elem_of_fmap.
    + unfold init_files. set_solver.
  - intros q Hq. by apply loop_is_file.
Qed.

Lemma create_project_directories_init_files_witness :
  let out := create_project_directories (new_ProjectInitializer (rt_sample never)) fs_partial in
  stat (fs_of out) ["src"; "__init__.py"] = Some (File "VERSION = 1") ∧
  stat (fs_of out) ["tests"; "__init__.py"] = Some (File "") ∧
  stat (fs_of out) ["data"; "__init__.py"] = None.
Proof.
  destruct (create_project_directories_init_files
              (new_ProjectInitializer (rt_sample never)) fs_partial)
    as (Hinit & Hother & _).
  assert (res (create_project_directories (new_ProjectInitializer (rt_sample never))
                 fs_partial) = Ok tt) as Hok by (by vm_compute).
  split; [|split].
  - rewrite (Hinit Hok "src"); [by vm_compute|set_solver].
  - rewrite (Hinit Hok "tests"); [by vm_compute|set_solver].
  - rewrite (Hother "data"); [by vm_compute|set_solver].
Defined.

(** * Idempotence *)

Section idempotence_lemmas.

Variables (rt : Runtime) (self : ProjectInitializer).

Lemma fs_of_twice (s : M unit) fs :
  fs_of (twice s fs)
  = if succeeded (res (s fs)) then fs_of (s (fs_of (s fs))) else fs_of (s fs).
Proof. unfold twice. rewrite fs_of_bind. by destruct (res (s fs)). Qed.

Lemma rerun_twice (s : M unit) fs :
  fs_of (s (fs_of (s fs))) = fs_of (s fs) → fs_of (twice s fs) = fs_of (s fs).
Proof. intros H. rewrite fs_of_twice. by destruct (succeeded _). Qed.

Lemma rerun_fixed (s : M unit) fs :
  fs_of (s fs) = fs → fs_of (s (fs_of (s fs))) = fs_of (s fs).
Proof. intros H. by rewrite !H. Qed.

Lemma create_virtual_environment_missing fs :
  path_exists fs [venv_name self] = false →
  res (create_virtual_environment rt self fs)
  = res (subprocess_run_check rt (venv_command rt self) fs) ∧
  fs_of (create_virtual_environment rt self fs)
  = fs_of (subprocess_run_check rt (venv_command rt self) fs).
Proof.
  intros H. unfold create_virtual_environment. rewrite call_unfold.
  cbv zeta. fold (venv_command rt self).
  set (sub := subprocess_run_check rt (venv_command rt self)).
  unfold bind, print, emit, exists_. rewrite H.
  by destruct (sub fs) as [[[[]|e] fs'] t].
Qed.

Lemma subprocess_run_check_inv argv fs :
  res (subprocess_run_check rt argv fs) = Ok tt →
  exec rt argv fs = Exited 0 (fs_of (subprocess_run_check rt argv fs)).
Proof.
  destruct (exec rt argv fs) as [rc fs'|k] eqn:E.
  - destruct (decide (rc = 0%Z)) as [->|Hrc].
    + by rewrite (subprocess_run_check_ok _ _ _ _ E).
    + by rewrite (subprocess_run_check_failed _ _ _ _ _ E Hrc).
  - by rewrite (subprocess_run_check_not_started _ _ _ _ E).
Qed.

Lemma create_virtual_environment_twice fs :
  venv_tool_creates rt self fs →
  fs_of (twice (create_virtual_environment rt self) fs)
  = fs_of (create_virtual_environment rt self fs).
Proof.
  intros Hvenv. rewrite fs_of_twice.
  destruct (path_exists fs [venv_name self]) eqn:Ex.
  - rewrite (create_virtual_environment_exists rt self fs Ex).
    cbn [res fs_of fst snd succeeded].
    by rewrite (create_virtual_environment_exists rt self fs Ex).
  - destruct (create_virtual_environment_missing fs Ex) as [Hres Hfs].
    destruct (res (create_virtual_environment rt self fs)) as [[]|e] eqn:E; [|done].
    cbn [succeeded]. symmetry in Hres.
    apply subprocess_run_check_inv in Hres. rewrite <- Hfs in Hres.
    by rewrite (create_virtual_environment_exists rt self _ (Hvenv _ Hres)).
Qed.

Lemma setup_environment_file_rerun fs :
  fs_of (setup_environment_file self (fs_of (setup_environment_file self fs)))
  = fs_of (setup_environment_file self fs).
Proof.
  destruct (path_exists fs [".env"]) eqn:Ex.
  { apply rerun_fixed. by rewrite (setup_environment_file_exists self fs Ex). }
  destruct (stat fs [".env.example"]) as [[data|m]|] eqn:Ee.
  - rewrite (setup_environment_file_copies self fs data Ex Ee).
    cbn [fs_of fst snd].
    rewrite setup_environment_file_exists; [done|].
    by rewrite path_exists_top, lookup_insert_eq.
  - apply rerun_fixed. by destruct (setup_environment_file_example_dir self fs m Ex Ee).
  - apply rerun_fixed, setup_environment_file_no_example; [done|].
    unfold path_exists. by rewrite Ee.
Qed.

Lemma create_claude_config_missing fs :
  path_exists fs [".claude"; "CLAUDE.md"] = false →
  fs_of (create_claude_config self fs)
  = fs_of (write_text [".claude"; "CLAUDE.md"] claude_content fs).
Proof.
  intros H. unfold create_claude_config. rewrite call_unfold.
  cbv zeta. cbn [app].
  set (wr := write_text [".claude"; "CLAUDE.md"] claude_content).
  unfold bind, print, emit, exists_. rewrite H. cbn [negb].
  by destruct (wr fs) as [[[[]|e] fs'] t].
Qed.

Lemma create_claude_config_rerun fs :
  fs_of (create_claude_config self (fs_of (create_claude_config self fs)))
  = fs_of (create_claude_config self fs).
Proof.
  destruct (path_exists fs [".claude"; "CLAUDE.md"]) eqn:Ex.
  { apply rerun_fixed. by rewrite (create_claude_config_exists self fs Ex). }
  rewrite (create_claude_config_missing fs Ex), write_text_second.
  destruct (fs !! ".claude") as [[d|m]|] eqn:Ec.
  - cbn [raise fs_of fst snd]. rewrite (create_claude_config_missing fs Ex).
    by rewrite write_text_second, Ec.
  - destruct (m !! "CLAUDE.md") as [[d|m']|] eqn:Em.
    + exfalso. unfold path_exists, stat in Ex. simpl in Ex. by rewrite Ec, Em in Ex.
    + exfalso. unfold path_exists, stat in Ex. simpl in Ex. by rewrite Ec, Em in Ex.
    + cbn [fs_of fst snd]. rewrite create_claude_config_exists; [done|].
      unfold path_exists, stat. simpl. by rewrite !lookup_insert_eq.
  - cbn [raise fs_of fst snd]. rewrite (create_claude_config_missing fs Ex).
    by rewrite write_text_second, Ec.
Qed.

Lemma create_project_directories_rerun fs :
  fs_of (create_project_directories self (fs_of (create_project_directories self fs)))
  = fs_of (create_project_directories self fs).
Proof.
  rewrite !fs_of_create_project_directories.
  by destruct (loop_idempotent directories fs).
Qed.

End idempotence_lemmas.

(** C6.  Each of [create_virtual_environment], [setup_environment_file],
    [create_project_directories] and [create_claude_config] is idempotent
    on the project tree: calling it twice in a row leaves the tree that
    one call leaves.  For the last three this holds for a second call from
    whatever state the first one left, even after an exception; for
    [create_virtual_environment] it relies on the venv tool creating the
    environment directory when it reports success. *)
Theorem setup_steps_idempotent
    (rt : Runtime) (self : ProjectInitializer) (m : method) (fs : FS) :
  m ∈ [CreateVirtualEnvironment; SetupEnvironmentFile;
       CreateProjectDirectories; CreateClaudeConfig] →
  (m = CreateVirtualEnvironment → venv_tool_creates rt self fs) →
  fs_of (twice (method_body rt self m) fs) = fs_of (method_body rt self m fs) ∧
  (m ≠ CreateVirtualEnvironment →
   fs_of (method_body rt self m (fs_of (method_body rt self m fs)))
   = fs_of (method_body rt self m fs)).
Proof.
  intros Hm Hvenv.
  repeat (apply elem_of_cons in Hm as [->|Hm]); [| | | |by apply elem_of_nil in Hm];
    cbn [method_body].
  - split; [|done]. by apply create_virtual_environment_twice, Hvenv.
  - split; [|intros _]; [apply rerun_twice|]; apply setup_environment_file_rerun.
  - split; [|intros _]; [apply rerun_twice|]; apply create_project_directories_rerun.
  - split; [|intros _]; [apply rerun_twice|]; apply create_claude_config_rerun.
Qed.

Lemma exec_sample_creates_venv fails fs :
  venv_tool_creates (rt_sample fails) (new_ProjectInitializer (rt_sample fails)) fs.
Proof.
  intros fs' E. cbn [exec rt_sample] in E. unfold exec_sample in E.
  replace (is_venv_command _) with true in E by (by vm_compute).
  simplify_eq. cbn [venv_name new_ProjectInitializer].
  by rewrite path_exists_top, lookup_insert_eq.
Qed.

Lemma setup_steps_idempotent_witness :
  let rt := rt_sample never in
  let self := new_ProjectInitializer rt in
  fs_of (twice (create_virtual_environment rt self) fs_sample)
  = <[".venv" := Dir ∅]> fs_sample.
Proof.
  intros rt self.
  destruct (setup_steps_idempotent rt self CreateVirtualEnvironment fs_sample)
    as [H _].
  - set_solver.
  - intros _. apply exec_sample_creates_venv.
  - cbn [method_body] in H. rewrite H. by vm_compute.
Defined.

(** * Further properties of the steps *)

Section more_path_lemmas.

Lemma join_snoc sep l x : l ≠ [] → join sep (l ++ [x]) = join sep l +:+ sep +:+ x.
Proof.
  induction l as [|y l IH]; [done|]. intros _.
  destruct l as [|z l]; [done|].
  change ((y :: z :: l) ++ [x]) with (y :: z :: (l ++ [x])).
  rewrite !join_cons. change (z :: (l ++ [x])) with ((z :: l) ++ [x]).
  rewrite IH by done. by rewrite !string_app_assoc.
Qed.

(** [str(p / name) = str(p) + sep + name] below the project root. *)
Lemma str_snoc rt self p x :
  p ≠ [] → str rt self (p ++ [x]) = str rt self p +:+ sep rt +:+ x.
Proof.
  intros Hp. unfold str, under_root.
  assert (parts (project_root self) ++ p ≠ []) as Hne.
  { intros [_ ?]%app_eq_nil. done. }
  rewrite !str_path_nonempty; rewrite ?parts_foldl_joinpath; try done.
  - rewrite !anchor_foldl_joinpath, app_assoc, join_snoc by done.
    by rewrite !string_app_assoc.
  - rewrite app_assoc. intros [_ ?]%app_eq_nil. done.
Qed.

End more_path_lemmas.

(** X1.  The pip executable lies inside the directory that is handed to
    the venv tool: [get_pip_command] is the last argument of the venv
    command, followed by the separator, [Scripts] or [bin], the separator
    and [pip]. *)
Theorem get_pip_command_under_venv (rt : Runtime) (self : ProjectInitializer) :
  ∃ venv_dir,
    last (venv_command rt self) = Some venv_dir ∧
    get_pip_command rt self
    = venv_dir +:+ sep rt +:+ scripts_dir self +:+ sep rt +:+ "pip".
Proof.
  exists (str rt self [venv_name self]). split; [done|].
  unfold get_pip_command, scripts_dir.
  case_bool_decide.
  - change [venv_name self; "Scripts"; "pip"]
      with (([venv_name self] ++ ["Scripts"]) ++ ["pip"]).
    rewrite !str_snoc by done. by rewrite !string_app_assoc.
  - change [venv_name self; "bin"; "pip"]
      with (([venv_name self] ++ ["bin"]) ++ ["pip"]).
    rewrite !str_snoc by done. by rewrite !string_app_assoc.
Qed.

Section subprocess_lemmas.

Variables (rt : Runtime).

(** [subprocess.run(argv, check=True)] in terms of what the command did. *)
Lemma subprocess_run_check_outcome argv fs :
  subprocess_run_check rt argv fs
  = let o := exec rt argv fs in
    if exited_ok o then (Ok tt, tree_after o fs, [EvExec argv])
    else (Raise (failure_of argv o), tree_after o fs,
          [EvExec argv; EvRaise (failure_of argv o)]).
Proof.
  cbv zeta. destruct (exec rt argv fs) as [rc fs'|k] eqn:E; cbn [exited_ok tree_after failure_of].
  - case_bool_decide as Hrc.
    + subst rc. by apply subprocess_run_check_ok.
    + by apply subprocess_run_check_failed.
  - by apply subprocess_run_check_not_started.
Qed.

End subprocess_lemmas.

Section more_step_lemmas.

Variables (rt : Runtime) (self : ProjectInitializer).

Lemma create_virtual_environment_missing_unfold fs :
  path_exists fs [venv_name self] = false →
  create_virtual_environment rt self fs
  = let o := exec rt (venv_command rt self) fs in
    if exited_ok o then
      (Ok tt, tree_after o fs,
       [EvCall CreateVirtualEnvironment;
        EvPrint "📦 Creating virtual environment...";
        EvExec (venv_command rt self);
        EvPrint ("✅ Virtual environment created at " +:+ str rt self [venv_name self]);
        EvReturn CreateVirtualEnvironment])
    else
      (Raise (failure_of (venv_command rt self) o), tree_after o fs,
       [EvCall CreateVirtualEnvironment;
        EvPrint "📦 Creating virtual environment...";
        EvExec (venv_command rt self);
        EvRaise (failure_of (venv_command rt self) o)]).
Proof.
  intros H. unfold create_virtual_environment. rewrite call_unfold.
  cbv zeta. fold (venv_command rt self).
  set (sub := subprocess_run_check rt (venv_command rt self)).
  pose proof (subprocess_run_check_outcome rt (venv_command rt self) fs) as Hsub.
  fold sub in Hsub. cbv zeta in Hsub.
  unfold bind, print, emit, exists_. rewrite H, Hsub.
  by destruct (exited_ok _).
Qed.

Lemma install_dependencies_unfold fs :
  install_dependencies rt self fs
  = let o1 := exec rt (pip_upgrade rt self) fs in
    let fs1 := tree_after o1 fs in
    let o2 := exec rt (install_requirements rt self) fs1 in
    if negb (exited_ok o1) then
      (Raise (failure_of (pip_upgrade rt self) o1), fs1,
       [EvCall InstallDependencies;
        EvPrint "📥 Installing dependencies...";
        EvExec (pip_upgrade rt self);
        EvRaise (failure_of (pip_upgrade rt self) o1)])
    else if negb (path_exists fs1 ["requirements.txt"]) then
      (Ok tt, fs1,
       [EvCall InstallDependencies;
        EvPrint "📥 Installing dependencies...";
        EvExec (pip_upgrade rt self);
        EvPrint "⚠️  No requirements.txt found";
        EvReturn InstallDependencies])
    else if exited_ok o2 then
      (Ok tt, tree_after o2 fs1,
       [EvCall InstallDependencies;
        EvPrint "📥 Installing dependencies...";
        EvExec (pip_upgrade rt self);
        EvExec (install_requirements rt self);
        EvPrint "✅ Dependencies installed successfully";
        EvReturn InstallDependencies])
    else
      (Raise (failure_of (install_requirements rt self) o2), tree_after o2 fs1,
       [EvCall InstallDependencies;
        EvPrint "📥 Installing dependencies...";
        EvExec (pip_upgrade rt self);
        EvExec (install_requirements rt self);
        EvRaise (failure_of (install_requirements rt self) o2)]).
Proof.
  unfold install_dependencies. rewrite call_unfold. cbv zeta.
  fold (pip_upgrade rt self) (install_requirements rt self).
  set (o1 := exec rt (pip_upgrade rt self) fs).
  set (fs1 := tree_after o1 fs).
  set (o2 := exec rt (install_requirements rt self) fs1).
  pose proof (subprocess_run_check_outcome rt (pip_upgrade rt self) fs) as H1.
  pose proof (subprocess_run_check_outcome rt (install_requirements rt self) fs1) as H2.
  cbv zeta in H1, H2. fold o1 in H1. fold fs1 in H1. fold o2 in H2.
  set (sub1 := subprocess_run_check rt (pip_upgrade rt self)) in *.
  set (sub2 := subprocess_run_check rt (install_requirements rt self)) in *.
  unfold bind, print, emit, exists_. rewrite H1.
  destruct (exited_ok o1); cbn [negb]; [|done].
  destruct (path_exists fs1 ["requirements.txt"]); cbn [negb]; [|done].
  rewrite H2. by destruct (exited_ok o2).
Qed.

End more_step_lemmas.

(** X2.  When the virtual environment does not exist,
    [create_virtual_environment] runs the venv command and no other; it
    returns when that command exits with 0 and raises otherwise
    ([CalledProcessError] with the return code, or the error of the failed
    start); the project tree afterwards is the one the command left, the
    step writes nothing itself. *)
Theorem create_virtual_environment_runs_venv
    (rt : Runtime) (self : ProjectInitializer) (fs : FS) :
  path_exists fs [venv_name self] = false →
  let o := exec rt (venv_command rt self) fs in
  let out := create_virtual_environment rt self fs in
  exec_events (trace out) = [EvExec (venv_command rt self)] ∧
  fs_of out = tree_after o fs ∧
  res out = if exited_ok o then Ok tt
            else Raise (failure_of (venv_command rt self) o).
Proof.
  intros H o out. subst o out.
  rewrite (create_virtual_environment_missing_unfold rt self fs H). cbv zeta.
  by destruct (exited_ok _).
Qed.

Lemma create_virtual_environment_runs_venv_witness :
  let self := new_ProjectInitializer (rt_exit 2) in
  res (create_virtual_environment (rt_exit 2) self fs_sample)
  = Raise (CalledProcessError 2
             ["/usr/bin/python3"; "-m"; "venv"; "/home/dev/project/.venv"]) ∧
  fs_of (create_virtual_environment (rt_exit 2) self fs_sample) = fs_sample.
Proof.
  intros self.
  destruct (create_virtual_environment_runs_venv (rt_exit 2) self fs_sample)
    as (_ & Hfs & Hres); [by vm_compute|].
  split; [exact Hres|exact Hfs].
Defined.

(** X3.  [install_dependencies] always runs the pip upgrade first; it runs
    the installation of the requirements after it exactly when the upgrade
    exited with 0 and [requirements.txt] exists in the tree the upgrade
    left; it runs no other command. *)
Theorem install_dependencies_commands
    (rt : Runtime) (self : ProjectInitializer) (fs : FS) :
  let o1 := exec rt (pip_upgrade rt self) fs in
  exec_events (trace (install_dependencies rt self fs))
  = EvExec (pip_upgrade rt self)
    :: (if exited_ok o1 && path_exists (tree_after o1 fs) ["requirements.txt"]
        then [EvExec (install_requirements rt self)] else []).
Proof.
  cbv zeta. rewrite install_dependencies_unfold. cbv zeta.
  destruct (exited_ok (exec rt (pip_upgrade rt self) fs)); cbn [negb andb]; [|done].
  destruct (path_exists _ _); cbn [negb]; [|done].
  by destruct (exited_ok _).
Qed.

(** X4.  With a successful pip upgrade and an existing [requirements.txt],
    the outcome of [install_dependencies] is that of the installation of
    the requirements, which is run in the tree that the upgrade left: the
    step returns when it exits with 0 and raises otherwise, and the tree
    afterwards is the one the installation left. *)
Theorem install_dependencies_with_requirements
    (rt : Runtime) (self : ProjectInitializer) (fs fs1 : FS) :
  exec rt (pip_upgrade rt self) fs = Exited 0 fs1 →
  path_exists fs1 ["requirements.txt"] = true →
  let o2 := exec rt (install_requirements rt self) fs1 in
  let out := install_dependencies rt self fs in
  fs_of out = tree_after o2 fs1 ∧
  res out = (if exited_ok o2 then Ok tt
             else Raise (failure_of (install_requirements rt self) o2)) ∧
  (exited_ok o2 = true ↔
   EvPrint "✅ Dependencies installed successfully" ∈ trace out).
Proof.
  intros H1 Hreq o2 out. subst o2 out.
  rewrite install_dependencies_unfold. cbv zeta. rewrite H1.
  cbn [exited_ok tree_after negb]. rewrite bool_decide_eq_true_2 by done.
  cbn [negb]. rewrite Hreq. cbn [negb].
  destruct (exited_ok _); cbn [fs_of res trace fst snd]; repeat split; try done.
  - intros _. set_solver.
  - intros Hin. exfalso. revert Hin. rewrite !elem_of_cons, elem_of_nil.
    intros [?|[?|[?|[?|[?|[]]]]]]; discriminate.
Qed.

Lemma install_dependencies_with_requirements_witness :
  let rt := rt_sample fails_requirements in
  let self := new_ProjectInitializer rt in
  res (install_dependencies rt self fs_sample)
  = Raise (CalledProcessError 1
             ["/home/dev/project/.venv/bin/pip"; "install"; "-r";
              "/home/dev/project/requirements.txt"]).
Proof.
  intros rt self.
  destruct (install_dependencies_with_requirements rt self fs_sample fs_sample)
    as (_ & Hres & _); [by vm_compute|by vm_compute|].
  rewrite Hres. by vm_compute.
Defined.

Section more_environment_file_lemmas.

Variable self : ProjectInitializer.

Lemma setup_environment_file_unfold fs :
  setup_environment_file self fs
  = if path_exists fs [".env"] then
      (Ok tt, fs,
       [EvCall SetupEnvironmentFile;
        EvPrint "🔧 Setting up environment file...";
        EvPrint "✅ .env file already exists";
        EvReturn SetupEnvironmentFile])
    else
      match fs !! ".env.example" with
      | Some (File data) =>
          (Ok tt, <[".env" := File data]> fs,
           [EvCall SetupEnvironmentFile;
            EvPrint "🔧 Setting up environment file...";
            EvPrint "✅ Created .env file from .env.example";
            EvPrint "⚠️  Please update .env with your actual API keys";
            EvReturn SetupEnvironmentFile])
      | Some (Dir _) =>
          (Raise (OSError IsADirectoryError), fs,
           [EvCall SetupEnvironmentFile;
            EvPrint "🔧 Setting up environment file...";
            EvRaise (OSError IsADirectoryError)])
      | None =>
          (Ok tt, fs,
           [EvCall SetupEnvironmentFile;
            EvPrint "🔧 Setting up environment file...";
            EvPrint "⚠️  No .env.example found";
            EvReturn SetupEnvironmentFile])
      end.
Proof.
  destruct (path_exists fs [".env"]) eqn:Henv.
  { by apply setup_environment_file_exists. }
  destruct (fs !! ".env.example") as [[data|m]|] eqn:Hex.
  - apply setup_environment_file_copies; [done|by rewrite stat_top].
  - unfold setup_environment_file. rewrite call_unfold.
    assert (shutil_copy [".env.example"] [".env"] fs
            = raise (OSError IsADirectoryError) fs) as Hcopy.
    { unfold shutil_copy. by rewrite stat_top, Hex. }
    cbv zeta. unfold bind, print, emit, exists_. rewrite Henv.
    unfold path_exists. by rewrite stat_top, Hex, Hcopy.
  - unfold setup_environment_file. rewrite call_unfold.
    cbv zeta. unfold bind, print, emit, exists_. rewrite Henv.
    unfold path_exists. by rewrite stat_top, Hex.
Qed.

End more_environment_file_lemmas.

(** X5.  [setup_environment_file] runs no external command and touches
    nothing but [.env]: every other entry of the project root is as it was,
    an existing [.env] is kept, and a missing one appears only as a copy of
    a regular file [.env.example] (never as an empty file). *)
Theorem setup_environment_file_footprint (self : ProjectInitializer) (fs : FS) :
  let out := setup_environment_file self fs in
  exec_events (trace out) = [] ∧
  (∀ c, c ≠ ".env" → fs_of out !! c = fs !! c) ∧
  fs_of out !! ".env"
  = match fs !! ".env", fs !! ".env.example" with
    | Some n, _ => Some n
    | None, Some (File data) => Some (File data)
    | None, _ => None
    end.
Proof.
  cbv zeta. rewrite setup_environment_file_unfold, path_exists_top.
  destruct (fs !! ".env") as [n|] eqn:Henv.
  - rewrite bool_decide_eq_true_2 by eauto.
    cbn [fs_of trace fst snd]. by rewrite Henv.
  - rewrite bool_decide_eq_false_2 by (by intros [? ?]).
    destruct (fs !! ".env.example") as [[data|m]|] eqn:Hex;
      cbn [fs_of trace fst snd]; repeat split; try done.
    + intros c Hc. by rewrite lookup_insert_ne.
    + by rewrite lookup_insert_eq.
Qed.

(** X6.  [setup_environment_file] raises in one situation only: [.env] is
    missing and [.env.example] is a directory; the exception is
    [IsADirectoryError] and the project tree is left as it was.  Without
    any [.env.example] it returns normally. *)
Theorem setup_environment_file_result (self : ProjectInitializer) (fs : FS) :
  let out := setup_environment_file self fs in
  res out
  = (if negb (path_exists fs [".env"]) && is_dir fs [".env.example"]
     then Raise (OSError IsADirectoryError) else Ok tt) ∧
  (succeeded (res out) = false → fs_of out = fs).
Proof.
  cbv zeta. rewrite setup_environment_file_unfold. unfold is_dir.
  rewrite stat_top.
  destruct (path_exists fs [".env"]); cbn [negb andb]; [done|].
  by destruct (fs !! ".env.example") as [[data|m]|].
Qed.

Section more_loop_lemmas.

Implicit Types (d : string) (l : list string) (fs : FS).

Lemma make_directory_clash d fs :
  is_file fs [d] = true →
  make_directory d fs
  = (Raise (OSError FileExistsError), fs, [EvRaise (OSError FileExistsError)]).
Proof.
  intros Hf. unfold make_directory, bind, mkdir_exist_ok. cbv zeta.
  unfold is_file in Hf. by destruct (stat fs [d]) as [[]|].
Qed.

Lemma trace_make_directory d fs :
  is_file fs [d] = false → trace (make_directory d fs) = [].
Proof.
  intros Hf. unfold make_directory. cbv zeta. rewrite trace_bind.
  assert (succeeded (res (mkdir_exist_ok [d] fs)) = true) as Hm.
  { rewrite mkdir_top. by rewrite Hf. }
  rewrite (mkdir_trace _ _ Hm). pose proof (mkdir_ok _ _ Hm) as Hd.
  destruct (res (mkdir_exist_ok [d] fs)) as [[]|e]; [|done].
  case_bool_decide; [|done]. cbn [app].
  apply touch_trace. by rewrite touch_second.
Qed.

(** The loop is silent unless it stops at a name taken by a regular file. *)
Lemma trace_loop l fs :
  trace (for_each l make_directory fs)
  = if succeeded (res (for_each l make_directory fs)) then []
    else [EvRaise (OSError FileExistsError)].
Proof.
  revert fs; induction l as [|x l IH]; intros fs; [done|].
  rewrite for_each_cons, trace_bind, res_bind.
  destruct (is_file fs [x]) eqn:Hf.
  - by rewrite (make_directory_clash _ _ Hf).
  - pose proof (res_make_directory x fs) as Hr. rewrite Hf in Hr.
    rewrite Hr, (trace_make_directory _ _ Hf). apply IH.
Qed.

Lemma loop_raises_file_exists l fs e :
  res (for_each l make_directory fs) = Raise e → e = OSError FileExistsError.
Proof.
  revert fs; induction l as [|x l IH]; intros fs; [done|].
  rewrite for_each_cons, res_bind, res_make_directory.
  destruct (is_file fs [x]); [congruence|apply IH].
Qed.

Lemma fs_of_loop_app l1 l2 fs :
  fs_of (for_each (l1 ++ l2) make_directory fs)
  = if succeeded (res (for_each l1 make_directory fs))
    then fs_of (for_each l2 make_directory (fs_of (for_each l1 make_directory fs)))
    else fs_of (for_each l1 make_directory fs).
Proof.
  revert fs; induction l1 as [|x l1 IH]; intros fs; [done|].
  change ((x :: l1) ++ l2) with (x :: (l1 ++ l2)).
  rewrite !for_each_cons, !fs_of_bind, res_bind.
  destruct (res (make_directory x fs)) as [[]|e]; [apply IH|done].
Qed.

Lemma res_loop_app l1 l2 fs :
  res (for_each (l1 ++ l2) make_directory fs)
  = match res (for_each l1 make_directory fs) with
    | Ok _ => res (for_each l2 make_directory (fs_of (for_each l1 make_directory fs)))
    | Raise e => Raise e
    end.
Proof.
  revert fs; induction l1 as [|x l1 IH]; intros fs; [done|].
  change ((x :: l1) ++ l2) with (x :: (l1 ++ l2)).
  rewrite !for_each_cons, !res_bind, fs_of_bind.
  destruct (res (make_directory x fs)) as [[]|e]; [apply IH|done].
Qed.

(** The loop stops at the first name taken by a regular file: what comes
    before it in the list has been made, what comes after it has not been
    looked at. *)
Lemma loop_stops before d after fs :
  NoDup (before ++ d :: after) →
  (∀ x, x ∈ before → is_file fs [x] = false) →
  is_file fs [d] = true →
  let out := for_each (before ++ d :: after) make_directory fs in
  res out = Raise (OSError FileExistsError) ∧
  (∀ x, x ∈ before → settled (fs_of out) x) ∧
  (∀ x, x ∈ d :: after → stat (fs_of out) [x] = stat fs [x]).
Proof.
  intros Hnd Hb Hd. cbv zeta.
  apply NoDup_app in Hnd as (_ & Hdisj & _).
  pose proof (proj2 (loop_res before fs) Hb) as Hres.
  set (fs1 := fs_of (for_each before make_directory fs)).
  assert (is_file fs1 [d] = true) as Hd1.
  { subst fs1. rewrite loop_is_file; [done|]. unfold init_files. set_solver. }
  rewrite res_loop_app, fs_of_loop_app, Hres. cbn [succeeded]. fold fs1.
  rewrite for_each_cons, res_bind, fs_of_bind, (make_directory_clash _ _ Hd1).
  cbn [res fs_of fst snd]. split; [done|split].
  - intros x Hx. by apply loop_ok_settled.
  - intros x Hx. subst fs1. apply loop_frame_in; [done|].
    intros d' Hd'. split; [|done]. intros [= ->]. by apply (Hdisj d').
Qed.

End more_loop_lemmas.

(** X7.  [create_project_directories] stops at the first of its five names
    that is taken by a regular file and raises [FileExistsError]: the
    directories listed before it have been made (they are not removed
    again), the names listed from it on are as they were. *)
Theorem create_project_directories_stops
    (self : ProjectInitializer) (fs : FS) (before after : list string) (d : string) :
  directories = before ++ d :: after →
  (∀ x, x ∈ before → is_file fs [x] = false) →
  is_file fs [d] = true →
  let out := create_project_directories self fs in
  res out = Raise (OSError FileExistsError) ∧
  (∀ x, x ∈ before → is_dir (fs_of out) [x] = true) ∧
  (∀ x, x ∈ d :: after → stat (fs_of out) [x] = stat fs [x]).
Proof.
  intros Hl Hb Hd. cbv zeta.
  rewrite fs_of_create_project_directories, res_create_project_directories, Hl.
  destruct (loop_stops before d after fs) as (Hres & Hs & Hf); [|done|done|].
  { rewrite <- Hl. apply NoDup_directories. }
  split; [done|split; [|done]].
  intros x Hx. by destruct (Hs x Hx).
Qed.

Lemma create_project_directories_stops_witness :
  let out := create_project_directories (self_on "Linux") fs_clash in
  res out = Raise (OSError FileExistsError) ∧
  is_dir (fs_of out) ["tests"] = true ∧
  stat (fs_of out) [".claude"] = None.
Proof.
  destruct (create_project_directories_stops (self_on "Linux") fs_clash
              ["src"; "tests"] ["data"; ".claude"] "scripts")
    as (Hres & Hb & Ha).
  - reflexivity.
  - intros x Hx.
    repeat (apply elem_of_cons in Hx as [->|Hx]; [by vm_compute|]).
    by apply elem_of_nil in Hx.
  - by vm_compute.
  - split; [exact Hres|]. split.
    + apply Hb. set_solver.
    + rewrite (Ha ".claude"); [by vm_compute|set_solver].
Defined.

(** X8.  [create_project_directories] only adds: every regular file of the
    project tree keeps its contents and every directory stays a directory,
    whether the step returns or raises.  It runs no external command, and
    the only exception it raises is [FileExistsError]. *)
Theorem create_project_directories_only_adds (self : ProjectInitializer) (fs : FS) :
  let out := create_project_directories self fs in
  (∀ q data, stat fs q = Some (File data) → stat (fs_of out) q = Some (File data)) ∧
  (∀ q, is_dir fs q = true → is_dir (fs_of out) q = true) ∧
  exec_events (trace out) = [] ∧
  (∀ e, res out = Raise e → e = OSError FileExistsError).
Proof.
  cbv zeta. rewrite fs_of_create_project_directories, res_create_project_directories.
  pose proof (loop_extends directories fs) as Hext.
  split; [|split; [|split]].
  - intros q data Hq. specialize (Hext q). unfold path_exists in Hext.
    rewrite Hq in Hext. specialize (Hext eq_refl). cbn in Hext.
    destruct (stat _ q) as [[]|]; by subst.
  - intros q Hq. rewrite (same_kind_is_dir fs _ q); [done|]. apply Hext.
    unfold is_dir in Hq. unfold path_exists. by destruct (stat fs q).
  - unfold create_project_directories. rewrite trace_call, trace_bind.
    cbn [print emit res fs_of trace fst snd]. rewrite trace_bind, trace_loop.
    rewrite res_bind. cbn [print emit res fs_of trace fst snd]. rewrite res_bind.
    by destruct (res (for_each directories make_directory fs)) as [[]|e].
  - apply loop_raises_file_exists.
Qed.

Section more_git_hooks_lemmas.

Variables (rt : Runtime) (self : ProjectInitializer).

Lemma is_Exception_failure_of argv o : is_Exception (failure_of argv o) = true.
Proof. by destruct o. Qed.

Lemma write_pre_commit_config fs :
  path_exists fs [".pre-commit-config.yaml"] = false →
  write_text [".pre-commit-config.yaml"] pre_commit_content fs
  = (Ok tt, <[".pre-commit-config.yaml" := File pre_commit_content]> fs, []).
Proof.
  intros H. rewrite write_text_top. rewrite path_exists_top in H.
  apply bool_decide_eq_false_1 in H.
  destruct (fs !! ".pre-commit-config.yaml") as [n|]; [|done].
  destruct H. eauto.
Qed.

Lemma setup_git_hooks_unfold fs :
  setup_git_hooks rt self fs
  = let o1 := exec rt (hooks_pip_command rt self) fs in
    let fs1 := with_pre_commit_config (tree_after o1 fs) in
    let o2 := exec rt (hooks_install_command rt self) fs1 in
    if negb (exited_ok o1) then
      (Ok tt, tree_after o1 fs,
       [EvCall SetupGitHooks;
        EvPrint "🪝 Setting up git hooks...";
        EvExec (hooks_pip_command rt self);
        EvRaise (failure_of (hooks_pip_command rt self) o1);
        hooks_warning rt (failure_of (hooks_pip_command rt self) o1);
        EvReturn SetupGitHooks])
    else if exited_ok o2 then
      (Ok tt, tree_after o2 fs1,
       [EvCall SetupGitHooks;
        EvPrint "🪝 Setting up git hooks...";
        EvExec (hooks_pip_command rt self);
        EvExec (hooks_install_command rt self);
        EvPrint "✅ Git hooks installed";
        EvReturn SetupGitHooks])
    else
      (Ok tt, tree_after o2 fs1,
       [EvCall SetupGitHooks;
        EvPrint "🪝 Setting up git hooks...";
        EvExec (hooks_pip_command rt self);
        EvExec (hooks_install_command rt self);
        EvRaise (failure_of (hooks_install_command rt self) o2);
        hooks_warning rt (failure_of (hooks_install_command rt self) o2);
        EvReturn SetupGitHooks]).
Proof.
  unfold setup_git_hooks. rewrite call_unfold. cbv zeta.
  fold (hooks_pip_command rt self) (hooks_install_command rt self).
  set (o1 := exec rt (hooks_pip_command rt self) fs).
  set (fs0 := tree_after o1 fs).
  set (fs1 := with_pre_commit_config fs0).
  set (o2 := exec rt (hooks_install_command rt self) fs1).
  pose proof (subprocess_run_check_outcome rt (hooks_pip_command rt self) fs) as H1.
  pose proof (subprocess_run_check_outcome rt (hooks_install_command rt self) fs1) as H2.
  cbv zeta in H1, H2. fold o1 in H1. fold fs0 in H1. fold o2 in H2.
  set (sub1 := subprocess_run_check rt (hooks_pip_command rt self)) in *.
  set (sub2 := subprocess_run_check rt (hooks_install_command rt self)) in *.
  set (wr := write_text [".pre-commit-config.yaml"] pre_commit_content).
  assert (∀ e, is_Exception (failure_of e o1) = true) as He1
    by (intros; apply is_Exception_failure_of).
  assert (∀ e, is_Exception (failure_of e o2) = true) as He2
    by (intros; apply is_Exception_failure_of).
  unfold bind, try_except, print, emit, exists_, hooks_warning. rewrite H1.
  destruct (exited_ok o1); cbn [negb].
  2: { by rewrite He1. }
  assert ((if negb (path_exists fs0 [".pre-commit-config.yaml"])
           then wr else ret tt) fs0 = (Ok tt, fs1, [])) as ->.
  { subst fs1 wr. unfold with_pre_commit_config.
    destruct (path_exists fs0 [".pre-commit-config.yaml"]) eqn:E; cbn [negb]; [done|].
    by apply write_pre_commit_config. }
  rewrite H2. destruct (exited_ok o2); [done|]. by rewrite He2.
Qed.

End more_git_hooks_lemmas.

(** X9.  When [pip install pre-commit] does not succeed, [setup_git_hooks]
    gives up quietly: it returns normally after a warning, it has not run
    [pre-commit install], and it has written no configuration, the tree is
    the one the failed command left. *)
Theorem setup_git_hooks_pip_failure
    (rt : Runtime) (self : ProjectInitializer) (fs : FS) :
  let o1 := exec rt (hooks_pip_command rt self) fs in
  exited_ok o1 = false →
  let out := setup_git_hooks rt self fs in
  res out = Ok tt ∧
  fs_of out = tree_after o1 fs ∧
  exec_events (trace out) = [EvExec (hooks_pip_command rt self)] ∧
  hooks_warning rt (failure_of (hooks_pip_command rt self) o1) ∈ trace out.
Proof.
  intros o1 H out. subst o1 out. rewrite setup_git_hooks_unfold. cbv zeta.
  rewrite H. cbn [negb res fs_of trace fst snd]. split; [done|split; [done|split; [done|]]].
  unfold hooks_warning. set_solver.
Qed.

Lemma setup_git_hooks_pip_failure_witness :
  let rt := rt_sample fails_pre_commit in
  let out := setup_git_hooks rt (new_ProjectInitializer rt) fs_sample in
  res out = Ok tt ∧ fs_of out = fs_sample.
Proof.
  intros rt out.
  destruct (setup_git_hooks_pip_failure rt (new_ProjectInitializer rt) fs_sample)
    as (Hres & Hfs & _); [by vm_compute|].
  split; [exact Hres|exact Hfs].
Defined.

(** X10.  When [pip install pre-commit] succeeds, [setup_git_hooks] runs
    [pre-commit install] next, in a tree that holds a configuration: the
    one that was there, or the built-in one, written before the command
    runs.  The step returns normally whatever that command does, and the
    tree afterwards is the one it left: a configuration that was written
    is not taken back when the installation fails. *)
Theorem setup_git_hooks_installs
    (rt : Runtime) (self : ProjectInitializer) (fs : FS) :
  let o1 := exec rt (hooks_pip_command rt self) fs in
  exited_ok o1 = true →
  let fs1 := with_pre_commit_config (tree_after o1 fs) in
  let o2 := exec rt (hooks_install_command rt self) fs1 in
  let out := setup_git_hooks rt self fs in
  res out = Ok tt ∧
  fs_of out = tree_after o2 fs1 ∧
  exec_events (trace out)
  = [EvExec (hooks_pip_command rt self); EvExec (hooks_install_command rt self)] ∧
  stat fs1 [".pre-commit-config.yaml"]
  = Some (default (File pre_commit_content)
            (stat (tree_after o1 fs) [".pre-commit-config.yaml"])).
Proof.
  intros o1 H fs1 o2 out. subst out. rewrite setup_git_hooks_unfold. cbv zeta.
  fold o1. rewrite H. fold fs1. fold o2. cbn [negb].
  split; [by destruct (exited_ok o2)|split; [by destruct (exited_ok o2)|split]].
  - by destruct (exited_ok o2).
  - subst fs1. unfold with_pre_commit_config, path_exists.
    destruct (stat (tree_after o1 fs) [".pre-commit-config.yaml"]) as [n|] eqn:E.
    + by rewrite E.
    + by rewrite stat_top, lookup_insert_eq.
Qed.

Lemma setup_git_hooks_installs_witness :
  let rt := rt_sample never in
  let out := setup_git_hooks rt (new_ProjectInitializer rt) fs_sample in
  res out = Ok tt ∧
  stat (fs_of out) [".pre-commit-config.yaml"] = Some (File pre_commit_content).
Proof.
  intros rt out.
  destruct (setup_git_hooks_installs rt (new_ProjectInitializer rt) fs_sample)
    as (Hres & Hfs & _); [by vm_compute|].
  split; [exact Hres|]. subst out. rewrite Hfs. by vm_compute.
Defined.

Section more_frame_lemmas.

Variables (rt : Runtime) (self : ProjectInitializer).

Lemma stat_insert_other (fs : FS) c x c' q :
  c ≠ c' → stat (<[c := x]> fs) (c' :: q) = stat fs (c' :: q).
Proof. intros Hc. unfold stat. cbn [lookup_node]. by rewrite lookup_insert_ne. Qed.

Lemma stat_with_pre_commit_config fs c q :
  c ≠ ".pre-commit-config.yaml" →
  stat (with_pre_commit_config fs) (c :: q) = stat fs (c :: q).
Proof.
  intros Hc. unfold with_pre_commit_config.
  destruct (path_exists fs _); [done|]. by apply stat_insert_other.
Qed.

Lemma stat_tree_after cmds p argv fs :
  external_tools_keep rt cmds p → argv ∈ cmds →
  stat (tree_after (exec rt argv fs) fs) p = stat fs p.
Proof.
  intros Hkeep Hin. destruct (exec rt argv fs) as [rc fs'|k] eqn:E; [|done].
  by apply (Hkeep argv fs rc fs').
Qed.

Lemma git_hooks_commands_eq :
  git_hooks_commands rt self = [hooks_pip_command rt self; hooks_install_command rt self].
Proof. done. Qed.

(** What [setup_git_hooks] writes itself is the configuration file only. *)
Lemma setup_git_hooks_frame fs c q :
  c ≠ ".pre-commit-config.yaml" →
  external_tools_keep rt (git_hooks_commands rt self) (c :: q) →
  stat (fs_of (setup_git_hooks rt self fs)) (c :: q) = stat fs (c :: q).
Proof.
  intros Hc Hkeep. rewrite setup_git_hooks_unfold. cbv zeta.
  assert (stat (tree_after (exec rt (hooks_pip_command rt self) fs) fs) (c :: q)
          = stat fs (c :: q)) as H1.
  { apply (stat_tree_after _ _ _ _ Hkeep). rewrite git_hooks_commands_eq. by left. }
  destruct (exited_ok (exec rt (hooks_pip_command rt self) fs)); cbn [negb]; [|done].
  set (fs1 := with_pre_commit_config _).
  assert (stat (tree_after (exec rt (hooks_install_command rt self) fs1) fs1) (c :: q)
          = stat fs (c :: q)) as H2.
  { rewrite (stat_tree_after _ _ _ _ Hkeep).
    - subst fs1. by rewrite stat_with_pre_commit_config.
    - rewrite git_hooks_commands_eq. by right; left. }
  by destruct (exited_ok _).
Qed.

Lemma exec_sample_keeps_below fails cmds c q :
  c ≠ ".venv" → external_tools_keep (rt_sample fails) cmds (c :: q).
Proof.
  intros Hc argv fs rc fs' _ E. cbn [exec rt_sample] in E. unfold exec_sample in E.
  destruct (is_venv_command argv); simplify_eq; [|done].
  by apply stat_insert_other.
Qed.

End more_frame_lemmas.

(** X11.  [setup_git_hooks] writes nothing but [.pre-commit-config.yaml]:
    a location below another name of the project root that the two
    external commands of the step leave alone is afterwards as it was. *)
Theorem setup_git_hooks_footprint
    (rt : Runtime) (self : ProjectInitializer) (fs : FS) (c : string) (q : path) :
  c ≠ ".pre-commit-config.yaml" →
  external_tools_keep rt (git_hooks_commands rt self) (c :: q) →
  stat (fs_of (setup_git_hooks rt self fs)) (c :: q) = stat fs (c :: q).
Proof. apply setup_git_hooks_frame. Qed.

Lemma setup_git_hooks_footprint_witness :
  let rt := rt_sample never in
  stat (fs_of (setup_git_hooks rt (new_ProjectInitializer rt) fs_sample))
    [".env.example"]
  = Some (File "API_KEY=your_key_here").
Proof.
  intros rt.
  rewrite (setup_git_hooks_footprint rt (new_ProjectInitializer rt) fs_sample
             ".env.example" []); [by vm_compute|done|].
  by apply exec_sample_keeps_below.
Defined.

Section more_claude_config_lemmas.

Variable self : ProjectInitializer.

Lemma create_claude_config_missing_unfold fs :
  path_exists fs [".claude"; "CLAUDE.md"] = false →
  create_claude_config self fs
  = match fs !! ".claude" with
    | Some (Dir m) =>
        (Ok tt, <[".claude" := Dir (<["CLAUDE.md" := File claude_content]> m)]> fs,
         [EvCall CreateClaudeConfig;
          EvPrint "🤖 Setting up Claude configuration...";
          EvPrint "✅ Claude configuration created";
          EvReturn CreateClaudeConfig])
    | Some (File _) =>
        (Raise (OSError NotADirectoryError), fs,
         [EvCall CreateClaudeConfig;
          EvPrint "🤖 Setting up Claude configuration...";
          EvRaise (OSError NotADirectoryError)])
    | None =>
        (Raise (OSError FileNotFoundError), fs,
         [EvCall CreateClaudeConfig;
          EvPrint "🤖 Setting up Claude configuration...";
          EvRaise (OSError FileNotFoundError)])
    end.
Proof.
  intros H. unfold create_claude_config. rewrite call_unfold. cbv zeta. cbn [app].
  pose proof (write_text_second ".claude" "CLAUDE.md" claude_content fs) as Hw.
  set (wr := write_text [".claude"; "CLAUDE.md"] claude_content) in *.
  unfold bind, print, emit, exists_. rewrite H. cbn [negb]. rewrite Hw.
  destruct (fs !! ".claude") as [[d|m]|] eqn:Ec; [done| |done].
  destruct (m !! "CLAUDE.md") as [n|] eqn:Em; [|done].
  exfalso. unfold path_exists, stat in H. simpl in H. by rewrite Ec, Em in H.
Qed.

(** After it, the configuration exists whenever the step returned. *)
Lemma create_claude_config_ok fs :
  is_dir fs [".claude"] = true →
  res (create_claude_config self fs) = Ok tt ∧
  path_exists (fs_of (create_claude_config self fs)) [".claude"; "CLAUDE.md"] = true.
Proof.
  intros Hd. destruct (path_exists fs [".claude"; "CLAUDE.md"]) eqn:Ex.
  { by rewrite (create_claude_config_exists self fs Ex). }
  rewrite (create_claude_config_missing_unfold fs Ex).
  unfold is_dir in Hd. rewrite stat_top in Hd.
  destruct (fs !! ".claude") as [[d|m]|]; try done.
  cbn [res fs_of fst snd]. split; [done|].
  unfold path_exists, stat. simpl. by rewrite !lookup_insert_eq.
Qed.

End more_claude_config_lemmas.

(** X12.  When [.claude/CLAUDE.md] does not exist, [create_claude_config]
    needs the directory [.claude]: if it is there, the file is created
    with the built-in text, and the other entries of [.claude] and of the
    project root are as they were; if [.claude] is missing the step raises
    [FileNotFoundError], if it is a regular file [NotADirectoryError], and
    the project tree is left as it was.  No external command is run. *)
Theorem create_claude_config_creates (self : ProjectInitializer) (fs : FS) :
  path_exists fs [".claude"; "CLAUDE.md"] = false →
  let out := create_claude_config self fs in
  exec_events (trace out) = [] ∧
  (is_dir fs [".claude"] = true →
   res out = Ok tt ∧
   stat (fs_of out) [".claude"; "CLAUDE.md"] = Some (File claude_content) ∧
   (∀ c, c ≠ "CLAUDE.md" → stat (fs_of out) [".claude"; c] = stat fs [".claude"; c]) ∧
   (∀ c, c ≠ ".claude" → fs_of out !! c = fs !! c)) ∧
  (is_dir fs [".claude"] = false →
   res out = Raise (OSError (if is_file fs [".claude"]
                             then NotADirectoryError else FileNotFoundError)) ∧
   fs_of out = fs).
Proof.
  intros Hex out. subst out. rewrite (create_claude_config_missing_unfold self fs Hex).
  unfold is_dir, is_file. rewrite stat_top.
  destruct (fs !! ".claude") as [[d|m]|] eqn:Ec; cbn [res fs_of trace fst snd];
    (split; [done|split; [|done]]); try done.
  intros _. split; [done|split; [|split]].
  - unfold stat. simpl. by rewrite !lookup_insert_eq.
  - intros c Hc. unfold stat. simpl. rewrite lookup_insert_eq, Ec.
    by rewrite lookup_insert_ne.
  - intros c Hc. by rewrite lookup_insert_ne.
Qed.

Lemma create_claude_config_creates_witness :
  let out := create_claude_config (self_on "Linux") fs_partial in
  res out = Raise (OSError FileNotFoundError) ∧ fs_of out = fs_partial.
Proof.
  destruct (create_claude_config_creates (self_on "Linux") fs_partial)
    as (_ & _ & Hmissing); [by vm_compute|].
  destruct Hmissing as [Hres Hfs]; [by vm_compute|].
  split; [rewrite Hres; by vm_compute|exact Hfs].
Defined.

(** X13.  In the sequence [create_project_directories], [setup_git_hooks],
    [create_claude_config], the last step cannot fail once the first has
    returned, provided the two external commands of [setup_git_hooks] leave
    [.claude] alone: the directory it needs has been made, and afterwards
    [.claude/CLAUDE.md] exists. *)
Theorem create_claude_config_after_directories
    (rt : Runtime) (self : ProjectInitializer) (fs : FS) :
  external_tools_keep rt (git_hooks_commands rt self) [".claude"] →
  res (create_project_directories self fs) = Ok tt →
  let out := directories_to_claude_config rt self fs in
  res out = Ok tt ∧
  path_exists (fs_of out) [".claude"; "CLAUDE.md"] = true.
Proof.
  intros Hkeep Hres out. subst out. unfold directories_to_claude_config.
  rewrite res_bind, fs_of_bind, Hres, res_bind, fs_of_bind.
  rewrite setup_git_hooks_returns.
  set (fs1 := fs_of (create_project_directories self fs)).
  set (fs2 := fs_of (setup_git_hooks rt self fs1)).
  apply create_claude_config_ok.
  assert (is_dir fs1 [".claude"] = true) as Hd.
  { subst fs1. rewrite fs_of_create_project_directories.
    rewrite res_create_project_directories in Hres.
    destruct (loop_ok_settled directories fs ".claude" Hres) as [Hd _]; [|done].
    unfold directories. set_solver. }
  unfold is_dir in *. subst fs2.
  by rewrite (setup_git_hooks_frame rt self fs1 ".claude" []).
Qed.

Lemma create_claude_config_after_directories_witness :
  let rt := rt_sample never in
  let out := directories_to_claude_config rt (new_ProjectInitializer rt) fs_sample in
  res out = Ok tt ∧
  stat (fs_of out) [".claude"; "CLAUDE.md"] = Some (File claude_content).
Proof.
  intros rt out.
  destruct (create_claude_config_after_directories rt (new_ProjectInitializer rt) fs_sample)
    as [Hres _].
  - by apply exec_sample_keeps_below.
  - by vm_compute.
  - split; [exact Hres|by vm_compute].
Defined.

Section more_run_lemmas.

Variables (rt : Runtime) (self : ProjectInitializer).

Lemma fs_of_run fs : fs_of (run rt self fs) = fs_of (run_steps rt self fs).
Proof.
  unfold run. rewrite fs_of_bind. cbn [print emit res fs_of fst snd].
  rewrite fs_of_try_except.
  destruct (res (run_steps rt self fs)) as [[]|e] eqn:E; [done|].
  rewrite (no_exit_run_steps _ _ _ _ E).
  by destruct (is_CalledProcessError e).
Qed.

Lemma run_raise_message fs e :
  res (run_steps rt self fs) = Raise e →
  trace (run rt self fs)
  = EvPrint banner :: trace (run_steps rt self fs)
    ++ [EvPrint (failure_message rt e); EvRaise (SystemExit 1)].
Proof.
  intros E. pose proof (no_exit_run_steps _ _ _ _ E) as He. unfold run.
  rewrite trace_bind. cbn [print emit res fs_of trace fst snd].
  fold (@res unit) (@fs_of unit) (@trace unit).
  rewrite trace_try_except, E, He. unfold failure_message.
  by destruct (is_CalledProcessError e).
Qed.

Lemma loop_settled_fixed l fs :
  (∀ d, d ∈ l → settled fs d) → for_each l make_directory fs = (Ok tt, fs, []).
Proof.
  induction l as [|x l IH]; intros Hs; [done|].
  rewrite for_each_cons. unfold bind.
  rewrite (make_directory_settled x fs) by (apply Hs; by left).
  rewrite IH; [done|]. intros d Hd. apply Hs. by right.
Qed.

Lemma create_project_directories_settled fs :
  (∀ d, d ∈ directories → settled fs d) →
  create_project_directories self fs
  = (Ok tt, fs,
     [EvCall CreateProjectDirectories;
      EvPrint "📁 Creating project directories...";
      EvPrint "✅ Project directories created";
      EvReturn CreateProjectDirectories]).
Proof.
  intros Hs. unfold create_project_directories. rewrite call_unfold.
  unfold bind, print, emit. by rewrite (loop_settled_fixed _ _ Hs).
Qed.

Lemma print_next_steps_unfold fs :
  ∃ hint,
    print_next_steps self fs
    = (Ok tt, fs,
       [EvCall PrintNextSteps;
        EvPrint (nl +:+ "🎉 Project initialization complete!");
        EvPrint (nl +:+ "📋 Next steps:");
        EvPrint "1. Update .env file with your API keys";
        EvPrint hint;
        EvPrint "3. Run tests: pytest";
        EvPrint "4. Start developing! 🚀";
        EvReturn PrintNextSteps]) ∧
    ∃ pre dirsep post,
      hint = pre +:+ venv_name self +:+ dirsep +:+ scripts_dir self +:+ post.
Proof.
  unfold print_next_steps, scripts_dir. rewrite call_unfold.
  case_bool_decide; eexists; (split; [reflexivity|]).
  - exists "2. Activate virtual environment: .\", "\", "\activate". done.
  - exists "2. Activate virtual environment: source ", "/", "/activate". done.
Qed.

End more_run_lemmas.

(** X14.  When an exception leaves a setup step, [run] reports it and
    leaves the project tree as the failing step left it: nothing that the
    earlier steps did is undone.  The report is the last thing printed; it
    reads "Error during initialization" for a failed external command
    ([CalledProcessError]) and "Unexpected error" for anything else, and
    ends in the text of the exception. *)
Theorem run_failure_report
    (rt : Runtime) (self : ProjectInitializer) (fs : FS) (e : exn) :
  res (run_steps rt self fs) = Raise e →
  fs_of (run rt self fs) = fs_of (run_steps rt self fs) ∧
  trace (run rt self fs)
  = EvPrint banner :: trace (run_steps rt self fs)
    ++ [EvPrint (failure_message rt e); EvRaise (SystemExit 1)].
Proof.
  intros E. split; [apply fs_of_run|by apply run_raise_message].
Qed.

Lemma run_failure_report_witness :
  let rt := rt_sample never in
  let out := run rt (new_ProjectInitializer rt) fs_clash in
  is_dir (fs_of out) [".venv"] = true ∧
  is_dir (fs_of out) ["tests"] = true ∧
  EvPrint (failure_message rt (OSError FileExistsError)) ∈ trace out.
Proof.
  intros rt out.
  destruct (run_failure_report rt (new_ProjectInitializer rt) fs_clash
              (OSError FileExistsError))
    as [Hfs Htr]; [by vm_compute|].
  subst out. rewrite Hfs, Htr. split; [by vm_compute|]. split; [by vm_compute|].
  apply elem_of_cons. right. apply elem_of_app. right. by left.
Defined.

(** X15.  Once [parse_args] has returned the two flags, the exit status
    of [main] is 0 or 1: with one of the two flags it is 0 although nothing
    has been set up; without them it is 0 when every setup step returned
    and 1 when one of them raised.  (An unrecognised argument makes
    argparse exit with status 2 before that point.) *)
Theorem main_exit_status (rt : Runtime) (skip_venv skip_deps : bool) (fs : FS) :
  exit_status (res (main rt skip_venv skip_deps fs))
  = if negb skip_venv && negb skip_deps
    then (if succeeded (res (run_steps rt (new_ProjectInitializer rt) fs))
          then 0 else 1)%Z
    else 0%Z.
Proof.
  destruct skip_venv, skip_deps; try done. unfold main. cbn [negb andb].
  destruct (res (run_steps rt (new_ProjectInitializer rt) fs)) as [[]|e] eqn:E.
  - by destruct (run_ok _ _ _ E) as [-> _].
  - by destruct (run_raise _ _ _ _ E) as (-> & _).
Qed.

(** X16.  On a project that is set up already (the virtual environment,
    [.env], the five directories with the two [__init__.py], the
    pre-commit configuration and [.claude/CLAUDE.md] exist), and with
    external commands that succeed without changing the tree, [run]
    returns normally and leaves the project tree exactly as it was. *)
Theorem run_on_initialized_project
    (rt : Runtime) (self : ProjectInitializer) (fs : FS) :
  (∀ argv, exec rt argv fs = Exited 0 fs) →
  path_exists fs [venv_name self] = true →
  path_exists fs [".env"] = true →
  (∀ d, d ∈ directories → settled fs d) →
  path_exists fs [".pre-commit-config.yaml"] = true →
  path_exists fs [".claude"; "CLAUDE.md"] = true →
  res (run rt self fs) = Ok tt ∧ fs_of (run rt self fs) = fs.
Proof.
  intros Htools Hvenv Henv Hdirs Hcfg Hclaude.
  pose proof (create_virtual_environment_exists rt self fs Hvenv) as E1.
  assert (res (install_dependencies rt self fs) = Ok tt ∧
          fs_of (install_dependencies rt self fs) = fs) as [R2 F2].
  { rewrite install_dependencies_unfold. cbv zeta. rewrite !Htools.
    cbn [exited_ok tree_after negb]. rewrite bool_decide_eq_true_2 by done.
    cbn [negb]. by destruct (path_exists fs ["requirements.txt"]). }
  pose proof (setup_environment_file_exists self fs Henv) as E3.
  pose proof (create_project_directories_settled self fs Hdirs) as E4.
  assert (fs_of (setup_git_hooks rt self fs) = fs) as F5.
  { rewrite setup_git_hooks_unfold. cbv zeta. rewrite !Htools.
    cbn [exited_ok tree_after negb]. rewrite bool_decide_eq_true_2 by done.
    cbn [negb]. unfold with_pre_commit_config. rewrite Hcfg, Htools.
    cbn [exited_ok tree_after]. by rewrite bool_decide_eq_true_2. }
  pose proof (setup_git_hooks_returns rt self fs) as R5.
  pose proof (create_claude_config_exists self fs Hclaude) as E6.
  destruct (print_next_steps_unfold self fs) as (hint & E7 & _).
  assert (res (run_steps rt self fs) = Ok tt ∧ fs_of (run_steps rt self fs) = fs)
    as [R F].
  { unfold run_steps. rewrite !res_bind, !fs_of_bind.
    rewrite E1. cbn [res fs_of fst snd]. rewrite R2, F2.
    rewrite E3. cbn [res fs_of fst snd]. rewrite E4. cbn [res fs_of fst snd].
    rewrite R5, F5. rewrite E6. cbn [res fs_of fst snd]. by rewrite E7. }
  split.
  - by destruct (run_ok rt self fs R).
  - by rewrite fs_of_run.
Qed.

Lemma exec_exit_idle argv fs : exec (rt_exit 0) argv fs = Exited 0 fs.
Proof. done. Qed.

Lemma run_on_initialized_project_witness :
  fs_of (run (rt_exit 0) (new_ProjectInitializer (rt_exit 0)) fs_initialized)
  = fs_initialized.
Proof.
  destruct (run_on_initialized_project (rt_exit 0) (new_ProjectInitializer (rt_exit 0))
              fs_initialized) as [_ Hfs].
  - intros argv. apply exec_exit_idle.
  - by vm_compute.
  - by vm_compute.
  - intros d Hd. unfold directories in Hd.
    repeat (apply elem_of_cons in Hd as [->|Hd];
            [split; [by vm_compute|];
             intros Hpk;
             repeat (apply elem_of_cons in Hpk as [?|Hpk]; [done || by vm_compute|]);
             by apply elem_of_nil in Hpk|]).
    by apply elem_of_nil in Hd.
  - by vm_compute.
  - by vm_compute.
  - exact Hfs.
Defined.

(** X17.  [print_next_steps] only prints: for every [os_type] it returns
    normally, leaves the project tree as it was, runs no external command
    and calls [print] exactly six times.  The text of the fourth call, the
    activation hint, names the virtual environment and in it the directory
    in which [get_pip_command] looks for pip: [Scripts] for "Windows",
    [bin] otherwise. *)
Theorem print_next_steps_only_prints (self : ProjectInitializer) (fs : FS) :
  let out := print_next_steps self fs in
  res out = Ok tt ∧ fs_of out = fs ∧
  ∃ texts, length texts = 6 ∧
           trace out = EvCall PrintNextSteps :: (EvPrint <$> texts)
                       ++ [EvReturn PrintNextSteps] ∧
           ∃ pre dirsep post,
             texts !! 3
             = Some (pre +:+ venv_name self +:+ dirsep +:+ scripts_dir self +:+ post).
Proof.
  cbv zeta.
  destruct (print_next_steps_unfold self fs) as (hint & -> & pre & dirsep & post & ->).
  split; [done|split; [done|]].
  eexists [_; _; _; _; _; _]. split; [done|split; [done|]].
  by exists pre, dirsep, post.
Qed.

Section more_sequence_lemmas.

Variables (rt : Runtime) (self : ProjectInitializer).

Lemma exec_events_app t1 t2 : exec_events (t1 ++ t2) = exec_events t1 ++ exec_events t2.
Proof. apply List.filter_app. Qed.

Lemma create_claude_config_returns fs :
  res (create_claude_config self fs) = Ok tt →
  path_exists (fs_of (create_claude_config self fs)) [".claude"; "CLAUDE.md"] = true.
Proof.
  destruct (path_exists fs [".claude"; "CLAUDE.md"]) eqn:Ex.
  { by rewrite (create_claude_config_exists self fs Ex). }
  rewrite (create_claude_config_missing_unfold self fs Ex).
  destruct (fs !! ".claude") as [[d|m]|]; try done.
  intros _. cbn [fs_of fst snd]. unfold path_exists, stat. simpl.
  by rewrite !lookup_insert_eq.
Qed.

(** A complete sequence ends with [create_claude_config] returning, and
    [print_next_steps] does not change what it left. *)
Lemma run_steps_ok_inv fs :
  res (run_steps rt self fs) = Ok tt →
  ∃ fs5, res (create_claude_config self fs5) = Ok tt ∧
         fs_of (run_steps rt self fs) = fs_of (create_claude_config self fs5).
Proof.
  unfold run_steps. rewrite !res_bind, !fs_of_bind.
  destruct (res (create_virtual_environment rt self fs)) as [[]|]; [|done].
  destruct (res (install_dependencies rt self _)) as [[]|]; [|done].
  destruct (res (setup_environment_file self _)) as [[]|]; [|done].
  destruct (res (create_project_directories self _)) as [[]|]; [|done].
  destruct (res (setup_git_hooks rt self _)) as [[]|]; [|done].
  match goal with |- context [create_claude_config self ?f] => set (fs5 := f) end.
  destruct (res (create_claude_config self fs5)) as [[]|] eqn:E; [|done].
  intros _. exists fs5. split; [done|].
  by destruct (print_next_steps_unfold self (fs_of (create_claude_config self fs5)))
    as (hint & -> & _).
Qed.

Lemma exec_events_create_virtual_environment fs :
  exec_events (trace (create_virtual_environment rt self fs))
  = if path_exists fs [venv_name self] then [] else [EvExec (venv_command rt self)].
Proof.
  destruct (path_exists fs [venv_name self]) eqn:Ex.
  - by rewrite (create_virtual_environment_exists rt self fs Ex).
  - rewrite (create_virtual_environment_missing_unfold rt self fs Ex). cbv zeta.
    by destruct (exited_ok _).
Qed.

Lemma exec_events_install_dependencies fs :
  exec_events (trace (install_dependencies rt self fs))
  = [EvExec (pip_upgrade rt self)] ∨
  exec_events (trace (install_dependencies rt self fs))
  = [EvExec (pip_upgrade rt self); EvExec (install_requirements rt self)].
Proof.
  rewrite install_dependencies_unfold. cbv zeta.
  destruct (exited_ok (exec rt (pip_upgrade rt self) fs)); cbn [negb]; [|by left].
  destruct (path_exists _ _); cbn [negb]; [|by left].
  destruct (exited_ok _); by right.
Qed.

Lemma exec_events_setup_environment_file fs :
  exec_events (trace (setup_environment_file self fs)) = [].
Proof.
  rewrite setup_environment_file_unfold.
  destruct (path_exists fs [".env"]); [done|].
  by destruct (fs !! ".env.example") as [[]|].
Qed.

Lemma exec_events_create_project_directories fs :
  exec_events (trace (create_project_directories self fs)) = [].
Proof.
  unfold create_project_directories. rewrite trace_call, trace_bind.
  cbn [print emit res fs_of trace fst snd]. rewrite trace_bind, trace_loop.
  rewrite res_bind. cbn [print emit res fs_of trace fst snd]. rewrite res_bind.
  by destruct (res (for_each directories make_directory fs)) as [[]|e].
Qed.

Lemma exec_events_setup_git_hooks fs :
  exec_events (trace (setup_git_hooks rt self fs))
  = [EvExec (hooks_pip_command rt self)] ∨
  exec_events (trace (setup_git_hooks rt self fs))
  = [EvExec (hooks_pip_command rt self); EvExec (hooks_install_command rt self)].
Proof.
  rewrite setup_git_hooks_unfold. cbv zeta.
  destruct (exited_ok (exec rt (hooks_pip_command rt self) fs)); cbn [negb]; [|by left].
  destruct (exited_ok _); by right.
Qed.

Lemma exec_events_create_claude_config fs :
  exec_events (trace (create_claude_config self fs)) = [].
Proof.
  destruct (path_exists fs [".claude"; "CLAUDE.md"]) eqn:Ex.
  - by rewrite (create_claude_config_exists self fs Ex).
  - rewrite (create_claude_config_missing_unfold self fs Ex).
    by destruct (fs !! ".claude") as [[]|].
Qed.

Lemma exec_events_print_next_steps fs :
  exec_events (trace (print_next_steps self fs)) = [].
Proof. by destruct (print_next_steps_unfold self fs) as (hint & -> & _). Qed.

Lemma exec_events_run_steps fs :
  exec_events (trace (run_steps rt self fs)) `sublist_of` run_commands rt self.
Proof.
  unfold run_steps, run_commands. rewrite !trace_bind.
  pose proof (exec_events_create_virtual_environment fs) as H1.
  destruct (res (create_virtual_environment rt self fs)) as [[]|].
  2: { rewrite H1. destruct (path_exists _ _); repeat constructor. }
  set (fs1 := fs_of (create_virtual_environment rt self fs)).
  pose proof (exec_events_install_dependencies fs1) as H2.
  destruct (res (install_dependencies rt self fs1)) as [[]|].
  2: { rewrite exec_events_app, H1.
       destruct (path_exists _ _), H2 as [-> | ->]; repeat constructor. }
  set (fs2 := fs_of (install_dependencies rt self fs1)).
  pose proof (exec_events_setup_environment_file fs2) as H3.
  destruct (res (setup_environment_file self fs2)) as [[]|].
  2: { rewrite !exec_events_app, H1, H3.
       destruct (path_exists _ _), H2 as [-> | ->]; repeat constructor. }
  set (fs3 := fs_of (setup_environment_file self fs2)).
  pose proof (exec_events_create_project_directories fs3) as H4.
  destruct (res (create_project_directories self fs3)) as [[]|].
  2: { rewrite !exec_events_app, H1, H3, H4.
       destruct (path_exists _ _), H2 as [-> | ->]; repeat constructor. }
  set (fs4 := fs_of (create_project_directories self fs3)).
  pose proof (exec_events_setup_git_hooks fs4) as H5.
  destruct (res (setup_git_hooks rt self fs4)) as [[]|].
  2: { rewrite !exec_events_app, H1, H3, H4.
       destruct (path_exists _ _), H2 as [-> | ->], H5 as [-> | ->];
         repeat constructor. }
  set (fs5 := fs_of (setup_git_hooks rt self fs4)).
  pose proof (exec_events_create_claude_config fs5) as H6.
  pose proof (exec_events_print_next_steps (fs_of (create_claude_config self fs5))) as H7.
  destruct (res (create_claude_config self fs5)) as [[]|].
  - rewrite !exec_events_app, H1, H3, H4, H6, H7.
    destruct (path_exists _ _), H2 as [-> | ->], H5 as [-> | ->]; repeat constructor.
  - rewrite !exec_events_app, H1, H3, H4, H6.
    destruct (path_exists _ _), H2 as [-> | ->], H5 as [-> | ->]; repeat constructor.
Qed.

End more_sequence_lemmas.

(** X18.  A run that returns normally has left [.claude/CLAUDE.md] in
    place, whatever the external commands did: the file is made sure of by
    the last step that touches the project tree. *)
Theorem run_ok_claude_config (rt : Runtime) (self : ProjectInitializer) (fs : FS) :
  res (run rt self fs) = Ok tt →
  path_exists (fs_of (run rt self fs)) [".claude"; "CLAUDE.md"] = true.
Proof.
  intros Hrun. rewrite fs_of_run.
  destruct (res (run_steps rt self fs)) as [[]|e] eqn:E.
  - destruct (run_steps_ok_inv rt self fs E) as (fs5 & Hres & ->).
    by apply create_claude_config_returns.
  - destruct (run_raise rt self fs e E) as (Hr & _). congruence.
Qed.

Lemma run_ok_claude_config_witness :
  let rt := rt_sample fails_pre_commit in
  path_exists (fs_of (run rt (new_ProjectInitializer rt) fs_sample))
    [".claude"; "CLAUDE.md"] = true.
Proof.
  intros rt.
  apply (run_ok_claude_config rt (new_ProjectInitializer rt) fs_sample).
  by vm_compute.
Defined.

(** X19.  Whatever happens, the external commands that [run] executes are
    taken, in this order and each at most once, from: the venv command,
    the pip upgrade, the installation of the requirements,
    [pip install pre-commit], [pre-commit install].  In particular pip is
    never run before the virtual environment has been dealt with, and no
    other command is ever run. *)
Theorem run_commands_in_order (rt : Runtime) (self : ProjectInitializer) (fs : FS) :
  exec_events (trace (run rt self fs)) `sublist_of` run_commands rt self.
Proof.
  pose proof (exec_events_run_steps rt self fs) as Hs.
  destruct (res (run_steps rt self fs)) as [[]|e] eqn:E.
  - by destruct (run_ok rt self fs E) as [_ ->].
  - rewrite (run_raise_message rt self fs e E).
    change (EvPrint banner :: ?t) with ([EvPrint banner] ++ t).
    rewrite !exec_events_app. cbn. by rewrite app_nil_r.
Qed.

(** * The sequence of steps, step by step *)

Section in_sequence_lemmas.

Implicit Types (steps : list (M unit)) (k : M unit) (fs : FS).

Lemma last_result_cons out outs :
  res out = Ok tt → last_result (out :: outs) = last_result outs.
Proof.
  intros Hout. unfold last_result. rewrite last_cons.
  destruct (last outs) as [o|]; [done|]. by rewrite <- Hout.
Qed.

Lemma last_tree_cons fs out outs :
  last_tree fs (out :: outs) = last_tree (fs_of out) outs.
Proof. unfold last_tree. rewrite last_cons. by destruct (last outs). Qed.

(** A chain of binds does what [in_sequence] says, and then goes on with
    its continuation if the last step returned. *)
Lemma chain_in_sequence steps k fs :
  let outs := in_sequence steps fs in
  let r := last_result outs in
  let fs' := last_tree fs outs in
  (succeeded r = true → length outs = length steps) ∧
  res (chain steps k fs) = (if succeeded r then res (k fs') else r) ∧
  fs_of (chain steps k fs) = (if succeeded r then fs_of (k fs') else fs') ∧
  trace (chain steps k fs)
  = concat (trace <$> outs) ++ (if succeeded r then trace (k fs') else []).
Proof.
  revert fs; induction steps as [|s steps IH]; intros fs; [done|].
  cbn [in_sequence chain foldr]. fold (chain steps k). cbv zeta.
  rewrite res_bind, fs_of_bind, trace_bind.
  destruct (res (s fs)) as [[]|e] eqn:Es; cbn [succeeded].
  - rewrite (last_result_cons _ _ Es), last_tree_cons.
    destruct (IH (fs_of (s fs))) as (Hlen & Hres & Hfs & Htr). cbv zeta in *.
    split; [|split; [|split]].
    + intros Hr. cbn [length]. by rewrite (Hlen Hr).
    + done.
    + done.
    + rewrite Htr. cbn [fmap list_fmap concat]. by rewrite app_assoc.
  - unfold last_result, last_tree. cbn. rewrite Es. cbn.
    by rewrite !app_nil_r.
Qed.

Lemma in_sequence_lookup steps fs i out :
  in_sequence steps fs !! i = Some out →
  ∃ s fs_i, steps !! i = Some s ∧ out = s fs_i.
Proof.
  revert fs i; induction steps as [|s steps IH]; intros fs i; [done|].
  cbn [in_sequence]. destruct i as [|i]; cbn.
  - intros [= <-]. eauto.
  - destruct (succeeded (res (s fs))); [apply IH|done].
Qed.

Lemma in_sequence_length steps fs : length (in_sequence steps fs) ≤ length steps.
Proof.
  revert fs; induction steps as [|s steps IH]; intros fs; [done|].
  cbn [in_sequence length]. destruct (succeeded (res (s fs))).
  - specialize (IH (fs_of (s fs))). lia.
  - cbn. lia.
Qed.

(** The events between the call and the return of a step are its own. *)
Lemma step_of_trace m s fs :
  step_of m s →
  ∃ t, trace (s fs)
       = EvCall m :: t ++ (if succeeded (res (s fs)) then [EvReturn m] else []) ∧
       step_events t = [].
Proof.
  intros (body & Hq & ->). exists (trace (body fs)).
  by rewrite trace_call, res_call.
Qed.

End in_sequence_lemmas.

Section run_in_sequence_lemmas.

Variables (rt : Runtime) (self : ProjectInitializer).

Lemma run_steps_chain fs :
  run_steps rt self fs = chain (setup_step_list rt self) (print_next_steps self) fs.
Proof. done. Qed.

Lemma setup_step_list_step_of i m s :
  setup_steps !! i = Some m → setup_step_list rt self !! i = Some s → step_of m s.
Proof.
  unfold setup_steps, setup_step_list.
  destruct i as [|[|[|[|[|[|i]]]]]]; cbn; intros [= <-] [= <-];
    auto using step_create_virtual_environment, step_install_dependencies,
      step_setup_environment_file, step_create_project_directories,
      step_setup_git_hooks, step_create_claude_config.
Qed.

(** The calls and returns of a run: all of them, or those up to the call
    of a step that raised, which is not [setup_git_hooks]. *)
Lemma run_step_events fs :
  (res (run rt self fs) = Ok tt ∧
   step_events (trace (run rt self fs))
   = completed (setup_steps ++ [PrintNextSteps])) ∨
  (∃ before m after,
     res (run rt self fs) = Raise (SystemExit 1) ∧
     setup_steps = before ++ m :: after ∧ m ≠ SetupGitHooks ∧
     step_events (trace (run rt self fs)) = completed before ++ [EvCall m]).
Proof.
  destruct (run_steps_order rt self fs)
    as [[E Ht]|(e & before & m & after & E & Hs & Hm & Ht)].
  - left. destruct (run_ok rt self fs E) as [-> ->]. by split.
  - right. exists before, m, after.
    destruct (run_raise rt self fs e E) as (-> & _ & msg & ->).
    split; [done|split; [done|split; [done|]]].
    change (EvPrint banner :: ?t) with ([EvPrint banner] ++ t).
    rewrite !step_events_app, Ht. cbn. by rewrite app_nil_r.
Qed.

End run_in_sequence_lemmas.

(** C5.  [run] executes the six setup steps one after the other in the
    fixed order: what it does is, after the banner, what
    [create_virtual_environment], [install_dependencies],
    [setup_environment_file], [create_project_directories],
    [setup_git_hooks] and [create_claude_config] do, each one run in the
    project tree that the previous one left and only after the previous
    one has returned.  The run is complete, with all six steps executed
    and [print_next_steps] after them, exactly when each of them returns;
    a step that raises is the last one executed, and the run ends with the
    report of its exception.  The events between the call and the return
    of a step are those of that step, so that the calls and returns of a
    run are those of the six steps in order, or a part of them that ends
    with the call of the step that raised. *)
Theorem run_steps_in_order (rt : Runtime) (self : ProjectInitializer) (fs : FS) :
  let outs := in_sequence [create_virtual_environment rt self;
                           install_dependencies rt self;
                           setup_environment_file self;
                           create_project_directories self;
                           setup_git_hooks rt self;
                           create_claude_config self] fs in
  let r := last_result outs in
  let fs' := last_tree fs outs in
  (1 ≤ length outs ≤ 6 ∧ (succeeded r = true → length outs = 6)) ∧
  res (run rt self fs) = (if succeeded r then Ok tt else Raise (SystemExit 1)) ∧
  fs_of (run rt self fs) = fs' ∧
  trace (run rt self fs)
  = EvPrint banner :: concat (trace <$> outs)
    ++ match r with
       | Ok _ => trace (print_next_steps self fs')
       | Raise e => [EvPrint (failure_message rt e); EvRaise (SystemExit 1)]
       end ∧
  (∀ i m out,
     setup_steps !! i = Some m → outs !! i = Some out →
     ∃ t, trace out
          = EvCall m :: t ++ (if succeeded (res out) then [EvReturn m] else []) ∧
          step_events t = []) ∧
  ((res (run rt self fs) = Ok tt ∧
    step_events (trace (run rt self fs))
    = completed (setup_steps ++ [PrintNextSteps])) ∨
   (∃ before m after,
      res (run rt self fs) = Raise (SystemExit 1) ∧
      setup_steps = before ++ m :: after ∧
      step_events (trace (run rt self fs)) = completed before ++ [EvCall m])).
Proof.
  cbv zeta. fold (setup_step_list rt self).
  destruct (chain_in_sequence (setup_step_list rt self) (print_next_steps self) fs)
    as (Hlen & Hres & Hfs & Htr). cbv zeta in *.
  rewrite <- run_steps_chain in Hres, Hfs, Htr.
  set (outs := in_sequence (setup_step_list rt self) fs) in *.
  set (r := last_result outs) in *. set (fs' := last_tree fs outs) in *.
  split; [|split; [|split; [|split; [|split]]]].
  - split; [|exact Hlen]. split.
    + subst outs. cbn [setup_step_list in_sequence length]. lia.
    + apply (in_sequence_length (setup_step_list rt self) fs).
  - destruct r as [[]|e] eqn:Er; cbn [succeeded] in *.
    + rewrite print_next_steps_ok in Hres. by destruct (run_ok rt self fs Hres).
    + by destruct (run_raise rt self fs e Hres) as (-> & _).
  - rewrite fs_of_run, Hfs. destruct r as [[]|e]; cbn [succeeded]; [|done].
    by destruct (print_next_steps_unfold self fs') as (hint & -> & _).
  - destruct r as [[]|e] eqn:Er; cbn [succeeded] in *.
    + rewrite print_next_steps_ok in Hres.
      destruct (run_ok rt self fs Hres) as [_ ->]. by rewrite Htr.
    + rewrite (run_raise_message rt self fs e Hres), Htr.
      by rewrite app_nil_r.
  - intros i m out Hm Hout.
    destruct (in_sequence_lookup _ _ _ _ Hout) as (s & fs_i & Hs & ->).
    apply step_of_trace. by eapply setup_step_list_step_of.
  - destruct (run_step_events rt self fs)
      as [?|(before & m & after & ? & ? & _ & ?)]; [by left|right].
    by exists before, m, after.
Qed.

(** On the sample project, with external commands that succeed, the six
    steps are all run and [run] returns. *)
Example run_sample_six_steps :
  let rt := rt_sample never in
  let self := new_ProjectInitializer rt in
  length (in_sequence (setup_step_list rt self) fs_sample) = 6 ∧
  res (run rt self fs_sample) = Ok tt.
Proof. by vm_compute. Qed.

Section fatal_lemmas.

Variables (rt : Runtime) (self : ProjectInitializer).

(** Whatever is raised inside [setup_git_hooks] is answered by the
    warning that carries its text. *)
Lemma setup_git_hooks_warns fs e :
  EvRaise e ∈ trace (setup_git_hooks rt self fs) →
  hooks_warning rt e ∈ trace (setup_git_hooks rt self fs).
Proof.
  rewrite setup_git_hooks_unfold. cbv zeta. unfold hooks_warning.
  destruct (exited_ok (exec rt (hooks_pip_command rt self) fs)); cbn [negb].
  - destruct (exited_ok _); cbn [trace snd];
      rewrite !elem_of_cons, !elem_of_nil; intros H.
    + destruct H as [?|[?|[?|[?|[?|[?|[]]]]]]]; discriminate.
    + destruct H as [?|[?|[?|[?|[H|[?|[?|[]]]]]]]]; try discriminate.
      injection H as ->. right; right; right; right; right; by left.
  - cbn [trace snd]. rewrite !elem_of_cons, !elem_of_nil. intros H.
    destruct H as [?|[?|[?|[H|[?|[?|[]]]]]]]; try discriminate.
    injection H as ->. right; right; right; right; by left.
Qed.

(** The step that raised is the last one of the sequence, and nothing but
    the report follows its events. *)
Lemma run_raise_in_sequence fs e :
  res (run_steps rt self fs) = Raise e →
  ∃ returned out,
    in_sequence (setup_step_list rt self) fs = returned ++ [out] ∧
    res out = Raise e ∧
    trace (run rt self fs)
    = EvPrint banner :: concat (trace <$> returned) ++ trace out
      ++ [EvPrint (failure_message rt e); EvRaise (SystemExit 1)].
Proof.
  intros E.
  destruct (chain_in_sequence (setup_step_list rt self) (print_next_steps self) fs)
    as (_ & Hres & _ & Htr). cbv zeta in *.
  rewrite <- run_steps_chain in Hres, Htr. rewrite E in Hres.
  set (outs := in_sequence (setup_step_list rt self) fs) in *.
  destruct (last_result outs) as [[]|e'] eqn:Er; cbn [succeeded] in *.
  { by rewrite print_next_steps_ok in Hres. }
  injection Hres as <-. unfold last_result in Er.
  destruct (last outs) as [out|] eqn:El; [|done]. cbn in Er.
  apply last_Some in El as [returned Houts].
  exists returned, out. split; [done|split; [done|]].
  rewrite (run_raise_message rt self fs e E), Htr, Houts.
  rewrite fmap_app, concat_app. cbn [fmap list_fmap concat].
  by rewrite !app_nil_r, <- !app_assoc.
Qed.

(** In the calls and returns of a run, the call of [setup_git_hooks] is
    always followed by its return and by the call of
    [create_claude_config]. *)
Lemma run_continues_after_git_hooks fs t1 t2 :
  step_events (trace (run rt self fs)) = t1 ++ EvCall SetupGitHooks :: t2 →
  ∃ t3, t2 = EvReturn SetupGitHooks :: EvCall CreateClaudeConfig :: t3.
Proof.
  destruct (run_step_events rt self fs)
    as [[_ ->]|(before & m & after & _ & Hs & Hm & ->)].
  - intros H. vm_compute in H.
    repeat (destruct t1 as [|? t1];
            [simplify_eq/=; eauto|first [discriminate H|injection H as _ H]]).
  - unfold setup_steps in Hs.
    repeat (destruct before as [|? before];
            [simplify_eq/=;
             intros H;
             repeat (destruct t1 as [|? t1];
                     [simplify_eq/=; eauto|first [discriminate H|injection H as _ H]])
            |first [discriminate Hs|injection Hs as <- Hs]]).
Qed.

End fatal_lemmas.

(** C1, amended.  An exception that leaves a setup step is fatal: the
    step is the last one of the sequence that is run, nothing follows its
    events but the report that [run] prints, which carries the text of
    the exception, and [SystemExit(1)], so that the exit status is 1; the
    failing step is the last method entered and it is never
    [setup_git_hooks].  An exception raised inside [setup_git_hooks] does
    not leave it: that step returns normally after printing a warning
    with the text of the exception, and in every run its call is followed
    by its return and by the call of [create_claude_config]. *)
Theorem run_escaping_exception_fatal
    (rt : Runtime) (self : ProjectInitializer) (fs : FS) :
  (∀ e, res (run_steps rt self fs) = Raise e →
        res (run rt self fs) = Raise (SystemExit 1) ∧
        exit_status (res (run rt self fs)) = 1%Z ∧
        (∃ returned out,
           in_sequence (setup_step_list rt self) fs = returned ++ [out] ∧
           res out = Raise e ∧
           trace (run rt self fs)
           = EvPrint banner :: concat (trace <$> returned) ++ trace out
             ++ [EvPrint (failure_message rt e); EvRaise (SystemExit 1)]) ∧
        (∃ before m after,
           setup_steps = before ++ m :: after ∧ m ≠ SetupGitHooks ∧
           step_events (trace (run rt self fs)) = completed before ++ [EvCall m])) ∧
  (∀ fs', res (setup_git_hooks rt self fs') = Ok tt ∧
          ∀ e, EvRaise e ∈ trace (setup_git_hooks rt self fs') →
               hooks_warning rt e ∈ trace (setup_git_hooks rt self fs')) ∧
  (∀ t1 t2,
     step_events (trace (run rt self fs)) = t1 ++ EvCall SetupGitHooks :: t2 →
     ∃ t3, t2 = EvReturn SetupGitHooks :: EvCall CreateClaudeConfig :: t3).
Proof.
  split; [|split].
  - intros e E.
    destruct (run_raise rt self fs e E) as (Hres & _ & _).
    split; [done|split; [by rewrite Hres|split]].
    + by apply run_raise_in_sequence.
    + destruct (run_step_events rt self fs)
        as [[Hok _]|(before & m & after & _ & Hs & Hm & Ht)]; [congruence|].
      by exists before, m, after.
  - intros fs'. split; [apply setup_git_hooks_returns|].
    intros e. apply setup_git_hooks_warns.
  - apply run_continues_after_git_hooks.
Qed.

(** The pip upgrade fails in the sample project: the run is aborted in
    [install_dependencies] and reports the failed command. *)
Lemma run_escaping_exception_fatal_witness :
  let rt := rt_sample fails_pip_upgrade in
  let out := run rt (new_ProjectInitializer rt) fs_sample in
  res out = Raise (SystemExit 1) ∧
  exit_status (res out) = 1%Z ∧
  step_events (trace out)
  = [EvCall CreateVirtualEnvironment; EvReturn CreateVirtualEnvironment;
     EvCall InstallDependencies].
Proof.
  intros rt out.
  destruct (run_escaping_exception_fatal rt (new_ProjectInitializer rt) fs_sample)
    as (Hfatal & _ & _).
  destruct (Hfatal (CalledProcessError 1
              ["/home/dev/project/.venv/bin/pip"; "install"; "--upgrade"; "pip"]))
    as (Hres & Hexit & _ & _).
  - by vm_compute.
  - split; [exact Hres|]. split; [exact Hexit|by vm_compute].
Defined.

(** In the run in which [pip install pre-commit] fails, the warning is
    printed and [create_claude_config] is entered next. *)
Example git_hooks_failure_continues :
  let rt := rt_sample fails_pre_commit in
  let out := run rt (new_ProjectInitializer rt) fs_sample in
  res out = Ok tt ∧
  hooks_warning rt (CalledProcessError 1
                      ["/home/dev/project/.venv/bin/pip"; "install"; "pre-commit"])
    ∈ trace out ∧
  drop 8 (step_events (trace out))
  = [EvCall SetupGitHooks; EvReturn SetupGitHooks;
     EvCall CreateClaudeConfig; EvReturn CreateClaudeConfig;
     EvCall PrintNextSteps; EvReturn PrintNextSteps].
Proof.
  intros rt out. split; [by vm_compute|]. split; [|by vm_compute].
  apply list_elem_of_In. vm_compute. do 25 right. by left.
Qed.
